(** * Retail data analytics: intent schema, query router and chat pipeline

    A shallow embedding of
      - [schemas/intent.py]         (the [Intent] model and its validation),
      - [services/data_service.py]  (the calls the router can make and
                                     the HTTP client behind them),
      - [services/query_router.py]  ([_interpret_date_range], [route_intent]),
      - [llm/intent_parser.py], [llm/response_generator.py]
                                    ([parse_intent], [generate_response]),
      - [flask_app.py]              (the [chat] endpoint and the REST views),
      - [load_csv_to_sqlite.py]     ([load_csv]),
    followed by the properties of these layers.

    Python values decoded from JSON are the inductive [value]; a Python
    [dict] with string keys is a [gmap string value].  Strings are
    sequences of code points below 256, so [str.strip] and [str.lower]
    are the Latin-1 restrictions of Python's. *)

From Stdlib Require Import ZArith String Ascii List Lia.
From Stdlib Require Import Floats.SpecFloat.
From stdpp Require Import gmap strings list fin_maps pretty.

#[local] Set Warnings "-register-all".
#[local] Arguments String.append !s1 s2 : simpl nomatch.

(** ** Python values *)

Inductive value : Type :=
| VNone
| VBool (b : bool)
| VInt (z : Z)
| VFloat (f : spec_float)
| VStr (s : string)
| VList (l : list value)
| VDict (d : gmap string value).

Abbreviation dict := (gmap string value).

(** [bool(v)]: the truth value Python gives to [v]. *)
Definition truthy (v : value) : bool :=
  match v with
  | VNone => false
  | VBool b => b
  | VInt z => negb (Z.eqb z 0)
  | VFloat (S754_zero _) => false
  | VFloat _ => true
  | VStr s => negb (String.eqb s "")
  | VList l => negb (bool_decide (l = []))
  | VDict d => negb (bool_decide (d = ∅))
  end.

(** [a or b] *)
Definition py_or (a b : value) : value := if truthy a then a else b.

(** [d.get(k)]: [None] when the key is absent. *)
Definition py_get (d : dict) (k : string) : value := default VNone (d !! k).

(** [v is None] *)
Definition is_None (v : value) : bool :=
  match v with VNone => true | _ => false end.

(** [v == {}]: among JSON values only an empty dict equals [{}]. *)
Definition eq_empty_dict (v : value) : bool :=
  match v with VDict d => bool_decide (d = ∅) | _ => false end.

(** [v in (None, {})] *)
Definition in_None_or_empty (v : value) : bool := is_None v || eq_empty_dict v.

(** A dict display [{k1: v1, ..., kn: vn}] with distinct keys. *)
Definition mkdict (l : list (string * value)) : dict := list_to_map l.

Definition of_opt_int (o : option Z) : value :=
  match o with Some z => VInt z | None => VNone end.

Definition of_opt_str (o : option string) : value :=
  match o with Some s => VStr s | None => VNone end.

(** ** Python string operations *)

Definition code (c : ascii) : N := N_of_ascii c.

(** [c.isspace()] below code point 256: TAB..CR, FS..US, SPACE, NEL, NBSP. *)
Definition isspace (c : ascii) : bool :=
  let n := code c in
  ((9 <=? n) && (n <=? 13) || (28 <=? n) && (n <=? 32)
   || (n =? 133) || (n =? 160))%N.

(** [c.lower()] below code point 256: A..Z and the Latin-1 capitals
    À..Þ (except the multiplication sign) move up by 32. *)
Definition lower_char (c : ascii) : ascii :=
  let n := code c in
  if ((65 <=? n) && (n <=? 90)
      || (192 <=? n) && (n <=? 222) && negb (n =? 215))%N
  then ascii_of_N (n + 32) else c.

Fixpoint lower (s : string) : string :=
  match s with
  | EmptyString => EmptyString
  | String c s' => String (lower_char c) (lower s')
  end.

Fixpoint lstrip (s : string) : string :=
  match s with
  | EmptyString => EmptyString
  | String c s' => if isspace c then lstrip s' else s
  end.

Fixpoint rstrip (s : string) : string :=
  match s with
  | EmptyString => EmptyString
  | String c s' =>
      match rstrip s' with
      | EmptyString => if isspace c then EmptyString else String c EmptyString
      | r => String c r
      end
  end.

(** [s.strip()] *)
Definition strip (s : string) : string := lstrip (rstrip s).

(** [s.startswith(p)] *)
Fixpoint startswith (p s : string) : bool :=
  match p, s with
  | EmptyString, _ => true
  | String a p', String b s' => Ascii.eqb a b && startswith p' s'
  | String _ _, EmptyString => false
  end.

(** [sub in s] for strings. *)
Fixpoint str_in (sub s : string) : bool :=
  startswith sub s
  || match s with
     | EmptyString => false
     | String _ s' => str_in sub s'
     end.

Fixpoint str_drop (n : nat) (s : string) : string :=
  match n, s with
  | O, _ => s
  | S n', String _ s' => str_drop n' s'
  | S _, EmptyString => EmptyString
  end.

(** The two parts of [s.split(sep, 1)] when [sep in s]: what precedes
    the leftmost occurrence of [sep] and what follows it. *)
Fixpoint split_once (sep s : string) : string * string :=
  if startswith sep s then (EmptyString, str_drop (String.length sep) s)
  else match s with
       | EmptyString => (EmptyString, EmptyString)
       | String c s' =>
           let '(a, b) := split_once sep s' in (String c a, b)
       end.

(** [s or None] for a string [s]. *)
Definition or_None (s : string) : option string :=
  if String.eqb s "" then None else Some s.

(** [x in {s1, ..., sn}] for a set display of strings. *)
Definition str_in_set (x : string) (l : list string) : bool :=
  existsb (String.eqb x) l.

(** ** Exceptions and results *)

(** An exception: its class and [str(exc)]. *)
Record exn : Type := Exn { exn_class : string; exn_msg : string }.

Inductive result (E A : Type) : Type :=
| Ok (a : A)
| Raised (e : E).
Arguments Ok {E A} a.
Arguments Raised {E A} e.

(** ** schemas/intent.py *)

Record Intent : Type := mkIntent {
  intent : string;
  customer_id : option Z;
  product_id : option string;
  metric : option string;
  top_n : option Z;
  date_range : option string
}.

(** The values of [Literal["customer", "product", "business_metric"]]. *)
Definition intent_literals : list string :=
  ["customer"; "product"; "business_metric"].

(** [Intent.model_dump()] *)
Definition model_dump (i : Intent) : dict :=
  mkdict [("intent", VStr (intent i));
          ("customer_id", of_opt_int (customer_id i));
          ("product_id", of_opt_str (product_id i));
          ("metric", of_opt_str (metric i));
          ("top_n", of_opt_int (top_n i));
          ("date_range", of_opt_str (date_range i))].

Section Validation.
(** pydantic validates each field against its annotation on its own.
    What it converts into an [int] or a [str] from an input of another
    type is the library's; the two conversions are taken as given. *)
Variable lax_int : value -> option Z.
Variable lax_str : value -> option string.

(** A required [Literal[...]] field: present and equal to one of the
    literals. *)
Definition validate_literal (lits : list string) (v : option value)
  : option string :=
  match v with
  | Some (VStr s) => if str_in_set s lits then Some s else None
  | _ => None
  end.

(** An [Optional[int]] field with default [None]. *)
Definition validate_optional_int (v : option value) : option (option Z) :=
  match v with
  | None | Some VNone => Some None
  | Some (VInt z) => Some (Some z)
  | Some w => Some <$> lax_int w
  end.

(** An [Optional[str]] field with default [None]. *)
Definition validate_optional_str (v : option value)
  : option (option string) :=
  match v with
  | None | Some VNone => Some None
  | Some (VStr s) => Some (Some s)
  | Some w => Some <$> lax_str w
  end.

(** The field reported when its validation [r] failed. *)
Definition field_error {A} (name : string) (r : option A) : list string :=
  match r with Some _ => [] | None => [name] end.

(** [Intent.model_validate(candidate)] on a decoded JSON object: the
    model, or the fields a [ValidationError] reports. *)
Definition model_validate (candidate : dict) : result (list string) Intent :=
  let k := validate_literal intent_literals (candidate !! "intent") in
  let c := validate_optional_int (candidate !! "customer_id") in
  let p := validate_optional_str (candidate !! "product_id") in
  let m := validate_optional_str (candidate !! "metric") in
  let n := validate_optional_int (candidate !! "top_n") in
  let d := validate_optional_str (candidate !! "date_range") in
  match k, c, p, m, n, d with
  | Some k, Some c, Some p, Some m, Some n, Some d =>
      Ok (mkIntent k c p m n d)
  | _, _, _, _, _, _ =>
      Raised (field_error "intent" k ++ field_error "customer_id" c
              ++ field_error "product_id" p ++ field_error "metric" m
              ++ field_error "top_n" n ++ field_error "date_range" d)%list
  end.
End Validation.

(** ** services/data_service.py *)

(** One constructor per function of the data service, with its
    arguments. *)
Inductive request : Type :=
| get_customer (customer_id : Z) (date_from date_to : option string)
| get_product (product_id : string) (date_from date_to : option string)
| get_metrics_summary (date_from date_to : option string)
| get_metrics_by_category (date_from date_to : option string)
| get_metrics_by_payment (date_from date_to : option string)
| get_top_customers (limit : Z) (date_from date_to : option string)
| get_top_products (limit : Z) (date_from date_to : option string).

(** ** services/query_router.py *)

(** A routing computation: it returns, raises, or calls the data service
    and goes on with the decoded payload ([Dict[str, Any]]). *)
Inductive router (A : Type) : Type :=
| Return (a : A)
| Raise (e : exn)
| Fetch (r : request) (k : dict -> router A).
Arguments Return {A} a.
Arguments Raise {A} e.
Arguments Fetch {A} r k.

Fixpoint bind {A B} (m : router A) (f : A -> router B) : router B :=
  match m with
  | Return a => f a
  | Raise e => Raise e
  | Fetch r k => Fetch r (fun d => bind (k d) f)
  end.

Notation "'do' x <- m ; k" := (bind m (fun x => k))
  (at level 10, x name, m at level 100, k at level 200).

Definition fetch (r : request) : router dict := Fetch r Return.

(** Running a computation against a data service: the calls made, in
    order, and the outcome.  A [DataServiceError] of the service
    propagates. *)
Fixpoint run {A} (data_service : request -> result exn dict) (m : router A)
  : list request * result exn A :=
  match m with
  | Return a => ([], Ok a)
  | Raise e => ([], Raised e)
  | Fetch r k =>
      match data_service r with
      | Ok d => let '(t, o) := run data_service (k d) in (r :: t, o)
      | Raised e => ([r], Raised e)
      end
  end.

Definition _TRIM_LIMIT : Z := 15.

Module RoutedResult.
Record t : Type := mk { intent : Intent; data : dict }.

Definition to_dict (r : t) : dict :=
  mkdict [("intent", VDict (model_dump (intent r))); ("data", VDict (data r))].
End RoutedResult.
Abbreviation RoutedResult := RoutedResult.t.

Definition RoutingError (msg : string) : exn := Exn "RoutingError" msg.

Definition _interpret_date_range (date_range : option string)
  : option string * option string :=
  match date_range with
  | None => (None, None)
  | Some s =>
      if negb (truthy (VStr s)) then (None, None)
      else if str_in ".." s then
        let '(start, end_) := split_once ".." s in
        (or_None (strip start), or_None (strip end_))
      else (None, None)
  end.

(** [len(l)] and [total > _TRIM_LIMIT] *)
Definition len (l : list value) : Z := Z.of_nat (length l).

(** [l[:n]] for [0 <= n] *)
Definition slice_to (n : Z) (l : list value) : list value := take (Z.to_nat n) l.

Definition supported_metrics : value :=
  VList [VStr "summary"; VStr "top_customers"; VStr "top_products";
         VStr "metrics_by_category"; VStr "metrics_by_payment"].

(** The four assignments that trim a transaction list into [target]. *)
Definition trim_transactions (transactions : list value) (target : dict) : dict :=
  let total := len transactions in
  <["transactionsTruncated" := VBool (_TRIM_LIMIT <? total)%Z]>
    (<["transactionsLimit" := VInt _TRIM_LIMIT]>
       (<["transactionCount" := VInt total]>
          (<["transactions" := VList (slice_to _TRIM_LIMIT transactions)]> target))).

(** [trimmed_summary] of the product branch. *)
Definition trim_summary (summary : value) : value :=
  match summary with
  | VDict s =>
      match py_get s "stores" with
      | VList stores =>
          let total_stores := len stores in
          VDict (<["stores" := VList (slice_to _TRIM_LIMIT stores)]>
                   (<["storesLimit" := VInt _TRIM_LIMIT]>
                      (<["storesTruncated" := VBool (_TRIM_LIMIT <? total_stores)%Z]>
                         (<["storeCount" := VInt total_stores]> s))))
      | _ => VDict s
      end
  | _ => summary
  end.

Definition _TOP_N_MAX : Z := 15.

(** [intent.top_n or 5] *)
Definition top_n_or_5 (top_n : option Z) : Z :=
  match top_n with
  | Some n => if (n =? 0)%Z then 5%Z else n
  | None => 5%Z
  end.

(** [intent.top_n is not None and intent.top_n > _TOP_N_MAX] *)
Definition exceeds_cap (top_n : option Z) : bool :=
  match top_n with
  | Some n => (_TOP_N_MAX <? n)%Z
  | None => false
  end.

(** The annotation of a top-N payload when the request exceeded the cap. *)
Definition annotate_limit (top_n : option Z) (payload : dict) : dict :=
  if exceeds_cap top_n then
    <["limitApplied" := VInt _TOP_N_MAX]>
      (<["limitRequested" := of_opt_int top_n]> payload)
  else payload.

(** [route_intent(intent)].  A payload is what the data service is
    declared to return, a [dict], so the test [isinstance(payload, dict)]
    of the customer branch holds and is not written. *)
Definition route_intent (i : Intent) : router RoutedResult :=
  if String.eqb (intent i) "customer" then
    match customer_id i with
    | None =>
        Return (RoutedResult.mk i
                  (mkdict [("status", VStr "ambiguous_intent");
                           ("reason", VStr "customer_id_missing")]))
    | Some cid =>
        let '(date_from, date_to) := _interpret_date_range (date_range i) in
        do payload <- fetch (get_customer cid date_from date_to);
        if negb (truthy (VDict payload))
           || (negb (truthy (py_get payload "transactions"))
               && is_None (py_get payload "summary"))
        then
          Return (RoutedResult.mk i
                    (mkdict [("status", VStr "no_data");
                             ("reason", VStr "no_customer_transactions");
                             ("customerId", VInt cid)]))
        else
          match py_get payload "transactions" with
          | VList transactions =>
              Return (RoutedResult.mk i (trim_transactions transactions payload))
          | _ => Return (RoutedResult.mk i payload)
          end
    end
  else if String.eqb (intent i) "product" then
    match product_id i with
    | None =>
        Return (RoutedResult.mk i
                  (mkdict [("status", VStr "ambiguous_intent");
                           ("reason", VStr "product_id_missing")]))
    | Some pid =>
        let '(date_from, date_to) := _interpret_date_range (date_range i) in
        do payload <- fetch (get_product pid date_from date_to);
        let summary := py_or (py_get payload "summary") (VDict ∅) in
        let trimmed_summary := trim_summary summary in
        if negb (truthy (VDict payload))
           || in_None_or_empty trimmed_summary
           || match trimmed_summary with
              | VDict ts =>
                  negb (truthy (py_get ts "transactionCount"))
                  && negb (truthy (py_get ts "totalQuantity"))
                  && negb (truthy (py_get ts "totalRevenue"))
              | _ => false
              end
        then
          Return (RoutedResult.mk i
                    (mkdict [("status", VStr "no_data");
                             ("reason", VStr "no_product_transactions");
                             ("productId", VStr pid)]))
        else
          let slim_payload :=
            mkdict [("productId", py_get payload "productId");
                    ("summary", trimmed_summary);
                    ("filters", py_get payload "filters")] in
          match py_get payload "transactions" with
          | VList transactions =>
              Return (RoutedResult.mk i (trim_transactions transactions slim_payload))
          | _ => Return (RoutedResult.mk i slim_payload)
          end
    end
  else if String.eqb (intent i) "business_metric" then
    let metric_ := lower (strip (default "" (metric i))) in
    let '(date_from, date_to) := _interpret_date_range (date_range i) in
    if negb (truthy (VStr metric_)) then
      Return (RoutedResult.mk i
                (mkdict [("status", VStr "ambiguous_intent");
                         ("reason", VStr "business_metric_unspecified");
                         ("supportedMetrics", supported_metrics)]))
    else if str_in "store" metric_ || str_in "location" metric_ then
      Return (RoutedResult.mk i
                (mkdict [("status", VStr "unsupported_metric");
                         ("reason", VStr "metric_not_supported");
                         ("requestedMetric", of_opt_str (metric i));
                         ("supportedMetrics", supported_metrics)]))
    else if str_in_set metric_
              ["summary"; "overview"; "kpis"; "revenue_summary";
               "total_revenue"; "revenue"] then
      do payload <- fetch (get_metrics_summary date_from date_to);
      Return (RoutedResult.mk i payload)
    else if str_in_set metric_
              ["metrics_by_category"; "revenue_by_category";
               "category_revenue"; "revenue_per_category"] then
      do payload <- fetch (get_metrics_by_category date_from date_to);
      Return (RoutedResult.mk i payload)
    else if str_in_set metric_
              ["metrics_by_payment"; "revenue_by_payment"; "payment_revenue";
               "revenue_per_payment"; "by_payment"] then
      do payload <- fetch (get_metrics_by_payment date_from date_to);
      Return (RoutedResult.mk i payload)
    else if String.eqb metric_ "top_customers" then
      let limit := Z.min (top_n_or_5 (top_n i)) _TOP_N_MAX in
      do payload <- fetch (get_top_customers limit date_from date_to);
      Return (RoutedResult.mk i (annotate_limit (top_n i) payload))
    else if str_in_set metric_ ["top_products"] then
      let limit := Z.min (top_n_or_5 (top_n i)) _TOP_N_MAX in
      do payload <- fetch (get_top_products limit date_from date_to);
      Return (RoutedResult.mk i (annotate_limit (top_n i) payload))
    else
      Return (RoutedResult.mk i
                (mkdict [("status", VStr "unsupported_metric");
                         ("reason", VStr "metric_not_recognized");
                         ("requestedMetric", of_opt_str (metric i));
                         ("supportedMetrics", supported_metrics)]))
  else
    Raise (RoutingError ("Unsupported intent type: " +:+ intent i)).

(** ** flask_app.py: the chat endpoint *)

(** [type(v).__name__] *)
Definition type_name (v : value) : string :=
  match v with
  | VNone => "NoneType"
  | VBool _ => "bool"
  | VInt _ => "int"
  | VFloat _ => "float"
  | VStr _ => "str"
  | VList _ => "list"
  | VDict _ => "dict"
  end.

(** What a view returns: the JSON body and the HTTP status. *)
Record response : Type := Response { body : dict; status : Z }.

(** [jsonify(d), code]; a bare [jsonify(d)] has status 200. *)
Definition jsonify (d : dict) (code : Z) : response := Response d code.

Section Chat.
(** The two language-model stages and the data service the router
    calls; each returns or raises. *)
Variable parse_intent : string -> result exn Intent.
Variable data_service : request -> result exn dict.
Variable generate_response : string -> dict -> result exn string.

(** [chat()], given [request.get_json(silent=True)].  An exception the
    view does not catch is [Raised]. *)
Definition chat (json : value) : result exn response :=
  match py_or json (VDict ∅) with
  | VDict payload =>
      match py_get payload "query" with
      | VStr q =>
          if negb (truthy (VStr (strip q))) then
            Ok (jsonify
                  (mkdict [("error", VStr "BadRequest");
                           ("message",
                            VStr "Field 'query' (non-empty string) is required.")])
                  400)
          else
            let user_query := strip q in
            match parse_intent user_query with
            | Raised exc =>
                Ok (jsonify
                      (mkdict [("error", VStr "IntentParsingFailed");
                               ("message", VStr (exn_msg exc))])
                      400)
            | Ok intent =>
                match snd (run data_service (route_intent intent)) with
                | Raised exc =>
                    Ok (jsonify
                          (mkdict [("error", VStr "RoutingFailed");
                                   ("message", VStr (exn_msg exc));
                                   ("intent", VDict (model_dump intent))])
                          400)
                | Ok routed =>
                    let routed_payload := RoutedResult.to_dict routed in
                    match generate_response user_query routed_payload with
                    | Raised exc =>
                        Ok (jsonify
                              (mkdict [("error", VStr "ResponseGenerationFailed");
                                       ("message", VStr (exn_msg exc));
                                       ("intent", VDict (model_dump intent));
                                       ("data", VDict routed_payload)])
                              502)
                    | Ok answer =>
                        Ok (jsonify
                              (mkdict [("intent", VDict (model_dump intent));
                                       ("data", VDict routed_payload);
                                       ("answer", VStr answer)])
                              200)
                    end
                end
            end
      | _ =>
          Ok (jsonify
                (mkdict [("error", VStr "BadRequest");
                         ("message",
                          VStr "Field 'query' (non-empty string) is required.")])
                400)
      end
  | other =>
      Raised (Exn "AttributeError"
                ("'" +:+ type_name other +:+ "' object has no attribute 'get'"))
  end.
End Chat.

(** ** The forms of date range the specification names *)

Definition isdigit (c : ascii) : bool := ((48 <=? code c) && (code c <=? 57))%N.

(** [has_form form s]: [s] has the length of [form], a digit wherever
    [form] has one of the letters Y, M, D and the same character
    elsewhere. *)
Fixpoint has_form (form s : string) : bool :=
  match form, s with
  | EmptyString, EmptyString => true
  | String f form', String c s' =>
      (if str_in (String f "") "YMD" then isdigit c else Ascii.eqb f c)
      && has_form form' s'
  | _, _ => false
  end.

Definition is_iso_date (s : string) : bool := has_form "YYYY-MM-DD" s.

Definition exact_form (s : string) : bool := has_form "YYYY-MM-DD..YYYY-MM-DD" s.

(** Every character of [s] satisfies [P]. *)
Fixpoint str_forall (P : ascii -> bool) (s : string) : bool :=
  match s with
  | EmptyString => true
  | String c s' => P c && str_forall P s'
  end.

(** [s] begins with a white-space character. *)
Definition starts_with_space (s : string) : bool :=
  match s with
  | EmptyString => false
  | String c _ => isspace c
  end.

(** [s] ends with a white-space character. *)
Fixpoint ends_with_space (s : string) : bool :=
  match s with
  | EmptyString => false
  | String c s' =>
      match s' with
      | EmptyString => isspace c
      | String _ _ => ends_with_space s'
      end
  end.

(** ** Observations on calls and metric names *)

(** The date bounds a call to the data service carries. *)
Definition request_dates (r : request) : option string * option string :=
  match r with
  | get_customer _ date_from date_to
  | get_product _ date_from date_to
  | get_metrics_summary date_from date_to
  | get_metrics_by_category date_from date_to
  | get_metrics_by_payment date_from date_to
  | get_top_customers _ date_from date_to
  | get_top_products _ date_from date_to => (date_from, date_to)
  end.

(** The metric names [route_intent] compares a normalized metric with. *)
Definition summary_like : list string :=
  ["summary"; "overview"; "kpis"; "revenue_summary"; "total_revenue"; "revenue"].

Definition category_like : list string :=
  ["metrics_by_category"; "revenue_by_category"; "category_revenue";
   "revenue_per_category"].

Definition payment_like : list string :=
  ["metrics_by_payment"; "revenue_by_payment"; "payment_revenue";
   "revenue_per_payment"; "by_payment"].

(** [(intent.metric or "").strip().lower()] *)
Definition normalized_metric (i : Intent) : string :=
  lower (strip (default "" (metric i))).

(** ** llm/intent_parser.py and llm/response_generator.py *)

Definition IntentParsingError (msg : string) : exn := Exn "IntentParsingError" msg.

Section Stages.
(** The calls to the language model, each as the text of the reply
    ([getattr(resp, "text", None)]) or the exception of the call;
    [json.loads], [None] standing for a [JSONDecodeError]; [str] of a
    decoded candidate; and the conversions of the validator. *)
Variable intent_model : string -> result exn (option string).
Variable response_model : string -> dict -> result exn (option string).
Variable json_loads : string -> option value.
Variable py_str : value -> string.
Variable lax_int : value -> option Z.
Variable lax_str : value -> option string.

(** [parse_intent(user_query)].  A candidate that is not an object fails
    validation like one with a bad field. *)
Definition parse_intent (user_query : string) : result exn Intent :=
  match intent_model user_query with
  | Raised exc => Raised exc
  | Ok raw_text =>
      if negb (truthy (of_opt_str raw_text)) then
        Raised (IntentParsingError
                  "LLM returned empty response while parsing intent.")
      else
        let raw_text := default "" raw_text in
        match json_loads raw_text with
        | None =>
            Raised (IntentParsingError
                      ("LLM output was not valid JSON: " +:+ raw_text))
        | Some candidate =>
            match candidate with
            | VDict fields =>
                match model_validate lax_int lax_str fields with
                | Ok intent => Ok intent
                | Raised _ =>
                    Raised (IntentParsingError
                              ("LLM output failed schema validation: "
                               +:+ py_str candidate))
                end
            | _ =>
                Raised (IntentParsingError
                          ("LLM output failed schema validation: "
                           +:+ py_str candidate))
            end
        end
  end.

(** [generate_response(user_query, data)] *)
Definition generate_response (user_query : string) (data : dict)
  : result exn string :=
  match response_model user_query data with
  | Raised exc => Raised exc
  | Ok answer =>
      if negb (truthy (of_opt_str answer)) then
        Raised (Exn "RuntimeError"
                  "LLM returned empty response for answer generation.")
      else Ok (strip (default "" answer))
  end.
End Stages.

(** ** flask_app.py: the REST API over the transactions table *)

(** [s.replace(old, new)] for a non-empty [old]: the occurrences of
    [old] are replaced from the left, [skip] counting the characters of
    an occurrence still to pass. *)
Fixpoint replace_from (skip : nat) (old new s : string) : string :=
  match s with
  | EmptyString => EmptyString
  | String c s' =>
      match skip with
      | S k => replace_from k old new s'
      | O =>
          if startswith old s
          then new +:+ replace_from (String.length old - 1) old new s'
          else String c (replace_from 0 old new s')
      end
  end.

Definition str_replace (old new s : string) : string := replace_from 0 old new s.

(** [sep.join(l)] *)
Fixpoint str_join (sep : string) (l : list string) : string :=
  match l with
  | [] => ""
  | [x] => x
  | x :: l' => x +:+ sep +:+ str_join sep l'
  end.

(** The number of occurrences of the character [c] in [s]. *)
Fixpoint count_char (c : ascii) (s : string) : nat :=
  match s with
  | EmptyString => 0
  | String d s' => (if Ascii.eqb c d then 1 else 0) + count_char c s'
  end.

Module flask_app.

(** A view of the API: it returns, or executes a statement with its
    parameters and goes on with the rows fetched, each as [dict(row)]. *)
Inductive view (A : Type) : Type :=
| Done (a : A)
| Execute (sql : string) (params : list value) (k : list dict -> view A).
Arguments Done {A} a.
Arguments Execute {A} sql params k.

(** Running a view against a database: the statements executed, in
    order, with their parameters, and the outcome.  An exception of the
    database leaves the view. *)
Fixpoint run_view {A} (database : string -> list value -> result exn (list dict))
    (v : view A) : list (string * list value) * result exn A :=
  match v with
  | Done a => ([], Ok a)
  | Execute sql params k =>
      match database sql params with
      | Ok rows =>
          let '(t, o) := run_view database (k rows) in ((sql, params) :: t, o)
      | Raised e => ([(sql, params)], Raised e)
      end
  end.

(** [_parse_date_range_params()], given [request.args]. *)
Definition _parse_date_range_params (args : gmap string string)
  : option string * option string :=
  let date_from := args !! "from" in
  let date_to := args !! "to" in
  (date_from, date_to).

Definition _build_date_range_where (date_from date_to : option string)
  : string * list value :=
  let clauses : list string := [] in
  let params : list value := [] in
  let '(clauses, params) :=
    if truthy (of_opt_str date_from)
    then (clauses ++ ["TransactionDate >= ?"],
          params ++ [VStr (default "" date_from +:+ " 00:00")])
    else (clauses, params) in
  let '(clauses, params) :=
    if truthy (of_opt_str date_to)
    then (clauses ++ ["TransactionDate <= ?"],
          params ++ [VStr (default "" date_to +:+ " 23:59")])
    else (clauses, params) in
  if negb (bool_decide (clauses = []))
  then ("WHERE " +:+ str_join " AND " clauses, params)
  else ("", params).

(** ["filters": {"from": date_from, "to": date_to}] *)
Definition filters (date_from date_to : option string) : value :=
  VDict (mkdict [("from", of_opt_str date_from); ("to", of_opt_str date_to)]).

(** [dict(row) if row else None] of [cur.fetchone()] *)
Definition fetchone (rows : list dict) : value :=
  match rows with
  | row :: _ => VDict row
  | [] => VNone
  end.

(** [GET /api/customers/<int:customer_id>] *)
Definition get_customer (customer_id : Z) (args : gmap string string)
  : view response :=
  let '(date_from, date_to) := _parse_date_range_params args in
  let '(date_where, date_params) := _build_date_range_where date_from date_to in
  let '(customer_where, all_params) :=
    if truthy (VStr date_where)
    then ("WHERE CustomerID = ? AND " +:+ str_replace "WHERE " "" date_where,
          VInt customer_id :: date_params)
    else ("WHERE CustomerID = ?", [VInt customer_id]) in
  Execute ("
            SELECT *
            FROM transactions
            " +:+ customer_where +:+ "
            ORDER BY TransactionDate ASC
            ") all_params (fun rows =>
  if negb (truthy (VList (VDict <$> rows))) then
    Done (jsonify
            (mkdict [("customerId", VInt customer_id);
                     ("transactions", VList []);
                     ("summary", VNone);
                     ("filters", filters date_from date_to)])
            200)
  else
    Execute ("
            SELECT
                COUNT(*) AS transactionCount,
                SUM(TotalAmount) AS totalSpend,
                MIN(TransactionDate) AS firstTransaction,
                MAX(TransactionDate) AS lastTransaction
            FROM transactions
            " +:+ customer_where +:+ "
            ") all_params (fun summary_rows =>
    Done (jsonify
            (mkdict [("customerId", VInt customer_id);
                     ("transactions", VList (VDict <$> rows));
                     ("summary", fetchone summary_rows);
                     ("filters", filters date_from date_to)])
            200))).

(** [GET /api/products/<product_id>] *)
Definition get_product (product_id : string) (args : gmap string string)
  : view response :=
  let product_id := strip product_id in
  let '(date_from, date_to) := _parse_date_range_params args in
  let '(date_where, date_params) := _build_date_range_where date_from date_to in
  let '(product_where, all_params) :=
    if truthy (VStr date_where)
    then ("WHERE ProductID = ? AND " +:+ str_replace "WHERE " "" date_where,
          VStr product_id :: date_params)
    else ("WHERE ProductID = ?", [VStr product_id]) in
  Execute ("
            SELECT *
            FROM transactions
            " +:+ product_where +:+ "
            ORDER BY TransactionDate ASC
            ") all_params (fun rows =>
  if negb (truthy (VList (VDict <$> rows))) then
    Done (jsonify
            (mkdict [("productId", VStr product_id);
                     ("transactions", VList []);
                     ("summary", VNone);
                     ("filters", filters date_from date_to)])
            200)
  else
    Execute ("
            SELECT
                COUNT(*) AS transactionCount,
                SUM(Quantity) AS totalQuantity,
                SUM(TotalAmount) AS totalRevenue,
                COUNT(DISTINCT CustomerID) AS uniqueCustomers,
                AVG(DiscountAppliedPct) AS averageDiscountPct
            FROM transactions
            " +:+ product_where +:+ "
            ") all_params (fun summary_rows =>
    Execute ("
            SELECT DISTINCT StoreLocation
            FROM transactions
            " +:+ product_where +:+ "
            ORDER BY StoreLocation
            ") all_params (fun store_rows =>
    let stores := (fun r => py_get r "StoreLocation") <$> store_rows in
    let summary :=
      match fetchone summary_rows with
      | VDict summary =>
          VDict (<["storeCount" := VInt (len stores)]>
                   (<["stores" := VList stores]> summary))
      | other => other
      end in
    Done (jsonify
            (mkdict [("productId", VStr product_id);
                     ("transactions", VList (VDict <$> rows));
                     ("summary", summary);
                     ("filters", filters date_from date_to)])
            200)))).

(** [GET /api/metrics/summary] *)
Definition metrics_summary (args : gmap string string) : view response :=
  let '(date_from, date_to) := _parse_date_range_params args in
  let '(where_sql, params) := _build_date_range_where date_from date_to in
  Execute ("
            SELECT
                COUNT(*) AS transactionCount,
                SUM(TotalAmount) AS totalRevenue,
                COUNT(DISTINCT CustomerID) AS uniqueCustomers,
                COUNT(DISTINCT ProductID) AS uniqueProducts,
                MIN(TransactionDate) AS firstTransaction,
                MAX(TransactionDate) AS lastTransaction
            FROM transactions
            " +:+ where_sql +:+ "
            ") params (fun rows =>
  Done (jsonify
          (mkdict [("filters", filters date_from date_to);
                   ("summary", fetchone rows)])
          200)).

(** [GET /api/metrics/by_category] *)
Definition metrics_by_category (args : gmap string string) : view response :=
  let '(date_from, date_to) := _parse_date_range_params args in
  let '(where_sql, params) := _build_date_range_where date_from date_to in
  Execute ("
            SELECT
                ProductCategory,
                COUNT(*) AS transactionCount,
                SUM(Quantity) AS totalQuantity,
                SUM(TotalAmount) AS totalRevenue
            FROM transactions
            " +:+ where_sql +:+ "
            GROUP BY ProductCategory
            ORDER BY totalRevenue DESC
            ") params (fun rows =>
  Done (jsonify
          (mkdict [("filters", filters date_from date_to);
                   ("metrics", VList (VDict <$> rows))])
          200)).

(** [GET /api/metrics/by_payment] *)
Definition metrics_by_payment (args : gmap string string) : view response :=
  let '(date_from, date_to) := _parse_date_range_params args in
  let '(where_sql, params) := _build_date_range_where date_from date_to in
  Execute ("
            SELECT
                PaymentMethod,
                COUNT(*) AS transactionCount,
                SUM(Quantity) AS totalQuantity,
                SUM(TotalAmount) AS totalRevenue
            FROM transactions
            " +:+ where_sql +:+ "
            GROUP BY PaymentMethod
            ORDER BY totalRevenue DESC
            ") params (fun rows =>
  Done (jsonify
          (mkdict [("filters", filters date_from date_to);
                   ("metrics", VList (VDict <$> rows))])
          200)).

Section TopN.
(** [int(text)], [None] standing for a [ValueError]. *)
Variable py_int : string -> option Z.

(** [requested_limit] of the two top-N views. *)
Definition requested_limit (args : gmap string string) : Z :=
  match py_int (default "5" (args !! "limit")) with
  | Some n => n
  | None => 5%Z
  end.

(** The annotation of a capped request. *)
Definition annotate_out (requested : Z) (out : dict) : dict :=
  if (15 <? requested)%Z then
    <["limitApplied" := VInt 15]> (<["limitRequested" := VInt requested]> out)
  else out.

(** [GET /api/metrics/top_customers] *)
Definition metrics_top_customers (args : gmap string string) : view response :=
  let requested_limit := requested_limit args in
  let limit := Z.max 1 (Z.min requested_limit 15) in
  let '(date_from, date_to) := _parse_date_range_params args in
  let '(where_sql, params) := _build_date_range_where date_from date_to in
  Execute ("
            SELECT
                CustomerID,
                COUNT(*) AS transactionCount,
                SUM(TotalAmount) AS totalRevenue
            FROM transactions
            " +:+ where_sql +:+ "
            GROUP BY CustomerID
            ORDER BY totalRevenue DESC
            LIMIT " +:+ pretty limit +:+ "
            ") params (fun rows =>
  let out := mkdict [("filters", filters date_from date_to);
                     ("limit", VInt limit);
                     ("metrics", VList (VDict <$> rows))] in
  Done (jsonify (annotate_out requested_limit out) 200)).

(** [GET /api/metrics/top_products] *)
Definition metrics_top_products (args : gmap string string) : view response :=
  let requested_limit := requested_limit args in
  let limit := Z.max 1 (Z.min requested_limit 15) in
  let '(date_from, date_to) := _parse_date_range_params args in
  let '(where_sql, params) := _build_date_range_where date_from date_to in
  Execute ("
            SELECT
                ProductID,
                COUNT(*) AS transactionCount,
                SUM(Quantity) AS totalQuantity,
                SUM(TotalAmount) AS totalRevenue
            FROM transactions
            " +:+ where_sql +:+ "
            GROUP BY ProductID
            ORDER BY totalRevenue DESC, totalQuantity DESC
            LIMIT " +:+ pretty limit +:+ "
            ") params (fun rows =>
  let out := mkdict [("filters", filters date_from date_to);
                     ("limit", VInt limit);
                     ("metrics", VList (VDict <$> rows))] in
  Done (jsonify (annotate_out requested_limit out) 200)).
End TopN.

End flask_app.

(** ** services/data_service.py *)

Module data_service.

(** What the client reads of a [requests.Response]: [ok], [status_code],
    [text], and the value of [json()], [None] standing for its
    [ValueError]. *)
Record http_response : Type := HttpResponse {
  ok : bool;
  status_code : Z;
  text : string;
  json : option value
}.

(** A computation of the client: it returns, raises, or calls
    [requests.get(url, params=params, timeout=timeout)] and goes on with
    the response.  The [params] dict is kept in insertion order. *)
Inductive client (A : Type) : Type :=
| Return (a : A)
| Raise (e : exn)
| Get (url : string) (params : option (list (string * value))) (timeout : Z)
      (k : http_response -> client A).
Arguments Return {A} a.
Arguments Raise {A} e.
Arguments Get {A} url params timeout k.

(** Running a computation against [requests.get]: the calls made, in
    order, and the outcome.  An exception of the transport propagates. *)
Fixpoint run_client {A}
    (requests_get : string -> option (list (string * value)) -> Z
                    -> result exn http_response)
    (m : client A)
  : list (string * option (list (string * value)) * Z) * result exn A :=
  match m with
  | Return a => ([], Ok a)
  | Raise e => ([], Raised e)
  | Get url params timeout k =>
      match requests_get url params timeout with
      | Ok resp =>
          let '(t, o) := run_client requests_get (k resp) in
          ((url, params, timeout) :: t, o)
      | Raised e => ([(url, params, timeout)], Raised e)
      end
  end.

Definition DataServiceError (msg : string) : exn := Exn "DataServiceError" msg.

Definition _handle_response (resp : http_response) : client value :=
  if negb (ok resp) then
    Raise (DataServiceError
             ("API request failed: " +:+ pretty (status_code resp) +:+ " "
              +:+ text resp))
  else
    match json resp with
    | Some v => Return v
    | None => Raise (DataServiceError "API response was not valid JSON")
    end.

(** [params or None] *)
Definition params_or_None (params : list (string * value))
  : option (list (string * value)) :=
  match params with
  | [] => None
  | _ => Some params
  end.

Section Client.
(** [config.API_BASE_URL] *)
Variable API_BASE_URL : string.

Definition get_customer (customer_id : Z) (date_from date_to : option string)
  : client value :=
  let url := API_BASE_URL +:+ "/api/customers/" +:+ pretty customer_id in
  let params : list (string * value) := [] in
  let params :=
    if truthy (of_opt_str date_from)
    then params ++ [("from", of_opt_str date_from)] else params in
  let params :=
    if truthy (of_opt_str date_to)
    then params ++ [("to", of_opt_str date_to)] else params in
  Get url (params_or_None params) 10 _handle_response.

Definition get_product (product_id : string) (date_from date_to : option string)
  : client value :=
  let url := API_BASE_URL +:+ "/api/products/" +:+ product_id in
  let params : list (string * value) := [] in
  let params :=
    if truthy (of_opt_str date_from)
    then params ++ [("from", of_opt_str date_from)] else params in
  let params :=
    if truthy (of_opt_str date_to)
    then params ++ [("to", of_opt_str date_to)] else params in
  Get url (params_or_None params) 10 _handle_response.

Definition get_metrics_summary (date_from date_to : option string)
  : client value :=
  let url := API_BASE_URL +:+ "/api/metrics/summary" in
  let params : list (string * value) := [] in
  let params :=
    if truthy (of_opt_str date_from)
    then params ++ [("from", of_opt_str date_from)] else params in
  let params :=
    if truthy (of_opt_str date_to)
    then params ++ [("to", of_opt_str date_to)] else params in
  Get url (params_or_None params) 10 _handle_response.

Definition get_metrics_by_category (date_from date_to : option string)
  : client value :=
  let url := API_BASE_URL +:+ "/api/metrics/by_category" in
  let params : list (string * value) := [] in
  let params :=
    if truthy (of_opt_str date_from)
    then params ++ [("from", of_opt_str date_from)] else params in
  let params :=
    if truthy (of_opt_str date_to)
    then params ++ [("to", of_opt_str date_to)] else params in
  Get url (params_or_None params) 10 _handle_response.

Definition get_metrics_by_payment (date_from date_to : option string)
  : client value :=
  let url := API_BASE_URL +:+ "/api/metrics/by_payment" in
  let params : list (string * value) := [] in
  let params :=
    if truthy (of_opt_str date_from)
    then params ++ [("from", of_opt_str date_from)] else params in
  let params :=
    if truthy (of_opt_str date_to)
    then params ++ [("to", of_opt_str date_to)] else params in
  Get url (params_or_None params) 10 _handle_response.

Definition get_top_customers (limit : Z) (date_from date_to : option string)
  : client value :=
  let url := API_BASE_URL +:+ "/api/metrics/top_customers" in
  let params : list (string * value) := [("limit", VInt limit)] in
  let params :=
    if truthy (of_opt_str date_from)
    then params ++ [("from", of_opt_str date_from)] else params in
  let params :=
    if truthy (of_opt_str date_to)
    then params ++ [("to", of_opt_str date_to)] else params in
  Get url (Some params) 10 _handle_response.

Definition get_top_products (limit : Z) (date_from date_to : option string)
  : client value :=
  let url := API_BASE_URL +:+ "/api/metrics/top_products" in
  let params : list (string * value) := [("limit", VInt limit)] in
  let params :=
    if truthy (of_opt_str date_from)
    then params ++ [("from", of_opt_str date_from)] else params in
  let params :=
    if truthy (of_opt_str date_to)
    then params ++ [("to", of_opt_str date_to)] else params in
  Get url (Some params) 10 _handle_response.
End Client.

End data_service.

(** The function of the data service a call of the router stands for,
    with the arguments the router passes by keyword. *)
Definition data_service_call (API_BASE_URL : string) (r : request)
  : data_service.client value :=
  match r with
  | get_customer customer_id date_from date_to =>
      data_service.get_customer API_BASE_URL customer_id date_from date_to
  | get_product product_id date_from date_to =>
      data_service.get_product API_BASE_URL product_id date_from date_to
  | get_metrics_summary date_from date_to =>
      data_service.get_metrics_summary API_BASE_URL date_from date_to
  | get_metrics_by_category date_from date_to =>
      data_service.get_metrics_by_category API_BASE_URL date_from date_to
  | get_metrics_by_payment date_from date_to =>
      data_service.get_metrics_by_payment API_BASE_URL date_from date_to
  | get_top_customers limit date_from date_to =>
      data_service.get_top_customers API_BASE_URL limit date_from date_to
  | get_top_products limit date_from date_to =>
      data_service.get_top_products API_BASE_URL limit date_from date_to
  end.

(** The value the data service sends for a date bound: nothing for an
    absent or empty one. *)
Definition sent_bound (bound : option string) : option value :=
  match bound with
  | Some s => if String.eqb s "" then None else Some (VStr s)
  | None => None
  end.

(** The limit a call to the data service carries. *)
Definition request_limit (r : request) : option Z :=
  match r with
  | get_top_customers limit _ _ | get_top_products limit _ _ => Some limit
  | _ => None
  end.

(** The path of the endpoint a call to the data service asks. *)
Definition request_path (r : request) : string :=
  match r with
  | get_customer customer_id _ _ => "/api/customers/" +:+ pretty customer_id
  | get_product product_id _ _ => "/api/products/" +:+ product_id
  | get_metrics_summary _ _ => "/api/metrics/summary"
  | get_metrics_by_category _ _ => "/api/metrics/by_category"
  | get_metrics_by_payment _ _ => "/api/metrics/by_payment"
  | get_top_customers _ _ _ => "/api/metrics/top_customers"
  | get_top_products _ _ _ => "/api/metrics/top_products"
  end.

(** ** load_csv_to_sqlite.py *)

Module load_csv_to_sqlite.

(** The connection and the terminal, as [load_csv] acts on them: the
    rows of [transactions] that are committed, in the order of insertion
    and without their [id]; the rows inserted by the open transaction;
    the lines printed. *)
Record world : Type := World {
  table : list (list value);
  uncommitted : list (list value);
  stdout : list string
}.

(** [conn.commit()] *)
Definition commit (w : world) : world :=
  World (table w ++ uncommitted w) [] (stdout w).

(** [print(line)] *)
Definition print (line : string) (w : world) : world :=
  World (table w) (uncommitted w) (stdout w ++ [line]).

(** What [load_csv] reads of the [csv.DictReader]: [reader.fieldnames],
    which is [None] for an empty file, and the rows it yields, a field
    without a value being an absent key. *)
Record DictReader : Type := Reader {
  fieldnames : option (list string);
  reader_rows : list (gmap string string)
}.

Definition expected_fields : list string :=
  ["CustomerID"; "ProductID"; "Quantity"; "Price"; "TransactionDate";
   "PaymentMethod"; "StoreLocation"; "ProductCategory"; "DiscountApplied(%)";
   "TotalAmount"].

Definition batch_size : Z := 2000.

Section Loader.
(** [int(text)] and [float(text)], [None] standing for a [ValueError]. *)
Variable py_int : string -> option Z.
Variable py_float : string -> option spec_float.
(** [dt.datetime.strptime(raw, "%m/%d/%Y %H:%M").strftime("%Y-%m-%d %H:%M")],
    [None] standing for the [ValueError] of [strptime]. *)
Variable reformat : string -> option string.
(** [str] of a row and of the list of field names. *)
Variable show_row : gmap string string -> string.
Variable show_fieldnames : list string -> string.
(** The message of the [TypeError] of [c not in None]. *)
Variable not_iterable : string.
(** The exception [sqlite3] raises when it inserts the tuple, as it does
    for an integer beyond 64 bits; [None] when the row is inserted. *)
Variable insert_error : list value -> option exn.

(** [cur.executemany("INSERT INTO transactions (...) VALUES (...)", rows)]:
    the rows are inserted one by one, up to the first that fails. *)
Fixpoint executemany (rows : list (list value)) (w : world)
  : world * result exn unit :=
  match rows with
  | [] => (w, Ok tt)
  | tuple :: rows' =>
      match insert_error tuple with
      | Some e => (w, Raised e)
      | None =>
          executemany rows' (World (table w) (uncommitted w ++ [tuple]) (stdout w))
      end
  end.

Definition parse_transaction_date (raw : string) : option string :=
  let raw := strip raw in
  reformat raw.

(** The body of the [try] of [load_csv], with the tuple appended to
    [rows]; [None] stands for any exception. *)
Definition parse_row (row : gmap string string) : option (list value) :=
  customer_id ← row !! "CustomerID" ≫= py_int;
  product_id ← strip <$> row !! "ProductID";
  quantity ← row !! "Quantity" ≫= py_int;
  price ← row !! "Price" ≫= py_float;
  tx_date ← row !! "TransactionDate" ≫= parse_transaction_date;
  payment_method ← strip <$> row !! "PaymentMethod";
  store_location ← strip <$> row !! "StoreLocation";
  product_category ← strip <$> row !! "ProductCategory";
  discount_pct ← row !! "DiscountApplied(%)" ≫= py_float;
  total_amount ← row !! "TotalAmount" ≫= py_float;
  Some [VInt customer_id; VStr product_id; VInt quantity; VFloat price;
        VStr tx_date; VStr payment_method; VStr store_location;
        VStr product_category; VFloat discount_pct; VFloat total_amount].

(** The [for row in reader] loop of [load_csv], from the rows still to
    read, the batch [rows] and [total]. *)
Fixpoint load_rows (reader : list (gmap string string))
    (rows : list (list value)) (total : Z) (w : world)
  : world * result exn (list (list value) * Z) :=
  match reader with
  | [] => (w, Ok (rows, total))
  | row :: reader' =>
      match parse_row row with
      | None =>
          (w, Raised (Exn "RuntimeError"
                        ("Failed to parse row: " +:+ show_row row)))
      | Some tuple =>
          let rows := rows ++ [tuple] in
          if (batch_size <=? Z.of_nat (length rows))%Z then
            match executemany rows w with
            | (w, Raised e) => (w, Raised e)
            | (w, Ok _) =>
                let w := commit w in
                let total := (total + Z.of_nat (length rows))%Z in
                let w := print ("Inserted " +:+ pretty total +:+ " rows...") w in
                load_rows reader' [] total w
            end
          else
            load_rows reader' rows total w
      end
  end.

Definition load_csv (reader : DictReader) (w : world)
  : world * result exn unit :=
  match fieldnames reader with
  | None => (w, Raised (Exn "TypeError" not_iterable))
  | Some names =>
      let missing :=
        filter (fun c => negb (bool_decide (c ∈ names))) expected_fields in
      if negb (bool_decide (missing = [])) then
        (w, Raised (Exn "RuntimeError"
                      ("CSV is missing expected columns: "
                       +:+ str_join ", " missing +:+ "; found: "
                       +:+ show_fieldnames names)))
      else
        match load_rows (reader_rows reader) [] 0 w with
        | (w, Raised e) => (w, Raised e)
        | (w, Ok (rows, total)) =>
            let '(w, inserted) :=
              if negb (bool_decide (rows = [])) then
                match executemany rows w with
                | (w, Raised e) => (w, Raised e)
                | (w, Ok _) =>
                    let w := commit w in
                    (w, Ok (total + Z.of_nat (length rows))%Z)
                end
              else (w, Ok total) in
            match inserted with
            | Raised e => (w, Raised e)
            | Ok total =>
                (print ("Finished inserting " +:+ pretty total
                        +:+ " rows into transactions.") w, Ok tt)
            end
        end
  end.
End Loader.

End load_csv_to_sqlite.

(** The progress lines [load_csv] prints for [batches] full batches,
    [total] rows having been inserted before. *)
Definition inserted_lines (total : Z) (batches : nat) : list string :=
  (fun j => "Inserted " +:+ pretty (total + 2000 * Z.of_nat j)%Z +:+ " rows...")
    <$> seq 1 batches.

(** ** Fixtures, after the tests of the repository *)

(** A data service that answers every call with [d]. *)
Definition serve (d : dict) : request -> result exn dict := fun _ => Ok d.

(** The float 100.0 *)
Definition f100 : spec_float := S754_finite false 7036874417766400 (-46).

(** [[{"id": i} for i in range(30)]] *)
Definition thirty_transactions : list value :=
  (fun n => VDict (mkdict [("id", VInt (Z.of_nat n))])) <$> seq 0 30.

Definition customer_30 : dict :=
  mkdict [("customerId", VInt 1);
          ("transactions", VList thirty_transactions);
          ("summary", VDict (mkdict [("transactionCount", VInt 30);
                                     ("totalSpend", VFloat f100)]));
          ("filters", VDict ∅)].

Definition customer_empty : dict :=
  mkdict [("customerId", VInt 999);
          ("transactions", VList []);
          ("summary", VNone);
          ("filters", VDict ∅)].

Definition customer_intent (id : option Z) : Intent :=
  mkIntent "customer" id None None None None.

Definition product_intent (id : option string) : Intent :=
  mkIntent "product" None id None None None.

Definition metric_intent (m : option string) (n : option Z) : Intent :=
  mkIntent "business_metric" None None m n None.

(** A product whose aggregates are all zero but whose summary lists a
    store. *)
Definition product_zero : dict :=
  mkdict [("productId", VStr "A");
          ("transactions", VList []);
          ("summary", VDict (mkdict [("transactionCount", VInt 0);
                                     ("totalQuantity", VInt 0);
                                     ("totalRevenue", VFloat (S754_zero false));
                                     ("stores", VList [VStr "Store 0"])]));
          ("filters", VDict ∅)].

(** What the top-N endpoints answer for [limit]: no rows here. *)
Definition top_payload (limit : Z) : dict :=
  mkdict [("filters", VDict (mkdict [("from", VNone); ("to", VNone)]));
          ("limit", VInt limit);
          ("metrics", VList [])].

(** A data service for the top-N calls that echoes the limit it is given. *)
Definition serve_top (r : request) : result exn dict :=
  match r with
  | get_top_customers limit _ _ | get_top_products limit _ _ =>
      Ok (top_payload limit)
  | _ => Raised (Exn "DataServiceError" "API request failed: 404 ")
  end.

(** Stubs for the stages of the chat pipeline. *)
Definition query_body : dict := mkdict [("query", VStr " what did customer 999 buy? ")].


Definition parse_customer_999 (_ : string) : result exn Intent :=
  Ok (customer_intent (Some 999%Z)).

Definition service_down (_ : request) : result exn dict :=
  Raised (Exn "DataServiceError" "API request failed: 500 ").


Definition render_ok (_ : string) (_ : dict) : result exn string :=
  Ok "No transactions were found for customer 999.".

(** The routed result for customer 999 on the empty fixture. *)
Definition routed_999 : RoutedResult :=
  RoutedResult.mk (customer_intent (Some 999%Z))
    (mkdict [("status", VStr "no_data");
             ("reason", VStr "no_customer_transactions");
             ("customerId", VInt 999)]).

(** Candidates of tests/test_schemas_intent.py and two more. *)
Definition candidate_customer : dict :=
  mkdict [("intent", VStr "customer"); ("customer_id", VInt 123);
          ("product_id", VNone); ("metric", VStr "summary");
          ("date_range", VNone)].

Definition candidate_invalid : dict :=
  mkdict [("intent", VStr "invalid_type"); ("customer_id", VNone);
          ("product_id", VNone); ("metric", VNone); ("date_range", VNone)].

Definition candidate_negative_id : dict :=
  mkdict [("intent", VStr "customer"); ("customer_id", VInt (-1))].

Definition candidate_empty_product : dict :=
  mkdict [("intent", VStr "product"); ("product_id", VStr "")].

(** Validation without any conversion between types. *)
Definition strict_int (_ : value) : option Z := None.
Definition strict_str (_ : value) : option string := None.

(** The product of [test_product_trims_stores_to_15]: 25 stores. *)
Definition twenty_five_stores : list value :=
  (fun n => VStr ("Store " +:+ pretty n)) <$> seq 0 25.

Definition product_25_summary : dict :=
  mkdict [("transactionCount", VInt 5);
          ("totalQuantity", VInt 10);
          ("totalRevenue", VFloat f100);
          ("stores", VList twenty_five_stores)].

Definition product_25 : dict :=
  mkdict [("productId", VStr "A");
          ("transactions", VList []);
          ("summary", VDict product_25_summary);
          ("filters", VDict ∅)].

(** Replies of the language model and a decoder for two texts. *)
Definition model_says (text : option string) (_ : string)
  : result exn (option string) := Ok text.

Definition renderer_says (text : option string) (_ : string) (_ : dict)
  : result exn (option string) := Ok text.

Definition decode_fixture (text : string) : option value :=
  if String.eqb text "{customer 123}" then Some (VDict candidate_customer)
  else if String.eqb text "{invalid}" then Some (VDict candidate_invalid)
  else if String.eqb text "[]" then Some (VList [])
  else None.

Definition show_fixture (_ : value) : string := "{...}".

(** A table without a matching row: every statement fetches nothing. *)
Definition no_rows (_ : string) (_ : list value) : result exn (list dict) :=
  Ok [].

(** The query arguments [?from=2024-01-01&to=2024-01-31]. *)
Definition january : gmap string string :=
  {[ "from" := "2024-01-01"; "to" := "2024-01-31" ]}.

(** The first statement of [GET /api/customers/7] with [january]. *)
Definition customer_statement : string * list value :=
  ("
            SELECT *
            FROM transactions
            WHERE CustomerID = ? AND TransactionDate >= ? AND TransactionDate <= ?
            ORDER BY TransactionDate ASC
            ",
   [VInt 7; VStr "2024-01-01 00:00"; VStr "2024-01-31 23:59"]).

(** [int(text)] on the two texts the fixtures use. *)
Definition int_of_text (text : string) : option Z :=
  if String.eqb text "5" then Some 5%Z
  else if String.eqb text "50" then Some 50%Z
  else None.

(** The query arguments [?limit=50]. *)
Definition fifty : gmap string string := {[ "limit" := "50" ]}.

(** [float(text)] and the reformatting of the date on the texts the
    fixtures use. *)
Definition float_of_text (text : string) : option spec_float :=
  if String.eqb text "100.0" then Some f100 else None.

Definition date_of_text (raw : string) : option string :=
  if String.eqb raw "12/26/2023 12:32" then Some "2023-12-26 12:32" else None.

Definition show_row_fixture (_ : gmap string string) : string := "{...}".
Definition show_names_fixture (_ : list string) : string := "[...]".

(** A row of the CSV, with padded texts, and the tuple it gives. *)
Definition csv_row (customer : string) : gmap string string :=
  list_to_map
    [("CustomerID", customer); ("ProductID", " A "); ("Quantity", "5");
     ("Price", "100.0"); ("TransactionDate", " 12/26/2023 12:32");
     ("PaymentMethod", "Cash"); ("StoreLocation", "1 Main St ");
     ("ProductCategory", "Books"); ("DiscountApplied(%)", "100.0");
     ("TotalAmount", "100.0")].

Definition csv_tuple (customer : Z) : list value :=
  [VInt customer; VStr "A"; VInt 5; VFloat f100; VStr "2023-12-26 12:32";
   VStr "Cash"; VStr "1 Main St"; VStr "Books"; VFloat f100; VFloat f100].

(** A header with the expected columns in another order and one more. *)
Definition shuffled_header : list string :=
  "Notes" :: reverse load_csv_to_sqlite.expected_fields.

Definition two_rows : load_csv_to_sqlite.DictReader :=
  load_csv_to_sqlite.Reader (Some shuffled_header) [csv_row "5"; csv_row "50"].

Definition second_row_bad : load_csv_to_sqlite.DictReader :=
  load_csv_to_sqlite.Reader (Some shuffled_header)
    [csv_row "5"; csv_row "x"; csv_row "50"].

Definition short_header : load_csv_to_sqlite.DictReader :=
  load_csv_to_sqlite.Reader (Some ["CustomerID"; "Quantity"]) [csv_row "5"].

Definition empty_file : load_csv_to_sqlite.DictReader :=
  load_csv_to_sqlite.Reader None [].

Definition fresh_world : load_csv_to_sqlite.world :=
  load_csv_to_sqlite.World [] [] [].

(** The database refuses an integer beyond 64 bits. *)
Definition int64_error (tuple : list value) : option exn :=
  if forallb (fun v => match v with
                       | VInt n => (- 2 ^ 63 <=? n)%Z && (n <? 2 ^ 63)%Z
                       | _ => true
                       end) tuple
  then None
  else Some (Exn "OverflowError" "Python int too large to convert to SQLite INTEGER").

(** * Properties *)

#[local] Arguments Ascii.eqb : simpl never.
#[local] Arguments isdigit : simpl never.
#[local] Arguments isspace : simpl never.

(** ** Strings *)

Lemma startswith_app (p r : string) : startswith p (p +:+ r) = true.
Proof.
  induction p as [|c p IH]; simpl; [reflexivity |].
  now rewrite Ascii.eqb_refl, IH.
Qed.

Lemma startswith_drop (p s : string) :
  startswith p s = true -> s = p +:+ str_drop (String.length p) s.
Proof.
  revert s; induction p as [|c p IH]; intros [|d s]; simpl; try easy.
  intros H. apply andb_prop in H as [Hc Hp].
  apply Ascii.eqb_eq in Hc. subst d. f_equal. now apply IH.
Qed.

Lemma str_in_startswith (w s : string) : startswith w s = true -> str_in w s = true.
Proof. intros H. destruct s; simpl; rewrite H; reflexivity. Qed.

Lemma str_in_app (w pre post : string) : str_in w (pre +:+ (w +:+ post)) = true.
Proof.
  induction pre as [|c pre IH]; simpl.
  - apply str_in_startswith, startswith_app.
  - rewrite IH. apply orb_true_r.
Qed.

Lemma str_in_empty (w : string) : str_in w "" = true -> w = "".
Proof. destruct w; simpl; [reflexivity | discriminate]. Qed.

(** [split_once] cuts [s] around an occurrence of [sep], and no
    occurrence starts earlier. *)
Lemma split_once_spec (sep s : string) :
  str_in sep s = true ->
  s = (split_once sep s).1 +:+ (sep +:+ (split_once sep s).2)
  /\ forall a b, s = a +:+ (sep +:+ b) ->
       String.length (split_once sep s).1 <= String.length a.
Proof.
  induction s as [|c s IH]; intros Hin.
  - apply str_in_empty in Hin. subst sep. simpl. split; [reflexivity | intros; lia].
  - cbn [split_once]. destruct (startswith sep (String c s)) eqn:Hs.
    + simpl. split; [now apply startswith_drop | intros; lia].
    + cbn [str_in] in Hin. rewrite Hs in Hin. simpl in Hin.
      destruct (IH Hin) as [Heq Hmin].
      destruct (split_once sep s) as [a0 b0] eqn:E. simpl in *.
      split; [now rewrite Heq at 1 |].
      intros [|x a] b Hab.
      * simpl in Hab. rewrite Hab, startswith_app in Hs. discriminate.
      * simpl in Hab. injection Hab as -> Hab. simpl.
        apply Hmin in Hab. lia.
Qed.


Lemma str_drop_app (p r : string) : str_drop (String.length p) (p +:+ r) = r.
Proof. induction p as [|c p IH]; simpl; [reflexivity | exact IH]. Qed.

(** A string whose characters all differ from the first character of
    [w] does not contain [w]. *)
Lemma str_in_absent (x : ascii) (w s : string) :
  str_forall (fun c => negb (Ascii.eqb x c)) s = true ->
  str_in (String x w) s = false.
Proof.
  induction s as [|c s IH]; simpl; [reflexivity |].
  intros H. apply andb_prop in H as [Hc Hs].
  apply negb_true_iff in Hc. rewrite Hc, IH by exact Hs. reflexivity.
Qed.

Lemma split_once_unfold (sep s : string) :
  split_once sep s
  = if startswith sep s then ("", str_drop (String.length sep) s)
    else match s with
         | "" => ("", "")
         | String c s' => let '(a, b) := split_once sep s' in (String c a, b)
         end.
Proof. destruct s; reflexivity. Qed.

Lemma split_once_fresh (x : ascii) (w a b : string) :
  str_forall (fun c => negb (Ascii.eqb x c)) a = true ->
  split_once (String x w) (a +:+ (String x w +:+ b)) = (a, b).
Proof.
  induction a as [|c a IH]; intros H; rewrite split_once_unfold.
  - change ("" +:+ (String x w +:+ b)) with (String x w +:+ b).
    now rewrite startswith_app, str_drop_app.
  - simpl in H. apply andb_prop in H as [Hc Ha]. apply negb_true_iff in Hc.
    change (String c a +:+ (String x w +:+ b))
      with (String c (a +:+ (String x w +:+ b))).
    cbn [startswith]. rewrite Hc. cbn [andb]. now rewrite (IH Ha).
Qed.

Lemma str_forall_impl (P Q : ascii -> bool) (s : string) :
  (forall c, P c = true -> Q c = true) ->
  str_forall P s = true -> str_forall Q s = true.
Proof.
  intros HPQ. induction s as [|c s IH]; simpl; [reflexivity |].
  intros H. apply andb_prop in H as [Hc Hs]. now rewrite (HPQ _ Hc), IH.
Qed.

Lemma rstrip_nospace (s : string) :
  str_forall (fun c => negb (isspace c)) s = true -> rstrip s = s.
Proof.
  induction s as [|c s IH]; simpl; [reflexivity |].
  intros H. apply andb_prop in H as [Hc Hs]. apply negb_true_iff in Hc.
  rewrite (IH Hs), Hc. now destruct s.
Qed.

Lemma lstrip_nospace (s : string) :
  str_forall (fun c => negb (isspace c)) s = true -> lstrip s = s.
Proof.
  destruct s as [|c s]; simpl; [reflexivity |].
  intros H. apply andb_prop in H as [Hc _]. apply negb_true_iff in Hc.
  now rewrite Hc.
Qed.

Lemma strip_nospace (s : string) :
  str_forall (fun c => negb (isspace c)) s = true -> strip s = s.
Proof.
  intros H. unfold strip. rewrite (rstrip_nospace _ H). now apply lstrip_nospace.
Qed.

(** ** Date forms *)

Lemma has_form_app (f1 f2 s : string) :
  has_form (f1 +:+ f2) s = true ->
  exists s1 s2, s = s1 +:+ s2 /\ has_form f1 s1 = true /\ has_form f2 s2 = true.
Proof.
  revert s. induction f1 as [|f f1 IH]; intros s H.
  - exists "", s. now split.
  - destruct s as [|c s]; [discriminate H |].
    simpl in H. apply andb_prop in H as [Hc Hs].
    destruct (IH _ Hs) as (s1 & s2 & -> & H1 & H2).
    exists (String c s1), s2. simpl. rewrite Hc, H1. now split.
Qed.

Lemma has_form_dots (s : string) : has_form ".." s = true -> s = "..".
Proof.
  destruct s as [|a [|b [|c s]]]; simpl; try discriminate.
  - now rewrite andb_false_r.
  - rewrite andb_true_r. intros H. apply andb_prop in H as [Ha Hb].
    apply Ascii.eqb_eq in Ha, Hb. now subst.
  - now rewrite !andb_false_r.
Qed.

Lemma digit_plain (c : ascii) :
  isdigit c = true -> negb (Ascii.eqb "." c) && negb (isspace c) = true.
Proof. destruct c as [[] [] [] [] [] [] [] []]; vm_compute; auto. Qed.

Lemma has_form_forall (P : ascii -> bool) (form s : string) :
  (forall c, isdigit c = true -> P c = true) ->
  str_forall (fun f => str_in (String f "") "YMD" || P f) form = true ->
  has_form form s = true -> str_forall P s = true.
Proof.
  intros Hd. revert s. induction form as [|f form IH]; intros [|c s] Hf H;
    try discriminate H; [reflexivity |].
  cbn [str_forall] in Hf. apply andb_prop in Hf as [Hf Hform].
  cbn [has_form] in H. apply andb_prop in H as [Hc Hs].
  cbn [str_forall]. rewrite (IH _ Hform Hs), andb_true_r.
  destruct (str_in (String f "") "YMD"); [now apply Hd |].
  apply Ascii.eqb_eq in Hc. now subst c.
Qed.

(** The characters of a date are digits and dashes: neither dots nor
    white space. *)
Lemma iso_date_plain (d : string) :
  is_iso_date d = true ->
  d <> "" /\ str_forall (fun c => negb (Ascii.eqb "." c)) d = true
  /\ str_forall (fun c => negb (isspace c)) d = true.
Proof.
  unfold is_iso_date. intros H.
  assert (Hp : str_forall (fun c => negb (Ascii.eqb "." c) && negb (isspace c)) d
               = true).
  { apply (has_form_forall _ "YYYY-MM-DD"); [exact digit_plain | reflexivity | exact H]. }
  split; [intros ->; discriminate H |].
  split; eapply str_forall_impl; try exact Hp; intros c Hc;
    apply andb_prop in Hc; tauto.
Qed.

Lemma or_None_nonempty (s : string) : s <> "" -> or_None s = Some s.
Proof.
  intros H. unfold or_None. destruct (String.eqb s "") eqn:E; [|reflexivity].
  apply String.eqb_eq in E. contradiction.
Qed.

Lemma interpret_separated (a b : string) :
  str_forall (fun c => negb (Ascii.eqb "." c)) a = true ->
  _interpret_date_range (Some (a +:+ (".." +:+ b)))
  = (or_None (strip a), or_None (strip b)).
Proof.
  intros Ha. unfold _interpret_date_range.
  rewrite str_in_app.
  change ".." with (String "." ".") at 2 3.
  rewrite (split_once_fresh _ _ _ _ Ha).
  destruct (a +:+ (String "." "." +:+ b)) eqn:E; [|reflexivity].
  destruct a; discriminate E.
Qed.

Lemma space_not_dot (c : ascii) :
  isspace c = true -> negb (Ascii.eqb "." c) = true.
Proof.
  intros H. destruct (Ascii.eqb "." c) eqn:E; [|reflexivity].
  apply Ascii.eqb_eq in E. subst c. discriminate H.
Qed.

Lemma interpret_no_separator (s : string) :
  str_in ".." s = false -> _interpret_date_range (Some s) = (None, None).
Proof.
  intros H. unfold _interpret_date_range. rewrite H.
  now destruct (negb (truthy (VStr s))).
Qed.

(** ** Date-range interpretation *)

(** C2 (as amended).  A range of the exact form YYYY-MM-DD..YYYY-MM-DD is
    interpreted as its two dates; [None], the empty string and strings of
    white space give [(None, None)]; and so does every string in which
    ".." does not occur, such as a bare date or a relative phrase. *)
Theorem interpret_date_range_forms :
  (forall s, exact_form s = true ->
     exists d1 d2, s = d1 +:+ (".." +:+ d2)
       /\ is_iso_date d1 = true /\ is_iso_date d2 = true
       /\ _interpret_date_range (Some s) = (Some d1, Some d2))
  /\ _interpret_date_range None = (None, None)
  /\ _interpret_date_range (Some "") = (None, None)
  /\ (forall s, str_forall isspace s = true ->
        _interpret_date_range (Some s) = (None, None))
  /\ (forall s, str_in ".." s = false ->
        _interpret_date_range (Some s) = (None, None)).
Proof.
  split; [| split; [reflexivity | split; [reflexivity | split]]].
  - intros s H. unfold exact_form in H.
    change "YYYY-MM-DD..YYYY-MM-DD"
      with ("YYYY-MM-DD" +:+ (".." +:+ "YYYY-MM-DD")) in H.
    apply has_form_app in H as (d1 & r & -> & H1 & Hr).
    apply has_form_app in Hr as (dots & d2 & -> & Hdots & H2).
    apply has_form_dots in Hdots. subst dots.
    exists d1, d2. repeat split; try assumption.
    apply iso_date_plain in H1 as (N1 & D1 & S1).
    apply iso_date_plain in H2 as (N2 & _ & S2).
    rewrite (interpret_separated _ _ D1).
    rewrite (strip_nospace _ S1), (strip_nospace _ S2).
    now rewrite !or_None_nonempty.
  - intros s H. apply interpret_no_separator.
    change ".." with (String "." "."). apply str_in_absent.
    revert H. apply str_forall_impl, space_not_dot.
  - exact interpret_no_separator.
Qed.

Lemma interpret_date_range_forms_witness :
  (exists d1 d2, "2024-01-01..2024-12-31" = d1 +:+ (".." +:+ d2)
     /\ is_iso_date d1 = true /\ is_iso_date d2 = true
     /\ _interpret_date_range (Some "2024-01-01..2024-12-31") = (Some d1, Some d2))
  /\ _interpret_date_range (Some "   ") = (None, None)
  /\ _interpret_date_range (Some "2024-01-01") = (None, None).
Proof.
  split; [| split].
  - exact (proj1 interpret_date_range_forms "2024-01-01..2024-12-31" eq_refl).
  - exact (proj1 (proj2 (proj2 (proj2 interpret_date_range_forms))) "   " eq_refl).
  - exact (proj2 (proj2 (proj2 (proj2 interpret_date_range_forms))) "2024-01-01" eq_refl).
Defined.

(** C2 (as stated) fails: a one-sided range is not of the exact form and
    is not the empty string, yet its lower bound is resolved. *)
Lemma one_sided_range_is_parsed :
  exact_form "2024-01-01.." = false
  /\ "2024-01-01.." <> ""
  /\ _interpret_date_range (Some "2024-01-01..") = (Some "2024-01-01", None)
  /\ _interpret_date_range (Some "2024-01-01..") <> (None, None).
Proof. repeat split; try reflexivity; discriminate. Qed.

Lemma app_assoc_str (a b c : string) : (a +:+ b) +:+ c = a +:+ (b +:+ c).
Proof. induction a as [|x a IH]; simpl; [reflexivity | f_equal; exact IH]. Qed.

(** What [lstrip], [rstrip] and [strip] remove is white space, and all
    of it, at their end of the string. *)
Lemma lstrip_spec (s : string) :
  exists l, s = l +:+ lstrip s
    /\ str_forall isspace l = true
    /\ starts_with_space (lstrip s) = false.
Proof.
  induction s as [|c s (l & Hs & Hl & Hfirst)]; [now exists "" |].
  cbn [lstrip]. destruct (isspace c) eqn:Ec.
  - exists (String c l). cbn [str_forall]. rewrite Ec, Hl.
    change (String c l +:+ lstrip s) with (String c (l +:+ lstrip s)).
    now rewrite <- Hs.
  - exists "". cbn [starts_with_space]. now rewrite Ec.
Qed.

Lemma rstrip_spec (s : string) :
  exists r, s = rstrip s +:+ r
    /\ str_forall isspace r = true
    /\ ends_with_space (rstrip s) = false.
Proof.
  induction s as [|c s (r & Hs & Hr & Hlast)]; [now exists "" |].
  cbn [rstrip]. destruct (rstrip s) as [|d t] eqn:E.
  - change ("" +:+ r) with r in Hs. subst r. destruct (isspace c) eqn:Ec.
    + exists (String c s). cbn [str_forall]. now rewrite Ec, Hr.
    + exists s. cbn [ends_with_space]. now rewrite Ec.
  - exists r. change (String c (String d t) +:+ r) with (String c (String d t +:+ r)).
    now rewrite <- Hs.
Qed.

Lemma ends_with_space_lstrip (s : string) :
  ends_with_space s = false -> ends_with_space (lstrip s) = false.
Proof.
  induction s as [|c s IH]; [reflexivity |].
  intros H. cbn [lstrip]. destruct (isspace c) eqn:Ec; [| exact H].
  destruct s as [|d s]; [reflexivity |]. exact (IH H).
Qed.

Lemma strip_spec (x : string) :
  exists l r, x = l +:+ (strip x +:+ r)
    /\ str_forall isspace l = true /\ str_forall isspace r = true
    /\ starts_with_space (strip x) = false
    /\ ends_with_space (strip x) = false.
Proof.
  destruct (rstrip_spec x) as (r & Hx & Hr & Hlast).
  destruct (lstrip_spec (rstrip x)) as (l & Hl & Hsp & Hfirst).
  exists l, r. unfold strip.
  split; [| split; [exact Hsp | split; [exact Hr | split; [exact Hfirst |]]]].
  - rewrite <- app_assoc_str, <- Hl. exact Hx.
  - apply ends_with_space_lstrip, Hlast.
Qed.

(** C10.  A string containing ".." is cut at the first occurrence only;
    each side is trimmed, that is, it loses the white space at its two
    ends and nothing else, and an empty side is absent, so one-sided
    ranges come out. *)
Theorem interpret_date_range_first_separator :
  (forall s, str_in ".." s = true ->
     exists a b start end_ la ra lb rb,
       s = a +:+ (".." +:+ b)
       /\ (forall a' b', s = a' +:+ (".." +:+ b') ->
             String.length a <= String.length a')
       /\ a = la +:+ (start +:+ ra)
       /\ b = lb +:+ (end_ +:+ rb)
       /\ str_forall isspace la = true /\ str_forall isspace ra = true
       /\ str_forall isspace lb = true /\ str_forall isspace rb = true
       /\ starts_with_space start = false /\ ends_with_space start = false
       /\ starts_with_space end_ = false /\ ends_with_space end_ = false
       /\ _interpret_date_range (Some s)
          = (match start with EmptyString => None | _ => Some start end,
             match end_ with EmptyString => None | _ => Some end_ end))
  /\ _interpret_date_range (Some "2024-01-01..") = (Some "2024-01-01", None)
  /\ _interpret_date_range (Some "..2024-12-31") = (None, Some "2024-12-31")
  /\ _interpret_date_range (Some "..") = (None, None)
  /\ _interpret_date_range (Some "a..b..c") = (Some "a", Some "b..c")
  /\ _interpret_date_range (Some " 2024-01-01 .. 2024-12-31 ")
     = (Some "2024-01-01", Some "2024-12-31")
  /\ _interpret_date_range (Some " 2024-01-01 .. ") = (Some "2024-01-01", None)
  /\ _interpret_date_range (Some "  ..  ") = (None, None)
  /\ _interpret_date_range
       (Some (String "009" ("a b" +:+ String "010" (".." +:+ String "160" "c"))))
     = (Some "a b", Some "c").
Proof.
  split; [| repeat split; reflexivity].
  intros s H. destruct (split_once_spec _ _ H) as [Heq Hmin].
  destruct (strip_spec (split_once ".." s).1) as (la & ra & Ha & Hla & Hra & Hfa & Hea).
  destruct (strip_spec (split_once ".." s).2) as (lb & rb & Hb & Hlb & Hrb & Hfb & Heb).
  exists (split_once ".." s).1, (split_once ".." s).2,
    (strip (split_once ".." s).1), (strip (split_once ".." s).2), la, ra, lb, rb.
  do 12 (split; [assumption |]).
  unfold _interpret_date_range. rewrite H.
  destruct s as [|c s]; [discriminate H |].
  cbn [truthy String.eqb negb]. destruct (split_once ".." (String c s)) as [a b].
  cbn [fst snd]. unfold or_None.
  now destruct (strip a), (strip b).
Qed.

Lemma interpret_date_range_first_separator_witness :
  (exists a b start end_ la ra lb rb,
     " 2024-01-01 .. " = a +:+ (".." +:+ b)
     /\ (forall a' b', " 2024-01-01 .. " = a' +:+ (".." +:+ b') ->
           String.length a <= String.length a')
     /\ a = la +:+ (start +:+ ra)
     /\ b = lb +:+ (end_ +:+ rb)
     /\ str_forall isspace la = true /\ str_forall isspace ra = true
     /\ str_forall isspace lb = true /\ str_forall isspace rb = true
     /\ starts_with_space start = false /\ ends_with_space start = false
     /\ starts_with_space end_ = false /\ ends_with_space end_ = false
     /\ _interpret_date_range (Some " 2024-01-01 .. ")
        = (match start with EmptyString => None | _ => Some start end,
           match end_ with EmptyString => None | _ => Some end_ end))
  /\ _interpret_date_range (Some " 2024-01-01 .. ") = (Some "2024-01-01", None)
  /\ _interpret_date_range (Some " 2024-01-01 .. 2024-12-31 ")
     = (Some "2024-01-01", Some "2024-12-31").
Proof.
  split; [| split].
  - exact (proj1 interpret_date_range_first_separator " 2024-01-01 .. " eq_refl).
  - exact (proj1 (proj2 (proj2 (proj2 (proj2 (proj2 (proj2
             interpret_date_range_first_separator))))))).
  - exact (proj1 (proj2 (proj2 (proj2 (proj2 (proj2
             interpret_date_range_first_separator)))))).
Defined.

(** ** Running the router *)

Lemma run_fetch {A} (svc : request -> result exn dict) (r : request)
    (k : dict -> router A) (d : dict) :
  svc r = Ok d ->
  run svc (Fetch r k) = (r :: (run svc (k d)).1, (run svc (k d)).2).
Proof. intros H. cbn [run]. rewrite H. now destruct (run svc (k d)). Qed.

(** Decide the comparisons of string literals in the goal. *)
Ltac decide_literals :=
  repeat match goal with
         | |- context [String.eqb ?a ?b] =>
             let v := eval vm_compute in (String.eqb a b) in
             first [ constr_eq v true | constr_eq v false ];
             change (String.eqb a b) with v
         end;
  cbv iota.

(** Enter the branch of [route_intent] for the kind given by [H]. *)
Ltac route_kind H :=
  unfold route_intent; rewrite H; decide_literals.

(** ** Missing identifiers *)

(** C6.  A customer intent without [customer_id] is answered
    [ambiguous_intent / customer_id_missing], a product intent without
    [product_id] is answered [ambiguous_intent / product_id_missing]; in
    both cases no call to the data service is made. *)
Theorem missing_id_is_ambiguous :
  (forall i, intent i = "customer" -> customer_id i = None ->
     route_intent i
       = Return (RoutedResult.mk i
                   (mkdict [("status", VStr "ambiguous_intent");
                            ("reason", VStr "customer_id_missing")]))
     /\ forall svc,
         run svc (route_intent i)
         = ([], Ok (RoutedResult.mk i
                      (mkdict [("status", VStr "ambiguous_intent");
                               ("reason", VStr "customer_id_missing")]))))
  /\ (forall i, intent i = "product" -> product_id i = None ->
     route_intent i
       = Return (RoutedResult.mk i
                   (mkdict [("status", VStr "ambiguous_intent");
                            ("reason", VStr "product_id_missing")]))
     /\ forall svc,
         run svc (route_intent i)
         = ([], Ok (RoutedResult.mk i
                      (mkdict [("status", VStr "ambiguous_intent");
                               ("reason", VStr "product_id_missing")])))).
Proof.
  split; intros i Hk Hid.
  - assert (E : route_intent i
                = Return (RoutedResult.mk i
                            (mkdict [("status", VStr "ambiguous_intent");
                                     ("reason", VStr "customer_id_missing")]))).
    { route_kind Hk. now rewrite Hid. }
    split; [exact E | intros svc; now rewrite E].
  - assert (E : route_intent i
                = Return (RoutedResult.mk i
                            (mkdict [("status", VStr "ambiguous_intent");
                                     ("reason", VStr "product_id_missing")]))).
    { route_kind Hk. now rewrite Hid. }
    split; [exact E | intros svc; now rewrite E].
Qed.

(** ** Customer payloads *)

Lemma truthy_dict_lookup (d : dict) (k : string) (v : value) :
  d !! k = Some v -> truthy (VDict d) = true.
Proof.
  intros H. cbn [truthy]. case_bool_decide as E; [|reflexivity].
  subst d. rewrite lookup_empty in H. discriminate H.
Qed.

(** A string literal is not among the literals of a list that does not
    list it. *)
Ltac not_listed :=
  rewrite ?not_elem_of_cons; repeat split; try discriminate;
  apply not_elem_of_nil.

Lemma py_get_Some (d : dict) (k : string) (v : value) :
  d !! k = Some v -> py_get d k = v.
Proof. intros H. unfold py_get. now rewrite H. Qed.

Lemma trim_transactions_lookup (txs : list value) (target : dict) :
  let data := trim_transactions txs target in
  data !! "transactions" = Some (VList (take 15 txs))
  /\ data !! "transactionCount" = Some (VInt (Z.of_nat (length txs)))
  /\ data !! "transactionsLimit" = Some (VInt 15)
  /\ data !! "transactionsTruncated" = Some (VBool (bool_decide (15 < length txs)))
  /\ forall k, k ∉ ["transactions"; "transactionCount"; "transactionsLimit";
                     "transactionsTruncated"] ->
       data !! k = target !! k.
Proof.
  unfold trim_transactions, slice_to, len, _TRIM_LIMIT. cbn zeta.
  repeat split.
  - now rewrite !lookup_insert_ne, lookup_insert_eq by done.
  - now rewrite !lookup_insert_ne, lookup_insert_eq by done.
  - now rewrite !lookup_insert_ne, lookup_insert_eq by done.
  - rewrite lookup_insert_eq. do 2 f_equal.
    case_bool_decide as E.
    + apply Z.ltb_lt. lia.
    + apply Z.ltb_ge. lia.
  - intros k Hk. rewrite !lookup_insert_ne; [reflexivity | ..];
      intros <-; apply Hk; set_solver.
Qed.

(** C1 (as amended).  For a customer intent with [customer_id] present,
    when the fetched payload has a list of length L under "transactions"
    and is not the empty result (an empty list together with an absent or
    null summary), the routed payload is the fetched one with
    "transactions" cut to its first min(L, 15) entries and with
    transactionCount = L, transactionsLimit = 15 and
    transactionsTruncated = (L > 15); for L <= 15 the list is unchanged.
    One call is made, to [get_customer]. *)
Theorem customer_transactions_trimmed
    (svc : request -> result exn dict) (i : Intent) (c : Z)
    (payload : dict) (txs : list value) :
  intent i = "customer" ->
  customer_id i = Some c ->
  svc (get_customer c (_interpret_date_range (date_range i)).1
                      (_interpret_date_range (date_range i)).2) = Ok payload ->
  payload !! "transactions" = Some (VList txs) ->
  txs <> [] \/ is_None (py_get payload "summary") = false ->
  exists data,
    run svc (route_intent i)
    = ([get_customer c (_interpret_date_range (date_range i)).1
                       (_interpret_date_range (date_range i)).2],
       Ok (RoutedResult.mk i data))
    /\ data !! "transactions" = Some (VList (take 15 txs))
    /\ length (take 15 txs) = Nat.min (length txs) 15
    /\ (length txs <= 15 -> take 15 txs = txs)
    /\ data !! "transactionCount" = Some (VInt (Z.of_nat (length txs)))
    /\ data !! "transactionsLimit" = Some (VInt 15)
    /\ data !! "transactionsTruncated" = Some (VBool (bool_decide (15 < length txs)))
    /\ forall k, k ∉ ["transactions"; "transactionCount"; "transactionsLimit";
                       "transactionsTruncated"] ->
         data !! k = payload !! k.
Proof.
  intros Hk Hid Hsvc Htx Hdata.
  exists (trim_transactions txs payload).
  destruct (trim_transactions_lookup txs payload) as (L1 & L2 & L3 & L4 & L5).
  split; [| repeat split; try assumption].
  - route_kind Hk. rewrite Hid.
    destruct (_interpret_date_range (date_range i)) as [df dt].
    cbn [fst snd] in Hsvc |- *. cbn [fetch bind].
    rewrite (run_fetch _ _ _ _ Hsvc).
    rewrite (truthy_dict_lookup _ _ _ Htx).
    rewrite (py_get_Some _ _ _ Htx). cbn [truthy negb orb].
    assert (G : negb (negb (bool_decide (txs = []))) &&
                is_None (py_get payload "summary") = false).
    { destruct Hdata as [Hne | Hs].
      - rewrite bool_decide_eq_false_2 by exact Hne. reflexivity.
      - rewrite Hs. apply andb_false_r. }
    rewrite G. reflexivity.
  - rewrite length_take. lia.
  - intros Hle. apply take_ge. lia.
Qed.


Lemma customer_transactions_trimmed_witness :
  exists data,
    run (serve customer_30) (route_intent (customer_intent (Some 1%Z)))
    = ([get_customer 1 None None],
       Ok (RoutedResult.mk (customer_intent (Some 1%Z)) data))
    /\ data !! "transactions" = Some (VList (take 15 thirty_transactions))
    /\ length (take 15 thirty_transactions) = Nat.min (length thirty_transactions) 15
    /\ (length thirty_transactions <= 15 ->
        take 15 thirty_transactions = thirty_transactions)
    /\ data !! "transactionCount" = Some (VInt (Z.of_nat (length thirty_transactions)))
    /\ data !! "transactionsLimit" = Some (VInt 15)
    /\ data !! "transactionsTruncated"
       = Some (VBool (bool_decide (15 < length thirty_transactions)))
    /\ forall k, k ∉ ["transactions"; "transactionCount"; "transactionsLimit";
                       "transactionsTruncated"] ->
         data !! k = customer_30 !! k.
Proof.
  apply (customer_transactions_trimmed (serve customer_30)
           (customer_intent (Some 1%Z)) 1 customer_30 thirty_transactions);
    [reflexivity | reflexivity | reflexivity | reflexivity | left; discriminate].
Defined.

(** C1 (as stated) fails on the empty result of the data service: its
    "transactions" is a list of length 0, and the routed payload is the
    [no_data] status without any of the bookkeeping fields. *)
Lemma empty_customer_result_is_no_data :
  customer_empty !! "transactions" = Some (VList [])
  /\ exists data,
      run (serve customer_empty) (route_intent (customer_intent (Some 999%Z)))
      = ([get_customer 999 None None],
         Ok (RoutedResult.mk (customer_intent (Some 999%Z)) data))
      /\ data !! "status" = Some (VStr "no_data")
      /\ data !! "transactions" = None
      /\ data !! "transactionCount" = None
      /\ data !! "transactionsLimit" = None
      /\ data !! "transactionsTruncated" = None.
Proof.
  split; [reflexivity |].
  eexists. split; [vm_compute; reflexivity |]. repeat split.
Qed.

Lemma missing_id_is_ambiguous_witness :
  (route_intent (customer_intent None)
   = Return (RoutedResult.mk (customer_intent None)
               (mkdict [("status", VStr "ambiguous_intent");
                        ("reason", VStr "customer_id_missing")]))
   /\ forall svc,
       run svc (route_intent (customer_intent None))
       = ([], Ok (RoutedResult.mk (customer_intent None)
                    (mkdict [("status", VStr "ambiguous_intent");
                             ("reason", VStr "customer_id_missing")]))))
  /\ (route_intent (product_intent None)
     = Return (RoutedResult.mk (product_intent None)
                 (mkdict [("status", VStr "ambiguous_intent");
                          ("reason", VStr "product_id_missing")]))
     /\ forall svc,
         run svc (route_intent (product_intent None))
         = ([], Ok (RoutedResult.mk (product_intent None)
                      (mkdict [("status", VStr "ambiguous_intent");
                               ("reason", VStr "product_id_missing")])))).
Proof.
  split.
  - exact (proj1 missing_id_is_ambiguous (customer_intent None) eq_refl eq_refl).
  - exact (proj2 missing_id_is_ambiguous (product_intent None) eq_refl eq_refl).
Defined.

(** C9.  Only [None] counts as a missing identifier: with any integer
    [customer_id] (0 and the negative ones included) the router calls
    [get_customer] with it, and with any string [product_id] (the empty
    one included) it calls [get_product]; it does not answer before that
    call, and that call is the only one. *)
Theorem present_ids_are_fetched :
  (forall i c svc, intent i = "customer" -> customer_id i = Some c ->
     (exists k, route_intent i
                = Fetch (get_customer c (_interpret_date_range (date_range i)).1
                                        (_interpret_date_range (date_range i)).2) k)
     /\ (forall res, route_intent i <> Return res)
     /\ (run svc (route_intent i)).1
        = [get_customer c (_interpret_date_range (date_range i)).1
                          (_interpret_date_range (date_range i)).2])
  /\ (forall i p svc, intent i = "product" -> product_id i = Some p ->
     (exists k, route_intent i
                = Fetch (get_product p (_interpret_date_range (date_range i)).1
                                       (_interpret_date_range (date_range i)).2) k)
     /\ (forall res, route_intent i <> Return res)
     /\ (run svc (route_intent i)).1
        = [get_product p (_interpret_date_range (date_range i)).1
                         (_interpret_date_range (date_range i)).2]).
Proof.
  split; intros i x svc Hk Hid; route_kind Hk; rewrite Hid;
    destruct (_interpret_date_range (date_range i)) as [df dt];
    cbn [fst snd fetch bind];
    (split; [eexists; reflexivity | split; [intros res; discriminate |]]);
    cbn [run]; destruct (svc _) as [payload | e]; try reflexivity;
    repeat match goal with
           | |- context [if ?c then _ else _] => destruct c
           end;
    destruct (py_get payload "transactions"); reflexivity.
Qed.

Lemma present_ids_are_fetched_witness :
  (run (serve customer_empty) (route_intent (customer_intent (Some 0%Z)))).1
  = [get_customer 0 None None]
  /\ (run service_down (route_intent (customer_intent (Some (-7)%Z)))).1
     = [get_customer (-7) None None]
  /\ (run (serve product_zero) (route_intent (product_intent (Some "")))).1
     = [get_product "" None None].
Proof.
  split; [| split].
  - exact (proj2 (proj2 (proj1 present_ids_are_fetched
                           (customer_intent (Some 0%Z)) 0%Z (serve customer_empty)
                           eq_refl eq_refl))).
  - exact (proj2 (proj2 (proj1 present_ids_are_fetched
                           (customer_intent (Some (-7)%Z)) (-7)%Z service_down
                           eq_refl eq_refl))).
  - exact (proj2 (proj2 (proj2 present_ids_are_fetched
                           (product_intent (Some "")) "" (serve product_zero)
                           eq_refl eq_refl))).
Defined.

(** ** Product payloads *)

Lemma trim_summary_dict (s : dict) :
  exists s', trim_summary (VDict s) = VDict s'
    /\ forall k, k ∉ ["stores"; "storesLimit"; "storesTruncated"; "storeCount"] ->
         s' !! k = s !! k.
Proof.
  cbn [trim_summary]. destruct (py_get s "stores");
    try (exists s; split; reflexivity).
  eexists. split; [reflexivity |].
  intros k Hk. rewrite !lookup_insert_ne; [reflexivity | ..];
    intros <-; apply Hk; set_solver.
Qed.

Lemma falsy_summary_trims_to_empty (v : value) :
  truthy v = false -> trim_summary (py_or v (VDict ∅)) = VDict ∅.
Proof. intros H. unfold py_or. rewrite H. reflexivity. Qed.

(** C5.  For a product intent with [product_id] present, when the
    fetched payload is empty, or its summary is absent, null or empty, or
    the summary's transactionCount, totalQuantity and totalRevenue are
    all falsy, the answer is [no_data / no_product_transactions] with the
    id echoed as productId and nothing of the summary. *)
Theorem empty_product_is_no_data
    (svc : request -> result exn dict) (i : Intent) (p : string) (payload : dict) :
  intent i = "product" ->
  product_id i = Some p ->
  svc (get_product p (_interpret_date_range (date_range i)).1
                     (_interpret_date_range (date_range i)).2) = Ok payload ->
  payload = ∅
  \/ truthy (py_get payload "summary") = false
  \/ (exists s, payload !! "summary" = Some (VDict s)
        /\ truthy (py_get s "transactionCount") = false
        /\ truthy (py_get s "totalQuantity") = false
        /\ truthy (py_get s "totalRevenue") = false) ->
  exists data,
    run svc (route_intent i)
    = ([get_product p (_interpret_date_range (date_range i)).1
                      (_interpret_date_range (date_range i)).2],
       Ok (RoutedResult.mk i data))
    /\ data = mkdict [("status", VStr "no_data");
                      ("reason", VStr "no_product_transactions");
                      ("productId", VStr p)]
    /\ data !! "summary" = None.
Proof.
  intros Hk Hid Hsvc Hempty.
  eexists. split; [| split; reflexivity].
  route_kind Hk. rewrite Hid.
  destruct (_interpret_date_range (date_range i)) as [df dt].
  cbn [fst snd] in Hsvc |- *. cbn [fetch bind].
  rewrite (run_fetch _ _ _ _ Hsvc).
  match goal with
  | |- context [if ?c then _ else _] => assert (C : c = true)
  end.
  { destruct Hempty as [-> | [Hs | (s & Hs & H1 & H2 & H3)]].
    - reflexivity.
    - rewrite (falsy_summary_trims_to_empty _ Hs). apply orb_true_iff. left.
      apply orb_true_r.
    - rewrite (py_get_Some _ _ _ Hs). unfold py_or.
      destruct (truthy (VDict s)) eqn:T.
      + destruct (trim_summary_dict s) as (s' & -> & Hs').
        apply orb_true_iff. right. unfold py_get in *.
        rewrite !Hs' by not_listed. now rewrite H1, H2, H3.
      + apply orb_true_iff. left. apply orb_true_r. }
  rewrite C. reflexivity.
Qed.

Lemma empty_product_is_no_data_witness :
  exists data,
    run (serve product_zero) (route_intent (product_intent (Some "A")))
    = ([get_product "A" None None],
       Ok (RoutedResult.mk (product_intent (Some "A")) data))
    /\ data = mkdict [("status", VStr "no_data");
                      ("reason", VStr "no_product_transactions");
                      ("productId", VStr "A")]
    /\ data !! "summary" = None.
Proof.
  apply (empty_product_is_no_data (serve product_zero)
           (product_intent (Some "A")) "A" product_zero);
    [reflexivity | reflexivity | reflexivity |].
  right; right.
  exists (mkdict [("transactionCount", VInt 0);
                  ("totalQuantity", VInt 0);
                  ("totalRevenue", VFloat (S754_zero false));
                  ("stores", VList [VStr "Store 0"])]).
  repeat split; reflexivity.
Defined.

(** ** Business metrics *)

Lemma annotate_limit_lookup (n : Z) (payload : dict) :
  (15 < n)%Z ->
  annotate_limit (Some n) payload !! "limitRequested" = Some (VInt n)
  /\ annotate_limit (Some n) payload !! "limitApplied" = Some (VInt 15)
  /\ forall k, k ∉ ["limitRequested"; "limitApplied"] ->
       annotate_limit (Some n) payload !! k = payload !! k.
Proof.
  intros Hn. unfold annotate_limit, exceeds_cap, _TOP_N_MAX.
  rewrite (proj2 (Z.ltb_lt 15 n) Hn). cbn [of_opt_int].
  repeat split.
  - now rewrite lookup_insert_ne, lookup_insert_eq by done.
  - now rewrite lookup_insert_eq.
  - intros k Hk. rewrite !lookup_insert_ne; [reflexivity | ..];
      intros <-; apply Hk; set_solver.
Qed.

Lemma annotate_limit_within (top : option Z) (payload : dict) :
  top = None \/ (exists n, top = Some n /\ (n <= 15)%Z) ->
  annotate_limit top payload = payload.
Proof.
  intros [-> | (n & -> & Hn)]; [reflexivity |].
  unfold annotate_limit, exceeds_cap, _TOP_N_MAX.
  now rewrite (proj2 (Z.ltb_ge 15 n) Hn).
Qed.

(** C3.  For a business_metric intent whose normalized metric is
    top_customers or top_products, the one call made is the top-N call
    with limit = min(top_n or 5, 15): 5 when top_n is absent, min(top_n, 15)
    when it is a positive integer.  When top_n is given and exceeds 15,
    the routed payload is the fetched one with limitRequested = top_n and
    limitApplied = 15 added, every other field (limit included) as
    fetched; otherwise the fetched payload is returned as it is. *)
Theorem top_n_is_clamped
    (svc : request -> result exn dict) (i : Intent) (payload : dict)
    (call : Z -> option string -> option string -> request) :
  intent i = "business_metric" ->
  (lower (strip (default "" (metric i))) = "top_customers" /\ call = get_top_customers)
  \/ (lower (strip (default "" (metric i))) = "top_products" /\ call = get_top_products) ->
  svc (call (Z.min (top_n_or_5 (top_n i)) 15)
            (_interpret_date_range (date_range i)).1
            (_interpret_date_range (date_range i)).2) = Ok payload ->
  exists data,
    run svc (route_intent i)
    = ([call (Z.min (top_n_or_5 (top_n i)) 15)
             (_interpret_date_range (date_range i)).1
             (_interpret_date_range (date_range i)).2],
       Ok (RoutedResult.mk i data))
    /\ (top_n i = None -> Z.min (top_n_or_5 (top_n i)) 15 = 5%Z)
    /\ (forall n, top_n i = Some n -> (0 < n)%Z ->
          Z.min (top_n_or_5 (top_n i)) 15 = Z.min n 15)
    /\ (forall n, top_n i = Some n -> (15 < n)%Z ->
          data !! "limitRequested" = Some (VInt n)
          /\ data !! "limitApplied" = Some (VInt 15)
          /\ data !! "limit" = payload !! "limit"
          /\ forall k, k ∉ ["limitRequested"; "limitApplied"] ->
               data !! k = payload !! k)
    /\ (top_n i = None \/ (exists n, top_n i = Some n /\ (n <= 15)%Z) ->
          data = payload).
Proof.
  intros Hk Hm Hsvc.
  exists (annotate_limit (top_n i) payload).
  split; [| split; [| split; [| split]]].
  - route_kind Hk.
    destruct (_interpret_date_range (date_range i)) as [df dt].
    cbn [fst snd] in Hsvc.
    destruct Hm as [[-> ->] | [-> ->]]; cbn [fetch bind];
      change (Z.min (top_n_or_5 (top_n i)) _TOP_N_MAX)
        with (Z.min (top_n_or_5 (top_n i)) 15);
      exact (run_fetch svc _ _ payload Hsvc).
  - intros ->. reflexivity.
  - intros n -> Hn. cbn [top_n_or_5].
    destruct (Z.eqb_spec n 0); [lia | reflexivity].
  - intros n -> Hn.
    destruct (annotate_limit_lookup n payload Hn) as (L1 & L2 & L3).
    repeat split; try assumption. apply L3. not_listed.
  - apply annotate_limit_within.
Qed.

Lemma top_n_is_clamped_witness :
  exists data,
    run serve_top (route_intent (metric_intent (Some "top_customers") (Some 50%Z)))
    = ([get_top_customers 15 None None],
       Ok (RoutedResult.mk (metric_intent (Some "top_customers") (Some 50%Z)) data))
    /\ data !! "limitRequested" = Some (VInt 50)
    /\ data !! "limitApplied" = Some (VInt 15)
    /\ data !! "limit" = Some (VInt 15).
Proof.
  destruct (top_n_is_clamped serve_top
              (metric_intent (Some "top_customers") (Some 50%Z))
              (top_payload 15) get_top_customers
              eq_refl (or_introl (conj eq_refl eq_refl)) eq_refl)
    as (data & Hrun & _ & _ & Hover & _).
  exists data. split; [exact Hrun |].
  destruct (Hover 50%Z eq_refl eq_refl) as (H1 & H2 & H3 & _).
  repeat split; [exact H1 | exact H2 | now rewrite H3].
Defined.

(** ** Case and white space in metric names *)




Lemma rstrip_cons_nospace (c : ascii) (s : string) :
  isspace c = false -> rstrip (String c s) = String c (rstrip s).
Proof. intros H. cbn [rstrip]. rewrite H. now destruct (rstrip s). Qed.







(** ** The chat pipeline *)

Lemma truthy_nonempty (s : string) : s <> "" -> truthy (VStr s) = true.
Proof.
  intros H. cbn [truthy]. destruct (String.eqb s "") eqn:E; [| reflexivity].
  apply String.eqb_eq in E. contradiction.
Qed.



(** ** Validation of an intent *)

Lemma validate_literal_spec (v : option value) (k : string) :
  validate_literal intent_literals v = Some k
  <-> v = Some (VStr k)
      /\ (k = "customer" \/ k = "product" \/ k = "business_metric").
Proof.
  unfold validate_literal, str_in_set, intent_literals. cbn [existsb].
  split.
  - destruct v as [[| | | |s| |]|]; try discriminate.
    destruct (String.eqb_spec s "customer") as [-> | _];
      [intros [= <-]; auto |].
    destruct (String.eqb_spec s "product") as [-> | _];
      [intros [= <-]; auto |].
    destruct (String.eqb_spec s "business_metric") as [-> | _];
      [intros [= <-]; auto | discriminate].
  - intros [-> [-> | [-> | ->]]]; reflexivity.
Qed.

Section ValidationFacts.
Variable lax_int : value -> option Z.
Variable lax_str : value -> option string.

(** C8 (as amended).  Validation accepts a candidate exactly when its
    kind is one of the three literals and each optional field, taken on
    its own, is absent, null, of the declared type or convertible to it;
    otherwise it fails and reports the offending fields.  Every integer
    is accepted as customer_id, negative or zero included, and every
    string as product_id, the empty one included; no check relates two
    fields. *)
Theorem validation_is_fieldwise :
  (forall c i,
     model_validate lax_int lax_str c = Ok i
     <-> validate_literal intent_literals (c !! "intent") = Some (intent i)
         /\ validate_optional_int lax_int (c !! "customer_id") = Some (customer_id i)
         /\ validate_optional_str lax_str (c !! "product_id") = Some (product_id i)
         /\ validate_optional_str lax_str (c !! "metric") = Some (metric i)
         /\ validate_optional_int lax_int (c !! "top_n") = Some (top_n i)
         /\ validate_optional_str lax_str (c !! "date_range") = Some (date_range i))
  /\ (forall c, (exists i, model_validate lax_int lax_str c = Ok i)
               \/ (exists errs, errs <> []
                     /\ model_validate lax_int lax_str c = Raised errs))
  /\ (forall c, (forall k, c !! "intent" = Some (VStr k) ->
                   k <> "customer" /\ k <> "product" /\ k <> "business_metric") ->
        exists errs, "intent" ∈ errs
          /\ model_validate lax_int lax_str c = Raised errs)
  /\ (forall z, validate_optional_int lax_int (Some (VInt z)) = Some (Some z))
  /\ (forall s, validate_optional_str lax_str (Some (VStr s)) = Some (Some s))
  /\ (forall w, w <> VNone -> (forall z, w <> VInt z) -> lax_int w = None ->
        validate_optional_int lax_int (Some w) = None)
  /\ (forall w, w <> VNone -> (forall s, w <> VStr s) -> lax_str w = None ->
        validate_optional_str lax_str (Some w) = None).
Proof.
  split; [| split; [| split; [| split; [| split; [| split]]]]].
  - intros c [k' c' p' m' n' d']. unfold model_validate.
    cbn [intent customer_id product_id metric top_n date_range].
    destruct (validate_literal _ _), (validate_optional_int _ (c !! "customer_id")),
      (validate_optional_str _ (c !! "product_id")),
      (validate_optional_str _ (c !! "metric")),
      (validate_optional_int _ (c !! "top_n")),
      (validate_optional_str _ (c !! "date_range"));
      split; try discriminate;
      try (intros [= -> -> -> -> -> ->]; repeat split; reflexivity);
      try (intros (? & ? & ? & ? & ? & ?); congruence).
  - intros c. unfold model_validate.
    destruct (validate_literal _ _), (validate_optional_int _ (c !! "customer_id")),
      (validate_optional_str _ (c !! "product_id")),
      (validate_optional_str _ (c !! "metric")),
      (validate_optional_int _ (c !! "top_n")),
      (validate_optional_str _ (c !! "date_range"));
      try (left; eexists; reflexivity);
      right; eexists; (split; [| reflexivity]); discriminate.
  - intros c Hk. unfold model_validate.
    destruct (validate_literal intent_literals (c !! "intent")) as [k|] eqn:E.
    + apply validate_literal_spec in E as [E Hin].
      destruct (Hk _ E) as (N1 & N2 & N3). tauto.
    + exists (field_error "intent" (@None string)
              ++ field_error "customer_id"
                   (validate_optional_int lax_int (c !! "customer_id"))
              ++ field_error "product_id"
                   (validate_optional_str lax_str (c !! "product_id"))
              ++ field_error "metric"
                   (validate_optional_str lax_str (c !! "metric"))
              ++ field_error "top_n"
                   (validate_optional_int lax_int (c !! "top_n"))
              ++ field_error "date_range"
                   (validate_optional_str lax_str (c !! "date_range"))).
      split.
      * cbn [field_error]. apply elem_of_app. left.
        apply list_elem_of_singleton. reflexivity.
      * destruct (validate_optional_int _ (c !! "customer_id")),
          (validate_optional_str _ (c !! "product_id")),
          (validate_optional_str _ (c !! "metric")),
          (validate_optional_int _ (c !! "top_n")),
          (validate_optional_str _ (c !! "date_range")); reflexivity.
  - reflexivity.
  - reflexivity.
  - intros w N1 N2 H. destruct w; cbn [validate_optional_int];
      try (now rewrite H); [contradiction | now destruct (N2 z)].
  - intros w N1 N2 H. destruct w; cbn [validate_optional_str];
      try (now rewrite H); [contradiction | now destruct (N2 s)].
Qed.
End ValidationFacts.

Lemma validation_is_fieldwise_witness :
  model_validate strict_int strict_str candidate_customer
  = Ok (mkIntent "customer" (Some 123%Z) None (Some "summary") None None)
  /\ (exists errs, "intent" ∈ errs
        /\ model_validate strict_int strict_str candidate_invalid = Raised errs)
  /\ validate_optional_int strict_int (Some (VList [])) = None
  /\ validate_optional_str strict_str (Some (VInt 7)) = None.
Proof.
  destruct (validation_is_fieldwise strict_int strict_str)
    as (Hiff & _ & Hkind & _ & _ & Hint & Hstr).
  split; [| split; [| split]].
  - apply (proj2 (Hiff candidate_customer
                    (mkIntent "customer" (Some 123%Z) None (Some "summary") None None))).
    repeat split.
  - apply Hkind. intros k [= <-]. repeat split; discriminate.
  - apply Hint; [discriminate | discriminate | reflexivity].
  - apply Hstr; [discriminate | discriminate | reflexivity].
Defined.

(** Integers and strings are accepted as they are, whatever conversions
    the validator applies to other inputs. *)
Lemma unconstrained_ids_validate
    (lax_int : value -> option Z) (lax_str : value -> option string) :
  model_validate lax_int lax_str candidate_negative_id
  = Ok (mkIntent "customer" (Some (-1)%Z) None None None None)
  /\ model_validate lax_int lax_str candidate_empty_product
     = Ok (mkIntent "product" None (Some "") None None None).
Proof. split; reflexivity. Qed.

(** C8 (as stated) fails: a negative customer_id and an empty product_id
    pass validation, even when no conversion is applied. *)
Lemma negative_id_and_empty_product_validate :
  candidate_negative_id !! "customer_id" = Some (VInt (-1))
  /\ model_validate strict_int strict_str candidate_negative_id
     = Ok (mkIntent "customer" (Some (-1)%Z) None None None None)
  /\ candidate_empty_product !! "product_id" = Some (VStr "")
  /\ model_validate strict_int strict_str candidate_empty_product
     = Ok (mkIntent "product" None (Some "") None None None).
Proof.
  destruct (unconstrained_ids_validate strict_int strict_str) as [H1 H2].
  split; [reflexivity | split; [exact H1 | split; [reflexivity | exact H2]]].
Qed.

(** * Further properties of the router *)

(** Every run of [route_intent] has one of three shapes: an answer made
    without the data service, the error for a kind outside the three
    literals, or one call whose payload is shaped into an answer. *)
Lemma route_intent_shape (i : Intent) :
  (exists data, route_intent i = Return (RoutedResult.mk i data))
  \/ ((intent i ∉ intent_literals)
      /\ route_intent i
         = Raise (RoutingError ("Unsupported intent type: " +:+ intent i)))
  \/ (exists r k,
        route_intent i = Fetch r k
        /\ request_dates r = _interpret_date_range (date_range i)
        /\ forall d, exists data, k d = Return (RoutedResult.mk i data)).
Proof.
  unfold route_intent.
  destruct (String.eqb_spec (intent i) "customer") as [Hc | Hc];
    [| destruct (String.eqb_spec (intent i) "product") as [Hp | Hp];
       [| destruct (String.eqb_spec (intent i) "business_metric") as [Hb | Hb]]].
  4: { right; left. split; [| reflexivity].
       unfold intent_literals. rewrite !not_elem_of_cons.
       repeat split; try assumption. apply not_elem_of_nil. }
  all: destruct (_interpret_date_range (date_range i)) as [df dt] eqn:Ed;
    repeat match goal with
           | |- context [match ?x with Some _ => _ | None => _ end] => destruct x
           | |- context [if ?c then _ else _] => destruct c
           end.
  all: try (left; eexists; reflexivity).
  all: right; right; eexists _, _; split; [reflexivity |];
    split; [reflexivity |]; intros d; cbn [bind];
    repeat case_match; eexists; reflexivity.
Qed.

(** What a run of [route_intent] against a data service yields, shape by
    shape. *)
Lemma run_route_intent (svc : request -> result exn dict) (i : Intent) :
  (exists data, run svc (route_intent i) = ([], Ok (RoutedResult.mk i data)))
  \/ ((intent i ∉ intent_literals)
      /\ run svc (route_intent i)
         = ([], Raised (RoutingError ("Unsupported intent type: " +:+ intent i))))
  \/ (exists r,
        request_dates r = _interpret_date_range (date_range i)
        /\ ((exists d data,
               svc r = Ok d
               /\ run svc (route_intent i) = ([r], Ok (RoutedResult.mk i data)))
            \/ (exists e,
                  svc r = Raised e
                  /\ run svc (route_intent i) = ([r], Raised e)))).
Proof.
  destruct (route_intent_shape i)
    as [[data ->] | [[Hk ->] | (r & k & -> & Hd & Hk)]].
  - left. now exists data.
  - right; left. now split.
  - right; right. exists r. split; [exact Hd |]. cbn [run].
    destruct (svc r) as [d | e] eqn:Er.
    + left. destruct (Hk d) as [data ->]. now exists d, data.
    + right. now exists e.
Qed.

(** X1.  Whatever the intent and the data service, [route_intent] calls
    the data service at most once. *)
Theorem route_intent_at_most_one_fetch
    (svc : request -> result exn dict) (i : Intent) :
  length (run svc (route_intent i)).1 <= 1.
Proof.
  destruct (run_route_intent svc i)
    as [[data ->] | [[_ ->] | (r & _ & [(d & data & _ & ->) | (e & _ & ->)])]];
    cbn; lia.
Qed.

(** X2.  [route_intent] raises in two cases only: the [RoutingError] for a
    kind outside the three literals, raised before any call, and the
    exception of its one call to the data service, passed on unchanged.
    A failed call is never turned into an answer. *)
Theorem route_intent_errors (svc : request -> result exn dict) (i : Intent) :
  (forall e,
     (run svc (route_intent i)).2 = Raised e ->
     ((run svc (route_intent i)).1 = []
      /\ (intent i ∉ intent_literals)
      /\ e = RoutingError ("Unsupported intent type: " +:+ intent i))
     \/ (exists r, (run svc (route_intent i)).1 = [r] /\ svc r = Raised e))
  /\ (forall r e,
        r ∈ (run svc (route_intent i)).1 -> svc r = Raised e ->
        (run svc (route_intent i)).2 = Raised e).
Proof.
  destruct (run_route_intent svc i)
    as [[data ->] | [[Hk ->] | (r & _ & [(d & data & Hs & ->) | (e & Hs & ->)])]];
    cbn [fst snd]; split.
  - discriminate.
  - intros r e Hr. now apply elem_of_nil in Hr.
  - intros e [= <-]. now left.
  - intros r e Hr. now apply elem_of_nil in Hr.
  - discriminate.
  - intros r' e Hr Hs'. apply list_elem_of_singleton in Hr. subst r'. congruence.
  - intros e' [= <-]. right. now exists r.
  - intros r' e' Hr Hs'. apply list_elem_of_singleton in Hr. subst r'. congruence.
Qed.

Lemma route_intent_errors_witness :
  ((run service_down (route_intent (customer_intent (Some 999%Z)))).1 = []
   /\ (intent (customer_intent (Some 999%Z)) ∉ intent_literals)
   /\ Exn "DataServiceError" "API request failed: 500 "
      = RoutingError ("Unsupported intent type: "
                      +:+ intent (customer_intent (Some 999%Z))))
  \/ (exists r,
        (run service_down (route_intent (customer_intent (Some 999%Z)))).1 = [r]
        /\ service_down r = Raised (Exn "DataServiceError" "API request failed: 500 ")).
Proof.
  exact (proj1 (route_intent_errors service_down (customer_intent (Some 999%Z)))
           (Exn "DataServiceError" "API request failed: 500 ") eq_refl).
Defined.

(** X3.  Every call [route_intent] makes carries, as its date bounds,
    the interpretation of the intent's [date_range]. *)
Theorem fetch_carries_interpreted_dates
    (svc : request -> result exn dict) (i : Intent) (r : request) :
  r ∈ (run svc (route_intent i)).1 ->
  request_dates r = _interpret_date_range (date_range i).
Proof.
  destruct (run_route_intent svc i)
    as [[data ->] | [[_ ->] | (r' & Hd & [(d & data & _ & ->) | (e & _ & ->)])]];
    cbn [fst]; intros Hr;
    try (now apply elem_of_nil in Hr);
    apply list_elem_of_singleton in Hr; now subst r'.
Qed.

Lemma fetch_carries_interpreted_dates_witness :
  request_dates (get_top_products 5 (Some "2024-01-01") None)
  = _interpret_date_range (Some " 2024-01-01 ..").
Proof.
  apply (fetch_carries_interpreted_dates serve_top
           (mkIntent "business_metric" None None (Some "Top_Products") None
              (Some " 2024-01-01 .."))).
  vm_compute. apply list_elem_of_singleton. reflexivity.
Defined.

(** X4.  The result of a successful routing carries the very intent it
    was given. *)
Theorem routed_result_keeps_intent
    (svc : request -> result exn dict) (i : Intent) (res : RoutedResult) :
  (run svc (route_intent i)).2 = Ok res -> RoutedResult.intent res = i.
Proof.
  destruct (run_route_intent svc i)
    as [[data ->] | [[_ ->] | (r & _ & [(d & data & _ & ->) | (e & _ & ->)])]];
    cbn [snd]; try discriminate; now intros [= <-].
Qed.

Lemma routed_result_keeps_intent_witness :
  RoutedResult.intent routed_999 = customer_intent (Some 999%Z).
Proof.
  exact (routed_result_keeps_intent (serve customer_empty)
           (customer_intent (Some 999%Z)) routed_999 eq_refl).
Defined.

(** ** Kinds, validation and routing *)

Lemma str_in_set_spec (x : string) (l : list string) :
  str_in_set x l = true <-> x ∈ l.
Proof.
  unfold str_in_set. induction l as [|y l IH]; cbn [existsb].
  - split; [discriminate | intros H; now apply elem_of_nil in H].
  - rewrite orb_true_iff, IH, elem_of_cons, String.eqb_eq. reflexivity.
Qed.

Lemma str_in_set_false (x : string) (l : list string) :
  x ∉ l -> str_in_set x l = false.
Proof.
  intros H. destruct (str_in_set x l) eqn:E; [| reflexivity].
  apply str_in_set_spec in E. contradiction.
Qed.

(** X5.  [route_intent] raises before calling the data service exactly
    when the kind of the intent is none of "customer", "product" and
    "business_metric" (compared as they are written); the exception is
    the [RoutingError] naming the kind. *)
Theorem routing_error_iff_unknown_kind (i : Intent) :
  ((exists e, route_intent i = Raise e) <-> intent i ∉ intent_literals)
  /\ (forall e, route_intent i = Raise e ->
        e = RoutingError ("Unsupported intent type: " +:+ intent i)).
Proof.
  split; [split |].
  - intros [e He].
    destruct (route_intent_shape i) as [[data H] | [[Hk _] | (r & k & H & _)]];
      [congruence | exact Hk | congruence].
  - intros Hk. unfold intent_literals in Hk.
    rewrite !not_elem_of_cons in Hk. destruct Hk as (H1 & H2 & H3 & _).
    eexists. unfold route_intent.
    destruct (String.eqb_spec (intent i) "customer"); [contradiction |].
    destruct (String.eqb_spec (intent i) "product"); [contradiction |].
    destruct (String.eqb_spec (intent i) "business_metric"); [contradiction |].
    reflexivity.
  - intros e He.
    destruct (route_intent_shape i) as [[data H] | [[_ H] | (r & k & H & _)]];
      congruence.
Qed.

Lemma routing_error_iff_unknown_kind_witness :
  route_intent (mkIntent "Customer" (Some 1%Z) None None None None)
  = Raise (RoutingError "Unsupported intent type: Customer").
Proof.
  destruct (proj2 (proj1 (routing_error_iff_unknown_kind
                            (mkIntent "Customer" (Some 1%Z) None None None None))))
    as [e He].
  - unfold intent_literals. rewrite !not_elem_of_cons.
    repeat split; try discriminate. apply not_elem_of_nil.
  - rewrite He. f_equal.
    exact (proj2 (routing_error_iff_unknown_kind
                    (mkIntent "Customer" (Some 1%Z) None None None None)) e He).
Defined.

Lemma model_validate_kind
    (lax_int : value -> option Z) (lax_str : value -> option string)
    (c : dict) (i : Intent) :
  model_validate lax_int lax_str c = Ok i -> intent i ∈ intent_literals.
Proof.
  unfold model_validate.
  destruct (validate_literal intent_literals (c !! "intent")) as [k|] eqn:Ek.
  - apply validate_literal_spec in Ek as [_ Hk].
    destruct (validate_optional_int _ (c !! "customer_id")),
      (validate_optional_str _ (c !! "product_id")),
      (validate_optional_str _ (c !! "metric")),
      (validate_optional_int _ (c !! "top_n")),
      (validate_optional_str _ (c !! "date_range")); try discriminate.
    intros [= <-]. cbn [intent]. unfold intent_literals.
    rewrite !elem_of_cons. tauto.
  - destruct (validate_optional_int _ (c !! "customer_id")),
      (validate_optional_str _ (c !! "product_id")),
      (validate_optional_str _ (c !! "metric")),
      (validate_optional_int _ (c !! "top_n")),
      (validate_optional_str _ (c !! "date_range")); discriminate.
Qed.

(** X6.  An intent that passed validation is never answered with a
    [RoutingError]: when routing it raises, the exception is the one the
    data service raised on the single call made. *)
Theorem validated_intent_never_routing_error
    (lax_int : value -> option Z) (lax_str : value -> option string)
    (svc : request -> result exn dict) (c : dict) (i : Intent) (e : exn) :
  model_validate lax_int lax_str c = Ok i ->
  (run svc (route_intent i)).2 = Raised e ->
  exists r, (run svc (route_intent i)).1 = [r] /\ svc r = Raised e.
Proof.
  intros Hv He. apply model_validate_kind in Hv. revert He.
  destruct (run_route_intent svc i)
    as [[data ->] | [[Hk _] | (r & _ & [(d & data & _ & ->) | (e' & Hs & ->)])]];
    cbn [fst snd]; try discriminate; [contradiction |].
  intros [= <-]. now exists r.
Qed.

Lemma validated_intent_never_routing_error_witness :
  exists r,
    (run service_down
       (route_intent (mkIntent "customer" (Some 123%Z) None (Some "summary")
                        None None))).1 = [r]
    /\ service_down r = Raised (Exn "DataServiceError" "API request failed: 500 ").
Proof.
  exact (validated_intent_never_routing_error strict_int strict_str service_down
           candidate_customer
           (mkIntent "customer" (Some 123%Z) None (Some "summary") None None)
           (Exn "DataServiceError" "API request failed: 500 ")
           eq_refl eq_refl).
Defined.

(** X7.  Dumping an intent and validating the dump gives the intent
    back, whatever conversions the validator applies, exactly when its
    kind is one of the three literals. *)
Theorem model_dump_round_trip
    (lax_int : value -> option Z) (lax_str : value -> option string)
    (i : Intent) :
  model_validate lax_int lax_str (model_dump i) = Ok i
  <-> intent i ∈ intent_literals.
Proof.
  split; [apply model_validate_kind |].
  intros Hk. destruct i as [k c p m n d]. cbn [intent] in Hk.
  unfold model_validate.
  change (model_dump (mkIntent k c p m n d) !! "intent") with (Some (VStr k)).
  change (model_dump (mkIntent k c p m n d) !! "customer_id")
    with (Some (of_opt_int c)).
  change (model_dump (mkIntent k c p m n d) !! "product_id")
    with (Some (of_opt_str p)).
  change (model_dump (mkIntent k c p m n d) !! "metric")
    with (Some (of_opt_str m)).
  change (model_dump (mkIntent k c p m n d) !! "top_n")
    with (Some (of_opt_int n)).
  change (model_dump (mkIntent k c p m n d) !! "date_range")
    with (Some (of_opt_str d)).
  cbn [validate_literal]. rewrite (proj2 (str_in_set_spec _ _) Hk).
  now destruct c, p, m, n, d.
Qed.

Lemma model_dump_round_trip_witness :
  model_validate strict_int strict_str
    (model_dump (mkIntent "product" None (Some "") (Some "stores_list") None
                   (Some "2024-01-01..")))
  = Ok (mkIntent "product" None (Some "") (Some "stores_list") None
          (Some "2024-01-01..")).
Proof.
  apply (proj2 (model_dump_round_trip strict_int strict_str
                  (mkIntent "product" None (Some "") (Some "stores_list") None
                     (Some "2024-01-01..")))).
  unfold intent_literals. cbn [intent]. rewrite !elem_of_cons. tauto.
Defined.

(** ** The branches for business metrics *)

(** Decide the tests of the goal that compare literals. *)
Ltac decide_tests :=
  repeat match goal with
         | |- context [if ?c then _ else _] =>
             let v := eval vm_compute in c in
             first [ constr_eq v true | constr_eq v false ];
             change c with v; cbv iota
         end.

Lemma rstrip_blank (s : string) : str_forall isspace s = true -> rstrip s = "".
Proof.
  induction s as [|c s IH]; [reflexivity |].
  cbn [str_forall rstrip]. intros H. apply andb_prop in H as [Hc Hs].
  now rewrite (IH Hs), Hc.
Qed.



(** Run the single call of a branch and return its payload as it is. *)
Ltac run_verbatim svc :=
  cbn [fetch bind run];
  match goal with |- context [svc ?r] => destruct (svc r) end; reflexivity.

(** X9.  A business_metric intent whose normalized metric is one of the
    names for the overall summary, for the breakdown by category or for
    the breakdown by payment method makes the one matching call, with
    the interpreted date bounds, and returns the payload unchanged; an
    exception of the call is passed on. *)
Theorem metric_synonyms_fetch_verbatim
    (svc : request -> result exn dict) (i : Intent) :
  intent i = "business_metric" ->
  (normalized_metric i ∈ summary_like ->
     run svc (route_intent i)
     = ([get_metrics_summary (_interpret_date_range (date_range i)).1
                             (_interpret_date_range (date_range i)).2],
        match svc (get_metrics_summary (_interpret_date_range (date_range i)).1
                                       (_interpret_date_range (date_range i)).2) with
        | Ok d => Ok (RoutedResult.mk i d)
        | Raised e => Raised e
        end))
  /\ (normalized_metric i ∈ category_like ->
     run svc (route_intent i)
     = ([get_metrics_by_category (_interpret_date_range (date_range i)).1
                                 (_interpret_date_range (date_range i)).2],
        match svc (get_metrics_by_category (_interpret_date_range (date_range i)).1
                                           (_interpret_date_range (date_range i)).2) with
        | Ok d => Ok (RoutedResult.mk i d)
        | Raised e => Raised e
        end))
  /\ (normalized_metric i ∈ payment_like ->
     run svc (route_intent i)
     = ([get_metrics_by_payment (_interpret_date_range (date_range i)).1
                                (_interpret_date_range (date_range i)).2],
        match svc (get_metrics_by_payment (_interpret_date_range (date_range i)).1
                                          (_interpret_date_range (date_range i)).2) with
        | Ok d => Ok (RoutedResult.mk i d)
        | Raised e => Raised e
        end)).
Proof.
  intros Hk. unfold normalized_metric, summary_like, category_like, payment_like.
  split; [| split]; intros Hin; rewrite !elem_of_cons in Hin;
    repeat match type of Hin with
           | _ \/ _ => destruct Hin as [Hin | Hin]
           end;
    try (now apply elem_of_nil in Hin);
    route_kind Hk; rewrite Hin;
    destruct (_interpret_date_range (date_range i)) as [df dt];
    cbn [fst snd]; decide_tests; run_verbatim svc.
Qed.

Lemma metric_synonyms_fetch_verbatim_witness :
  run (serve customer_30) (route_intent (metric_intent (Some " KPIs ") None))
  = ([get_metrics_summary None None],
     Ok (RoutedResult.mk (metric_intent (Some " KPIs ") None) customer_30)).
Proof.
  apply (proj1 (metric_synonyms_fetch_verbatim (serve customer_30)
                  (metric_intent (Some " KPIs ") None) eq_refl)).
  unfold summary_like. rewrite !elem_of_cons. right; right; left. reflexivity.
Defined.

(** X10.  A business_metric intent whose normalized metric is not empty,
    contains neither "store" nor "location" and is none of the known
    names is answered [unsupported_metric / metric_not_recognized],
    echoing the metric as it was given (not normalized); no call to the
    data service is made. *)
Theorem unknown_metric_is_not_recognized (i : Intent) :
  intent i = "business_metric" ->
  normalized_metric i <> "" ->
  str_in "store" (normalized_metric i) = false ->
  str_in "location" (normalized_metric i) = false ->
  normalized_metric i ∉ summary_like ++ category_like ++ payment_like
                        ++ ["top_customers"; "top_products"] ->
  route_intent i
  = Return (RoutedResult.mk i
              (mkdict [("status", VStr "unsupported_metric");
                       ("reason", VStr "metric_not_recognized");
                       ("requestedMetric", of_opt_str (metric i));
                       ("supportedMetrics", supported_metrics)])).
Proof.
  unfold normalized_metric. intros Hk Hne Hs Hl Hnot.
  rewrite !not_elem_of_app in Hnot. destruct Hnot as (N1 & N2 & N3 & N4).
  rewrite !not_elem_of_cons in N4. destruct N4 as (N4 & N5 & _).
  route_kind Hk.
  destruct (_interpret_date_range (date_range i)) as [df dt].
  rewrite (truthy_nonempty _ Hne), Hs, Hl. cbn [negb orb].
  unfold summary_like in N1. unfold category_like in N2. unfold payment_like in N3.
  rewrite (str_in_set_false _ _ N1), (str_in_set_false _ _ N2),
    (str_in_set_false _ _ N3).
  rewrite (proj2 (String.eqb_neq _ _) N4).
  rewrite str_in_set_false; [reflexivity |].
  rewrite not_elem_of_cons. split; [exact N5 | apply not_elem_of_nil].
Qed.

Lemma unknown_metric_is_not_recognized_witness :
  route_intent (metric_intent (Some " Churn_Rate") None)
  = Return (RoutedResult.mk (metric_intent (Some " Churn_Rate") None)
              (mkdict [("status", VStr "unsupported_metric");
                       ("reason", VStr "metric_not_recognized");
                       ("requestedMetric", VStr " Churn_Rate");
                       ("supportedMetrics", supported_metrics)])).
Proof.
  apply (unknown_metric_is_not_recognized (metric_intent (Some " Churn_Rate") None));
    [reflexivity | discriminate | reflexivity | reflexivity |].
  unfold summary_like, category_like, payment_like. cbn [app].
  rewrite !not_elem_of_cons. repeat split; try discriminate. apply not_elem_of_nil.
Defined.

(** ** Further customer and product results *)

(** X11.  For a customer intent with an id, a payload whose
    "transactions" is falsy (absent, null, an empty list) and whose
    "summary" is absent or null is answered [no_data /
    no_customer_transactions] with the id echoed; a payload that is not
    such and whose "transactions" is not a list is returned unchanged. *)
Theorem customer_payload_without_transactions
    (svc : request -> result exn dict) (i : Intent) (c : Z) (payload : dict) :
  intent i = "customer" ->
  customer_id i = Some c ->
  svc (get_customer c (_interpret_date_range (date_range i)).1
                      (_interpret_date_range (date_range i)).2) = Ok payload ->
  (truthy (py_get payload "transactions") = false ->
   is_None (py_get payload "summary") = true ->
   run svc (route_intent i)
   = ([get_customer c (_interpret_date_range (date_range i)).1
                      (_interpret_date_range (date_range i)).2],
      Ok (RoutedResult.mk i
            (mkdict [("status", VStr "no_data");
                     ("reason", VStr "no_customer_transactions");
                     ("customerId", VInt c)]))))
  /\ ((forall l, py_get payload "transactions" <> VList l) ->
      is_None (py_get payload "summary") = false ->
      run svc (route_intent i)
      = ([get_customer c (_interpret_date_range (date_range i)).1
                         (_interpret_date_range (date_range i)).2],
         Ok (RoutedResult.mk i payload))).
Proof.
  intros Hk Hid Hsvc. route_kind Hk. rewrite Hid.
  destruct (_interpret_date_range (date_range i)) as [df dt].
  cbn [fst snd] in Hsvc |- *. cbn [fetch bind].
  rewrite (run_fetch _ _ _ _ Hsvc). split.
  - intros Ht Hs. rewrite Ht, Hs. cbn [negb andb]. rewrite orb_true_r. reflexivity.
  - intros Hl Hs. rewrite Hs, andb_false_r, orb_false_r.
    destruct (truthy (VDict payload)) eqn:Tp.
    + cbn [negb]. destruct (py_get payload "transactions") eqn:Et;
        try reflexivity. now destruct (Hl l).
    + exfalso. cbn [truthy] in Tp. apply negb_false_iff in Tp.
      apply bool_decide_eq_true in Tp. subst payload.
      unfold py_get in Hs. rewrite lookup_empty in Hs. discriminate Hs.
Qed.

Lemma customer_payload_without_transactions_witness :
  run (serve customer_empty) (route_intent (customer_intent (Some 999%Z)))
  = ([get_customer 999 None None], Ok routed_999).
Proof.
  exact (proj1 (customer_payload_without_transactions (serve customer_empty)
                  (customer_intent (Some 999%Z)) 999 customer_empty
                  eq_refl eq_refl eq_refl)
           eq_refl eq_refl).
Defined.

(** X12.  No answer to a customer or product intent carries more than 15
    transactions: whenever the routed payload has a list under
    "transactions", the list has at most 15 entries. *)
Theorem routed_transactions_bounded
    (svc : request -> result exn dict) (i : Intent) (res : RoutedResult)
    (l : list value) :
  intent i = "customer" \/ intent i = "product" ->
  (run svc (route_intent i)).2 = Ok res ->
  RoutedResult.data res !! "transactions" = Some (VList l) ->
  length l <= 15.
Proof.
  intros [Hk | Hk]; route_kind Hk.
  - destruct (customer_id i) as [c|];
      [| intros [= <-]; cbn [RoutedResult.data]; intros H; vm_compute in H;
         discriminate H].
    destruct (_interpret_date_range (date_range i)) as [df dt].
    cbn [fetch bind run]. destruct (svc _) as [payload | e]; [| discriminate].
    destruct (negb (truthy (VDict payload)) || _).
    + intros [= <-]. cbn [RoutedResult.data]. intros H. vm_compute in H.
      discriminate H.
    + destruct (py_get payload "transactions") as [| | | | |txs|] eqn:Et;
        intros [= <-]; cbn [RoutedResult.data]; intros H;
        try (unfold py_get in Et; rewrite H in Et; discriminate Et).
      destruct (trim_transactions_lookup txs payload) as (L1 & _).
      rewrite L1 in H. injection H as <-. rewrite length_take. lia.
  - destruct (product_id i) as [p|];
      [| intros [= <-]; cbn [RoutedResult.data]; intros H; vm_compute in H;
         discriminate H].
    destruct (_interpret_date_range (date_range i)) as [df dt].
    cbn [fetch bind run]. destruct (svc _) as [payload | e]; [| discriminate].
    match goal with |- context [if ?c then _ else _] => destruct c end.
    + intros [= <-]. cbn [RoutedResult.data]. intros H. vm_compute in H.
      discriminate H.
    + destruct (py_get payload "transactions") as [| | | | |txs|] eqn:Et;
        intros [= <-]; cbn [RoutedResult.data]; intros H;
        try (vm_compute in H; discriminate H).
      match type of H with
      | trim_transactions _ ?t !! _ = _ =>
          destruct (trim_transactions_lookup txs t) as (L1 & _)
      end.
      rewrite L1 in H. injection H as <-. rewrite length_take. lia.
Qed.

Lemma routed_transactions_bounded_witness :
  length (take 15 thirty_transactions) <= 15.
Proof.
  apply (routed_transactions_bounded (serve customer_30)
           (customer_intent (Some 1%Z))
           (RoutedResult.mk (customer_intent (Some 1%Z))
              (trim_transactions thirty_transactions customer_30))
           (take 15 thirty_transactions));
    [left; reflexivity | reflexivity | reflexivity].
Defined.

Lemma truthy_get_nonempty (s : dict) (k : string) :
  truthy (py_get s k) = true -> truthy (VDict s) = true.
Proof.
  intros H. cbn [truthy]. case_bool_decide as E; [| reflexivity].
  subst s. unfold py_get in H. rewrite lookup_empty in H. discriminate H.
Qed.

(** The run of the product branch on a payload whose summary is an
    object with at least one truthy aggregate. *)
Lemma run_product_with_signal
    (svc : request -> result exn dict) (i : Intent) (p : string)
    (payload s : dict) :
  intent i = "product" ->
  product_id i = Some p ->
  svc (get_product p (_interpret_date_range (date_range i)).1
                     (_interpret_date_range (date_range i)).2) = Ok payload ->
  payload !! "summary" = Some (VDict s) ->
  truthy (py_get s "transactionCount") || truthy (py_get s "totalQuantity")
  || truthy (py_get s "totalRevenue") = true ->
  run svc (route_intent i)
  = ([get_product p (_interpret_date_range (date_range i)).1
                    (_interpret_date_range (date_range i)).2],
     Ok (RoutedResult.mk i
           match py_get payload "transactions" with
           | VList transactions =>
               trim_transactions transactions
                 (mkdict [("productId", py_get payload "productId");
                          ("summary", trim_summary (VDict s));
                          ("filters", py_get payload "filters")])
           | _ =>
               mkdict [("productId", py_get payload "productId");
                       ("summary", trim_summary (VDict s));
                       ("filters", py_get payload "filters")]
           end)).
Proof.
  intros Hk Hid Hsvc Hs Hsig.
  assert (Ts : truthy (VDict s) = true).
  { apply orb_prop in Hsig as [Hsig | Hsig];
      [apply orb_prop in Hsig as [Hsig | Hsig] |];
      exact (truthy_get_nonempty _ _ Hsig). }
  route_kind Hk. rewrite Hid.
  destruct (_interpret_date_range (date_range i)) as [df dt].
  cbn [fst snd] in Hsvc |- *. cbn [fetch bind].
  rewrite (run_fetch _ _ _ _ Hsvc).
  rewrite (truthy_dict_lookup _ _ _ Hs), (py_get_Some _ _ _ Hs).
  unfold py_or. rewrite Ts. cbn [negb orb].
  destruct (trim_summary_dict s) as (s' & Es & Hs').
  rewrite Es.
  assert (Hsig' : truthy (py_get s' "transactionCount")
                  || truthy (py_get s' "totalQuantity")
                  || truthy (py_get s' "totalRevenue") = true).
  { unfold py_get in *. rewrite !Hs' by not_listed. exact Hsig. }
  assert (Ts' : truthy (VDict s') = true).
  { apply orb_prop in Hsig' as [H | H];
      [apply orb_prop in H as [H | H] |];
      exact (truthy_get_nonempty _ _ H). }
  unfold in_None_or_empty. cbn [is_None eq_empty_dict orb].
  cbn [truthy] in Ts'. apply negb_true_iff in Ts'. rewrite Ts'. cbn [orb].
  rewrite <- !negb_orb, Hsig'. cbn [negb].
  now destruct (py_get payload "transactions").
Qed.

(** X13.  For a product intent whose payload has a summary with a truthy
    aggregate, the routed payload has just the fields productId, summary
    and filters of the fetched one and, when "transactions" is a list,
    its first 15 entries with the count, the limit and the truncation
    flag; no other field of the fetched payload is passed on. *)
Theorem product_result_is_slim
    (svc : request -> result exn dict) (i : Intent) (p : string)
    (payload s : dict) :
  intent i = "product" ->
  product_id i = Some p ->
  svc (get_product p (_interpret_date_range (date_range i)).1
                     (_interpret_date_range (date_range i)).2) = Ok payload ->
  payload !! "summary" = Some (VDict s) ->
  truthy (py_get s "transactionCount") || truthy (py_get s "totalQuantity")
  || truthy (py_get s "totalRevenue") = true ->
  exists data,
    run svc (route_intent i)
    = ([get_product p (_interpret_date_range (date_range i)).1
                      (_interpret_date_range (date_range i)).2],
       Ok (RoutedResult.mk i data))
    /\ data !! "productId" = Some (py_get payload "productId")
    /\ data !! "filters" = Some (py_get payload "filters")
    /\ data !! "summary" = Some (trim_summary (VDict s))
    /\ (forall txs, payload !! "transactions" = Some (VList txs) ->
          data !! "transactions" = Some (VList (take 15 txs))
          /\ data !! "transactionCount" = Some (VInt (Z.of_nat (length txs)))
          /\ data !! "transactionsLimit" = Some (VInt 15)
          /\ data !! "transactionsTruncated"
             = Some (VBool (bool_decide (15 < length txs))))
    /\ ((forall txs, py_get payload "transactions" <> VList txs) ->
          data !! "transactions" = None)
    /\ forall k, k ∉ ["productId"; "summary"; "filters"; "transactions";
                       "transactionCount"; "transactionsLimit";
                       "transactionsTruncated"] ->
         data !! k = None.
Proof.
  intros Hk Hid Hsvc Hs Hsig.
  eexists. split; [exact (run_product_with_signal _ _ _ _ _ Hk Hid Hsvc Hs Hsig) |].
  set (base := mkdict [("productId", py_get payload "productId");
                       ("summary", trim_summary (VDict s));
                       ("filters", py_get payload "filters")]).
  assert (Bp : base !! "productId" = Some (py_get payload "productId")) by reflexivity.
  assert (Bf : base !! "filters" = Some (py_get payload "filters")) by reflexivity.
  assert (Bs : base !! "summary" = Some (trim_summary (VDict s))) by reflexivity.
  assert (Bt : base !! "transactions" = None) by reflexivity.
  assert (Bk : forall k, k ∉ ["productId"; "summary"; "filters"] -> base !! k = None).
  { intros k Hn. rewrite !not_elem_of_cons in Hn. destruct Hn as (N1 & N2 & N3 & _).
    unfold base, mkdict. cbn [list_to_map foldr uncurry fst snd].
    rewrite !lookup_insert_ne by congruence. apply lookup_empty. }
  destruct (py_get payload "transactions") as [| | | | |txs|] eqn:Et.
  6: { destruct (trim_transactions_lookup txs base) as (L1 & L2 & L3 & L4 & L5).
       split; [| split; [| split; [| split; [| split]]]].
       - rewrite L5 by not_listed. exact Bp.
       - rewrite L5 by not_listed. exact Bf.
       - rewrite L5 by not_listed. exact Bs.
       - intros txs' Hx. unfold py_get in Et. rewrite Hx in Et.
         injection Et as ->. now repeat split.
       - intros Hn. now destruct (Hn txs).
       - intros k Hn. rewrite !not_elem_of_cons in Hn.
         destruct Hn as (N1 & N2 & N3 & N4 & N5 & N6 & N7 & _).
         rewrite L5.
         + apply Bk. rewrite !not_elem_of_cons. repeat split; try assumption.
           apply not_elem_of_nil.
         + rewrite !not_elem_of_cons. repeat split; try assumption.
           apply not_elem_of_nil. }
  all: (split; [exact Bp | split; [exact Bf | split; [exact Bs | split; [| split]]]]);
    [ intros txs Hx; unfold py_get in Et; rewrite Hx in Et; discriminate Et
    | intros _; exact Bt
    | intros k Hn; apply Bk; rewrite !not_elem_of_cons in Hn |- *;
      destruct Hn as (N1 & N2 & N3 & _); repeat split; try assumption;
      apply not_elem_of_nil ].
Qed.

Lemma product_result_is_slim_witness :
  exists data,
    run (serve product_25) (route_intent (product_intent (Some "A")))
    = ([get_product "A" None None],
       Ok (RoutedResult.mk (product_intent (Some "A")) data))
    /\ data !! "productId" = Some (VStr "A")
    /\ data !! "transactions" = Some (VList [])
    /\ data !! "transactionsTruncated" = Some (VBool false).
Proof.
  destruct (product_result_is_slim (serve product_25) (product_intent (Some "A"))
              "A" product_25 product_25_summary
              eq_refl eq_refl eq_refl eq_refl eq_refl)
    as (data & Hrun & Hp & _ & _ & Htx & _).
  exists data. split; [exact Hrun | split; [exact Hp |]].
  destruct (Htx [] eq_refl) as (H1 & _ & _ & H4). split; [exact H1 | exact H4].
Defined.

Lemma trim_summary_stores (s : dict) (stores : list value) :
  s !! "stores" = Some (VList stores) ->
  exists ts, trim_summary (VDict s) = VDict ts
    /\ ts !! "stores" = Some (VList (take 15 stores))
    /\ ts !! "storeCount" = Some (VInt (Z.of_nat (length stores)))
    /\ ts !! "storesLimit" = Some (VInt 15)
    /\ ts !! "storesTruncated" = Some (VBool (bool_decide (15 < length stores)))
    /\ forall k, k ∉ ["stores"; "storeCount"; "storesLimit"; "storesTruncated"] ->
         ts !! k = s !! k.
Proof.
  intros Hs. cbn [trim_summary]. rewrite (py_get_Some _ _ _ Hs).
  eexists. split; [reflexivity |].
  unfold slice_to, len, _TRIM_LIMIT.
  split; [| split; [| split; [| split]]].
  - now rewrite lookup_insert_eq.
  - now rewrite !lookup_insert_ne, lookup_insert_eq by done.
  - now rewrite !lookup_insert_ne, lookup_insert_eq by done.
  - rewrite !lookup_insert_ne, lookup_insert_eq by done. do 2 f_equal.
    case_bool_decide as E; [apply Z.ltb_lt | apply Z.ltb_ge]; lia.
  - intros k Hk. rewrite !not_elem_of_cons in Hk.
    destruct Hk as (N1 & N2 & N3 & N4 & _).
    now rewrite !lookup_insert_ne by congruence.
Qed.

Lemma slim_payload_lookup (v : value) (base : dict) (k : string) :
  k ∉ ["transactions"; "transactionCount"; "transactionsLimit";
        "transactionsTruncated"] ->
  match v with
  | VList transactions => trim_transactions transactions base
  | _ => base
  end !! k = base !! k.
Proof.
  intros Hk. destruct v; try reflexivity.
  now destruct (trim_transactions_lookup l base) as (_ & _ & _ & _ & ->).
Qed.

(** X14.  For a product intent whose payload has a summary with a truthy
    aggregate and a list of S stores, the routed summary lists the first
    min(S, 15) stores with storeCount = S, storesLimit = 15 and
    storesTruncated = (S > 15); its other fields are those fetched. *)
Theorem product_stores_trimmed
    (svc : request -> result exn dict) (i : Intent) (p : string)
    (payload s : dict) (stores : list value) :
  intent i = "product" ->
  product_id i = Some p ->
  svc (get_product p (_interpret_date_range (date_range i)).1
                     (_interpret_date_range (date_range i)).2) = Ok payload ->
  payload !! "summary" = Some (VDict s) ->
  truthy (py_get s "transactionCount") || truthy (py_get s "totalQuantity")
  || truthy (py_get s "totalRevenue") = true ->
  s !! "stores" = Some (VList stores) ->
  exists data ts,
    run svc (route_intent i)
    = ([get_product p (_interpret_date_range (date_range i)).1
                      (_interpret_date_range (date_range i)).2],
       Ok (RoutedResult.mk i data))
    /\ data !! "summary" = Some (VDict ts)
    /\ ts !! "stores" = Some (VList (take 15 stores))
    /\ length (take 15 stores) = Nat.min (length stores) 15
    /\ ts !! "storeCount" = Some (VInt (Z.of_nat (length stores)))
    /\ ts !! "storesLimit" = Some (VInt 15)
    /\ ts !! "storesTruncated" = Some (VBool (bool_decide (15 < length stores)))
    /\ forall k, k ∉ ["stores"; "storeCount"; "storesLimit"; "storesTruncated"] ->
         ts !! k = s !! k.
Proof.
  intros Hk Hid Hsvc Hs Hsig Hst.
  destruct (trim_summary_stores s stores Hst) as (ts & Ets & T1 & T2 & T3 & T4 & T5).
  eexists. exists ts.
  split; [exact (run_product_with_signal _ _ _ _ _ Hk Hid Hsvc Hs Hsig) |].
  split; [| repeat split; try assumption; rewrite length_take; lia].
  rewrite slim_payload_lookup by not_listed. rewrite Ets. reflexivity.
Qed.

Lemma product_stores_trimmed_witness :
  exists data ts,
    run (serve product_25) (route_intent (product_intent (Some "A")))
    = ([get_product "A" None None],
       Ok (RoutedResult.mk (product_intent (Some "A")) data))
    /\ data !! "summary" = Some (VDict ts)
    /\ ts !! "stores" = Some (VList (take 15 twenty_five_stores))
    /\ ts !! "storeCount" = Some (VInt 25)
    /\ ts !! "storesTruncated" = Some (VBool true).
Proof.
  destruct (product_stores_trimmed (serve product_25) (product_intent (Some "A"))
              "A" product_25 product_25_summary twenty_five_stores
              eq_refl eq_refl eq_refl eq_refl eq_refl eq_refl)
    as (data & ts & Hrun & Hsum & H1 & _ & H2 & _ & H4 & _).
  exists data, ts. repeat split; assumption.
Defined.

(** ** Trimmed strings and date bounds *)

Lemma length_app_str (a b : string) :
  String.length (a +:+ b) = String.length a + String.length b.
Proof. induction a as [|x a IH]; simpl; [reflexivity | f_equal; exact IH]. Qed.

Lemma str_in_split (w s : string) :
  str_in w s = true -> exists pre post, s = pre +:+ (w +:+ post).
Proof.
  induction s as [|c s IH]; cbn [str_in]; intros H.
  - rewrite orb_false_r in H. apply startswith_drop in H. now exists "", (str_drop (String.length w) "").
  - apply orb_prop in H as [H | H].
    + apply startswith_drop in H. now exists "", (str_drop (String.length w) (String c s)).
    + destruct (IH H) as (pre & post & ->). now exists (String c pre), post.
Qed.

Lemma lstrip_idem (s : string) : lstrip (lstrip s) = lstrip s.
Proof.
  induction s as [|c s IH]; [reflexivity |].
  cbn [lstrip]. destruct (isspace c) eqn:E; [exact IH |].
  cbn [lstrip]. now rewrite E.
Qed.

Lemma rstrip_idem (s : string) : rstrip (rstrip s) = rstrip s.
Proof.
  induction s as [|c s IH]; [reflexivity |].
  cbn [rstrip]. destruct (rstrip s) as [|d r] eqn:E.
  - destruct (isspace c) eqn:Ec; [reflexivity |]. cbn [rstrip]. now rewrite Ec.
  - cbn [rstrip] in IH |- *. now rewrite IH.
Qed.

Lemma strip_sides_commute (s : string) : rstrip (lstrip s) = lstrip (rstrip s).
Proof.
  induction s as [|c s IH]; [reflexivity |].
  destruct (isspace c) eqn:Ec.
  - cbn [lstrip rstrip]. rewrite Ec, IH.
    destruct (rstrip s) as [|d r]; [reflexivity |]. cbn [lstrip]. now rewrite Ec.
  - cbn [lstrip]. rewrite Ec, (rstrip_cons_nospace _ _ Ec). cbn [lstrip].
    now rewrite Ec.
Qed.

Lemma strip_idem (s : string) : strip (strip s) = strip s.
Proof.
  unfold strip.
  now rewrite <- (strip_sides_commute (lstrip (rstrip s))), lstrip_idem,
    strip_sides_commute, rstrip_idem.
Qed.

Lemma lstrip_suffix (s : string) : exists t, s = t +:+ lstrip s.
Proof.
  induction s as [|c s [t IH]]; [now exists "" |].
  cbn [lstrip]. destruct (isspace c).
  - exists (String c t). simpl. now f_equal.
  - now exists "".
Qed.

Lemma rstrip_prefix (s : string) : exists t, s = rstrip s +:+ t.
Proof.
  induction s as [|c s [t IH]]; [now exists "" |].
  cbn [rstrip]. destruct (rstrip s) as [|d r] eqn:E.
  - destruct (isspace c).
    + now exists (String c s).
    + exists t. simpl. f_equal. exact IH.
  - exists t. simpl. f_equal. exact IH.
Qed.

Lemma str_in_strip (w s : string) : str_in w (strip s) = true -> str_in w s = true.
Proof.
  intros H. apply str_in_split in H as (pre & post & H).
  destruct (rstrip_prefix s) as [t Ht]. destruct (lstrip_suffix (rstrip s)) as [u Hu].
  unfold strip in H. rewrite H in Hu. rewrite Hu in Ht.
  replace s with ((u +:+ pre) +:+ (w +:+ (post +:+ t)))
    by (rewrite Ht, !app_assoc_str; reflexivity).
  apply str_in_app.
Qed.

Lemma or_None_Some (s x : string) : or_None s = Some x -> x = s /\ s <> "".
Proof.
  unfold or_None. destruct (String.eqb_spec s ""); [discriminate |].
  now intros [= <-].
Qed.

(** X15.  A bound that [_interpret_date_range] gives is never empty and
    has no white space at either end; it comes from a range that
    contains "..", and the lower bound never contains ".." itself. *)
Theorem interpreted_bounds_are_trimmed (date_range : option string) (x : string) :
  (_interpret_date_range date_range).1 = Some x
  \/ (_interpret_date_range date_range).2 = Some x ->
  x <> "" /\ strip x = x
  /\ (exists s, date_range = Some s /\ str_in ".." s = true)
  /\ ((_interpret_date_range date_range).1 = Some x -> str_in ".." x = false).
Proof.
  unfold _interpret_date_range.
  destruct date_range as [s|]; [| cbn; intros [H | H]; discriminate H].
  destruct (negb (truthy (VStr s))); [cbn; intros [H | H]; discriminate H |].
  destruct (str_in ".." s) eqn:Hin; [| cbn; intros [H | H]; discriminate H].
  destruct (split_once_spec _ _ Hin) as [Heq Hmin].
  destruct (split_once ".." s) as [a b]. cbn [fst snd] in *.
  intros Hx.
  assert (Hs : x <> "" /\ strip x = x).
  { destruct Hx as [Hx | Hx]; apply or_None_Some in Hx as [-> Hne];
      (split; [exact Hne | apply strip_idem]). }
  destruct Hs as [Hne Hst].
  split; [exact Hne | split; [exact Hst | split; [now exists s |]]].
  intros Ha. apply or_None_Some in Ha as [-> _].
  destruct (str_in ".." (strip a)) eqn:E; [| reflexivity].
  apply str_in_strip, str_in_split in E as (pre & post & Ea).
  exfalso. specialize (Hmin pre (post +:+ (".." +:+ b))).
  assert (Hle : String.length a <= String.length pre).
  { apply Hmin. rewrite Heq, Ea, !app_assoc_str. reflexivity. }
  rewrite Ea, !length_app_str in Hle. cbn in Hle. lia.
Qed.

Lemma interpreted_bounds_are_trimmed_witness :
  "b..c" <> "" /\ strip "b..c" = "b..c"
  /\ (exists s, Some " a .. b..c " = Some s /\ str_in ".." s = true)
  /\ ((_interpret_date_range (Some " a .. b..c ")).1 = Some "b..c" ->
      str_in ".." "b..c" = false).
Proof.
  apply (interpreted_bounds_are_trimmed (Some " a .. b..c ") "b..c").
  right. reflexivity.
Defined.

(** * The stages around the router *)

Section StageFacts.
Variable intent_model : string -> result exn (option string).
Variable response_model : string -> dict -> result exn (option string).
Variable json_loads : string -> option value.
Variable py_str : value -> string.
Variable lax_int : value -> option Z.
Variable lax_str : value -> option string.

(** X16.  [parse_intent] passes on an exception of the model call as it
    is; once the model has replied, it either returns an intent that
    validation accepted for the decoded reply, of one of the three
    kinds, or raises an [IntentParsingError]. *)
Theorem parse_intent_outcomes (user_query : string) :
  (forall exc, intent_model user_query = Raised exc ->
     parse_intent intent_model json_loads py_str lax_int lax_str user_query
     = Raised exc)
  /\ (forall reply, intent_model user_query = Ok reply ->
        (exists i raw fields,
           parse_intent intent_model json_loads py_str lax_int lax_str user_query
           = Ok i
           /\ reply = Some raw /\ raw <> ""
           /\ json_loads raw = Some (VDict fields)
           /\ model_validate lax_int lax_str fields = Ok i
           /\ intent i ∈ intent_literals)
        \/ (exists msg,
              parse_intent intent_model json_loads py_str lax_int lax_str user_query
              = Raised (IntentParsingError msg))).
Proof.
  unfold parse_intent. split.
  - intros exc ->. reflexivity.
  - intros reply ->.
    destruct reply as [raw|]; [| right; eexists; reflexivity].
    cbn [of_opt_str truthy default from_option id].
    destruct (String.eqb_spec raw "") as [-> | Hne];
      [right; eexists; reflexivity |].
    cbn [negb].
    destruct (json_loads raw) as [candidate|] eqn:Ej;
      [| right; eexists; reflexivity].
    destruct candidate as [| | | | | |fields]; try (right; eexists; reflexivity).
    destruct (model_validate lax_int lax_str fields) as [i | errs] eqn:Ev;
      [| right; eexists; reflexivity].
    left. exists i, raw, fields. repeat split; try assumption.
    exact (model_validate_kind _ _ _ _ Ev).
Qed.

(** X17.  [generate_response] raises [RuntimeError] when the model
    replies nothing or the empty text, and otherwise returns the reply
    trimmed.  The test is made before trimming: a reply of white space
    only is returned as the empty answer. *)
Theorem generate_response_outcomes (user_query : string) (data : dict) :
  (forall exc, response_model user_query data = Raised exc ->
     generate_response response_model user_query data = Raised exc)
  /\ (forall reply, response_model user_query data = Ok reply ->
        reply = None \/ reply = Some "" ->
        generate_response response_model user_query data
        = Raised (Exn "RuntimeError"
                    "LLM returned empty response for answer generation."))
  /\ (forall text, response_model user_query data = Ok (Some text) ->
        text <> "" ->
        generate_response response_model user_query data = Ok (strip text)
        /\ strip (strip text) = strip text
        /\ (str_forall isspace text = true ->
            generate_response response_model user_query data = Ok "")).
Proof.
  unfold generate_response. split; [| split].
  - intros exc ->. reflexivity.
  - intros reply -> [-> | ->]; reflexivity.
  - intros text -> Hne. cbn [of_opt_str default from_option id].
    rewrite (truthy_nonempty _ Hne). cbn [negb].
    split; [reflexivity | split; [apply strip_idem |]].
    intros Hb. unfold strip. now rewrite (rstrip_blank _ Hb).
Qed.
End StageFacts.

Lemma parse_intent_outcomes_witness :
  parse_intent (model_says (Some "{customer 123}")) decode_fixture show_fixture
    strict_int strict_str "How much did customer 123 spend?"
  = Ok (mkIntent "customer" (Some 123%Z) None (Some "summary") None None)
  /\ (exists msg,
        parse_intent (model_says (Some "{invalid}")) decode_fixture show_fixture
          strict_int strict_str "anything"
        = Raised (IntentParsingError msg)).
Proof.
  split.
  - destruct (proj2 (parse_intent_outcomes
                       (model_says (Some "{customer 123}")) decode_fixture
                       show_fixture strict_int strict_str
                       "How much did customer 123 spend?")
                _ eq_refl)
      as [(i & raw & fields & H & _) | [msg H]];
      [rewrite H; f_equal; vm_compute in H; now injection H | discriminate H].
  - destruct (proj2 (parse_intent_outcomes
                       (model_says (Some "{invalid}")) decode_fixture
                       show_fixture strict_int strict_str "anything")
                _ eq_refl)
      as [(i & raw & fields & H & _) | [msg H]];
      [discriminate H | now exists msg].
Defined.

Lemma generate_response_outcomes_witness :
  generate_response (renderer_says (Some "  ")) "anything" ∅ = Ok ""
  /\ generate_response (renderer_says (Some " 3 orders. ")) "anything" ∅
     = Ok "3 orders."
  /\ generate_response (renderer_says (Some "")) "anything" ∅
     = Raised (Exn "RuntimeError"
                 "LLM returned empty response for answer generation.").
Proof.
  split; [| split].
  - apply (proj2 (proj2 (generate_response_outcomes
                           (renderer_says (Some "  ")) "anything" ∅))
             "  " eq_refl); [discriminate | reflexivity].
  - apply (proj2 (proj2 (generate_response_outcomes
                           (renderer_says (Some " 3 orders. ")) "anything" ∅))
             " 3 orders. " eq_refl). discriminate.
  - apply (proj1 (proj2 (generate_response_outcomes
                           (renderer_says (Some "")) "anything" ∅))
             (Some "") eq_refl). now right.
Defined.

(** ** Further properties of the chat endpoint *)

Lemma parse_intent_kind
    (intent_model : string -> result exn (option string))
    (json_loads : string -> option value) (py_str : value -> string)
    (lax_int : value -> option Z) (lax_str : value -> option string)
    (q : string) (i : Intent) :
  parse_intent intent_model json_loads py_str lax_int lax_str q = Ok i ->
  intent i ∈ intent_literals.
Proof.
  unfold parse_intent.
  destruct (intent_model q) as [reply | e]; [| discriminate].
  destruct (negb (truthy (of_opt_str reply))); [discriminate |].
  destruct (json_loads (default "" reply)) as [[| | | | | |fields]|];
    try discriminate.
  destruct (model_validate lax_int lax_str fields) as [i' | errs] eqn:Ev;
    [| discriminate].
  intros [= <-]. exact (model_validate_kind _ _ _ _ Ev).
Qed.

Section ChatFacts.
Variable parse : string -> result exn Intent.
Variable svc : request -> result exn dict.
Variable render : string -> dict -> result exn string.

(** X18.  A request whose body is falsy (absent, null, an empty object),
    or an object whose "query" is absent, not a string, or blank, is
    answered 400 / BadRequest, whatever the three stages would do. *)
Theorem chat_bad_request (json : value) :
  truthy json = false
  \/ (exists payload, json = VDict payload
        /\ forall q, py_get payload "query" = VStr q -> strip q = "") ->
  chat parse svc render json
  = Ok (jsonify
          (mkdict [("error", VStr "BadRequest");
                   ("message",
                    VStr "Field 'query' (non-empty string) is required.")])
          400).
Proof.
  intros [Hf | (payload & -> & Hq)]; unfold chat, py_or.
  - rewrite Hf. reflexivity.
  - destruct (truthy (VDict payload)); [| reflexivity].
    destruct (py_get payload "query") as [| | | |q| |] eqn:Eq; try reflexivity.
    now rewrite (Hq q eq_refl).
Qed.

Lemma chat_on_object (payload : dict) :
  exists resp,
    chat parse svc render (VDict payload) = Ok resp
    /\ ((status resp = 200%Z /\ is_Some (body resp !! "answer")
         /\ body resp !! "error" = None)
        \/ ((status resp = 400%Z \/ status resp = 502%Z)
            /\ is_Some (body resp !! "error")
            /\ body resp !! "answer" = None)).
Proof.
  assert (Hbad : exists resp,
            Ok (jsonify
                  (mkdict [("error", VStr "BadRequest");
                           ("message",
                            VStr "Field 'query' (non-empty string) is required.")])
                  400) = @Ok exn response resp
            /\ ((status resp = 200%Z /\ is_Some (body resp !! "answer")
                 /\ body resp !! "error" = None)
                \/ ((status resp = 400%Z \/ status resp = 502%Z)
                    /\ is_Some (body resp !! "error")
                    /\ body resp !! "answer" = None))).
  { eexists. split; [reflexivity |]. right.
    repeat split; [now left | now eexists]. }
  unfold chat, py_or.
  destruct (truthy (VDict payload)); [| exact Hbad].
  destruct (py_get payload "query") as [| | | |q| |]; try exact Hbad.
  destruct (negb (truthy (VStr (strip q)))); [exact Hbad |].
  destruct (parse (strip q)) as [i | e].
  - destruct (run svc (route_intent i)).2 as [routed | e].
    + destruct (render (strip q) (RoutedResult.to_dict routed)) as [answer | e];
        (eexists; split; [reflexivity |]).
      * left. repeat split. now eexists.
      * right. repeat split; [now right | now eexists].
    + eexists. split; [reflexivity |]. right.
      repeat split; [now left | now eexists].
  - eexists. split; [reflexivity |]. right.
    repeat split; [now left | now eexists].
Qed.

Lemma chat_falsy (json : value) :
  truthy json = false ->
  chat parse svc render json = chat parse svc render (VDict ∅).
Proof. intros H. unfold chat, py_or. now rewrite H. Qed.

Lemma chat_not_object (json : value) :
  truthy json = true -> (forall d, json <> VDict d) ->
  chat parse svc render json
  = Raised (Exn "AttributeError"
              ("'" +:+ type_name json +:+ "' object has no attribute 'get'")).
Proof.
  intros H Hn. unfold chat, py_or. rewrite H.
  destruct json; try reflexivity. now destruct (Hn d).
Qed.

(** X19.  [chat] lets an exception escape only for a body that is truthy
    and not an object, an [AttributeError]; every response it returns
    has status 200, 400 or 502, with an "answer" and no "error" when the
    status is 200, and an "error" and no "answer" otherwise. *)
Theorem chat_outcomes (json : value) :
  (forall exc, chat parse svc render json = Raised exc ->
     truthy json = true /\ (forall d, json <> VDict d)
     /\ exc = Exn "AttributeError"
                ("'" +:+ type_name json +:+ "' object has no attribute 'get'"))
  /\ (forall resp, chat parse svc render json = Ok resp ->
        (status resp = 200%Z /\ is_Some (body resp !! "answer")
         /\ body resp !! "error" = None)
        \/ ((status resp = 400%Z \/ status resp = 502%Z)
            /\ is_Some (body resp !! "error")
            /\ body resp !! "answer" = None)).
Proof.
  assert (Hobj : (exists d, json = VDict d) \/ (forall d, json <> VDict d)).
  { destruct json; try (right; discriminate). left. now eexists. }
  destruct Hobj as [[d ->] | Hn].
  - destruct (chat_on_object d) as (resp & -> & Hr).
    split; [discriminate | now intros resp' [= <-]].
  - destruct (truthy json) eqn:Ht.
    + rewrite (chat_not_object _ Ht Hn).
      split; [now intros exc [= <-] | discriminate].
    + rewrite (chat_falsy _ Ht).
      destruct (chat_on_object ∅) as (resp & -> & Hr).
      split; [discriminate | now intros resp' [= <-]].
Qed.

(** X20.  White space around the query does not matter: [chat] answers a
    request as it answers the same request with the query trimmed. *)
Theorem chat_trims_the_query (payload : dict) (q : string) :
  payload !! "query" = Some (VStr q) ->
  chat parse svc render (VDict payload)
  = chat parse svc render (VDict (<["query" := VStr (strip q)]> payload)).
Proof.
  intros Hq. unfold chat, py_or.
  rewrite (truthy_dict_lookup _ _ _ Hq).
  rewrite (truthy_dict_lookup (<["query" := VStr (strip q)]> payload) "query"
             (VStr (strip q))) by apply lookup_insert_eq.
  rewrite (py_get_Some _ _ _ Hq).
  rewrite (py_get_Some (<["query" := VStr (strip q)]> payload) "query"
             (VStr (strip q))) by apply lookup_insert_eq.
  now rewrite strip_idem.
Qed.
End ChatFacts.

Lemma chat_bad_request_witness :
  chat parse_customer_999 (serve customer_30) render_ok
    (VDict (mkdict [("query", VStr "   ")]))
  = Ok (jsonify
          (mkdict [("error", VStr "BadRequest");
                   ("message",
                    VStr "Field 'query' (non-empty string) is required.")])
          400).
Proof.
  apply chat_bad_request. right.
  exists (mkdict [("query", VStr "   ")]). split; [reflexivity |].
  intros q [= <-]. reflexivity.
Defined.

Lemma chat_outcomes_witness :
  (truthy (VList [VInt 1]) = true /\ (forall d, VList [VInt 1] <> VDict d)
   /\ Exn "AttributeError" "'list' object has no attribute 'get'"
      = Exn "AttributeError"
          ("'" +:+ type_name (VList [VInt 1]) +:+ "' object has no attribute 'get'"))
  /\ ((status (jsonify
                 (mkdict [("error", VStr "RoutingFailed");
                          ("message", VStr "API request failed: 500 ");
                          ("intent",
                           VDict (model_dump (customer_intent (Some 999%Z))))])
                 400) = 200%Z
       /\ is_Some (@None value) /\ Some (VStr "RoutingFailed") = None)
      \/ ((400 = 400 \/ 400 = 502)%Z
          /\ is_Some (Some (VStr "RoutingFailed")) /\ @None value = None)).
Proof.
  split.
  - exact (proj1 (chat_outcomes parse_customer_999 service_down render_ok
                    (VList [VInt 1]))
             _ eq_refl).
  - exact (proj2 (chat_outcomes parse_customer_999 service_down render_ok
                    (VDict query_body))
             _ eq_refl).
Defined.

Lemma chat_trims_the_query_witness :
  chat parse_customer_999 (serve customer_empty) render_ok (VDict query_body)
  = chat parse_customer_999 (serve customer_empty) render_ok
      (VDict (<["query" := VStr (strip " what did customer 999 buy? ")]> query_body)).
Proof.
  exact (chat_trims_the_query parse_customer_999 (serve customer_empty) render_ok
           query_body " what did customer 999 buy? " eq_refl).
Defined.

(** X21.  With the repository's parser in front, a RoutingFailed answer
    of [chat] always reports a failure of the data service: the intent
    was parsed, the router made one call, that call raised, and the
    message is the text of its exception. *)
Theorem chat_routing_failed_comes_from_service
    (intent_model : string -> result exn (option string))
    (json_loads : string -> option value) (py_str : value -> string)
    (lax_int : value -> option Z) (lax_str : value -> option string)
    (svc : request -> result exn dict)
    (render : string -> dict -> result exn string)
    (json : value) (resp : response) :
  chat (parse_intent intent_model json_loads py_str lax_int lax_str) svc render json
  = Ok resp ->
  body resp !! "error" = Some (VStr "RoutingFailed") ->
  exists q i r e,
    parse_intent intent_model json_loads py_str lax_int lax_str q = Ok i
    /\ (run svc (route_intent i)).1 = [r]
    /\ svc r = Raised e
    /\ status resp = 400%Z
    /\ body resp !! "message" = Some (VStr (exn_msg e))
    /\ body resp !! "intent" = Some (VDict (model_dump i)).
Proof.
  set (parse := parse_intent intent_model json_loads py_str lax_int lax_str).
  assert (Hobj : forall payload,
            chat parse svc render (VDict payload) = Ok resp ->
            body resp !! "error" = Some (VStr "RoutingFailed") ->
            exists q i r e,
              parse q = Ok i /\ (run svc (route_intent i)).1 = [r]
              /\ svc r = Raised e /\ status resp = 400%Z
              /\ body resp !! "message" = Some (VStr (exn_msg e))
              /\ body resp !! "intent" = Some (VDict (model_dump i))).
  { intros payload. unfold chat, py_or.
    destruct (truthy (VDict payload));
      [| intros [= <-] H; vm_compute in H; discriminate H].
    destruct (py_get payload "query") as [| | | |q| |];
      try (intros [= <-] H; vm_compute in H; discriminate H).
    destruct (negb (truthy (VStr (strip q))));
      [intros [= <-] H; vm_compute in H; discriminate H |].
    destruct (parse (strip q)) as [i | e] eqn:Ep;
      [| intros [= <-] H; vm_compute in H; discriminate H].
    pose proof (parse_intent_kind _ _ _ _ _ _ _ Ep) as Hk.
    destruct (run_route_intent svc i)
      as [[data Hr] | [[Hn _] | (r & _ & [(d & data & _ & Hr) | (e & Hs & Hr)])]];
      [| contradiction | |]; rewrite Hr; cbn [snd].
    - destruct (render (strip q) _); intros [= <-] H; vm_compute in H;
        discriminate H.
    - destruct (render (strip q) _); intros [= <-] H; vm_compute in H;
        discriminate H.
    - intros [= <-] _. exists (strip q), i, r, e.
      split; [exact Ep | split; [now rewrite Hr | split; [exact Hs |]]].
      repeat split. }
  destruct json as [| b | z | f | s | l | d]; try exact (Hobj d);
    unfold chat, py_or; intros Hc; try discriminate Hc.
  all: destruct (truthy _) in Hc; try discriminate Hc;
    injection Hc as <-; intros H; vm_compute in H; discriminate H.
Qed.

Lemma chat_routing_failed_comes_from_service_witness :
  exists q i r e,
    parse_intent (model_says (Some "{customer 123}")) decode_fixture show_fixture
      strict_int strict_str q = Ok i
    /\ (run service_down (route_intent i)).1 = [r]
    /\ service_down r = Raised e
    /\ 400%Z = 400%Z
    /\ Some (VStr "API request failed: 500 ") = Some (VStr (exn_msg e))
    /\ Some (VDict (model_dump
                     (mkIntent "customer" (Some 123%Z) None (Some "summary")
                        None None)))
       = Some (VDict (model_dump i)).
Proof.
  exact (chat_routing_failed_comes_from_service
           (model_says (Some "{customer 123}")) decode_fixture show_fixture
           strict_int strict_str service_down render_ok (VDict query_body)
           (jsonify
              (mkdict [("error", VStr "RoutingFailed");
                       ("message", VStr "API request failed: 500 ");
                       ("intent",
                        VDict (model_dump
                                 (mkIntent "customer" (Some 123%Z) None
                                    (Some "summary") None None)))])
              400)
           eq_refl eq_refl).
Defined.

(** * The REST API *)

Lemma count_char_app (c : ascii) (a b : string) :
  count_char c (a +:+ b) = count_char c a + count_char c b.
Proof.
  induction a as [|x a IH]; [reflexivity |].
  change (String x a +:+ b) with (String x (a +:+ b)). cbn [count_char].
  rewrite IH. lia.
Qed.

(** X22.  The WHERE clause [_build_date_range_where] builds is one of
    four fixed texts, whatever the bounds contain: the bounds travel as
    parameters only, the lower one with " 00:00" and the upper one with
    " 23:59" appended, an empty bound counting as an absent one, and the
    clause has one placeholder for each parameter. *)
Theorem date_range_where_is_fixed_text (date_from date_to : option string) :
  (flask_app._build_date_range_where date_from date_to).1
  ∈ [""; "WHERE TransactionDate >= ?"; "WHERE TransactionDate <= ?";
     "WHERE TransactionDate >= ? AND TransactionDate <= ?"]
  /\ (flask_app._build_date_range_where date_from date_to).2
     = match date_from with
       | Some s => if String.eqb s "" then [] else [VStr (s +:+ " 00:00")]
       | None => []
       end
       ++ match date_to with
          | Some s => if String.eqb s "" then [] else [VStr (s +:+ " 23:59")]
          | None => []
          end
  /\ count_char "?" (flask_app._build_date_range_where date_from date_to).1
     = length (flask_app._build_date_range_where date_from date_to).2.
Proof.
  unfold flask_app._build_date_range_where.
  destruct date_from as [f|], date_to as [t|]; cbn [of_opt_str truthy];
    try destruct (String.eqb f ""); try destruct (String.eqb t "");
    cbn [negb app fst snd default from_option id];
    (split; [| split; reflexivity]);
    rewrite !elem_of_cons; auto 6.
Qed.

Lemma run_view_execute {A}
    (db : string -> list value -> result exn (list dict))
    (sql : string) (params : list value) (k : list dict -> flask_app.view A) :
  (flask_app.run_view db (flask_app.Execute sql params k)).1
  = (sql, params)
    :: match db sql params with
       | Ok rows => (flask_app.run_view db (k rows)).1
       | Raised _ => []
       end.
Proof.
  cbn [flask_app.run_view]. destruct (db sql params) as [rows | e]; [| reflexivity].
  now destruct (flask_app.run_view db (k rows)).
Qed.

(** The clause and the parameters [_build_date_range_where] gives, by
    cases: no clause and no parameter, or a truthy clause with one
    placeholder for each parameter, also once "WHERE " is taken off. *)
Lemma build_where_cases (date_from date_to : option string) :
  exists w ps,
    flask_app._build_date_range_where date_from date_to = (w, ps)
    /\ count_char "?" w = length ps
    /\ ((w = "" /\ ps = [])
        \/ (truthy (VStr w) = true
            /\ count_char "?" (str_replace "WHERE " "" w) = length ps)).
Proof.
  unfold flask_app._build_date_range_where.
  destruct date_from as [f|], date_to as [t|]; cbn [of_opt_str truthy];
    try destruct (String.eqb f ""); try destruct (String.eqb t "");
    cbn [negb app default from_option id];
    eexists _, _; (split; [reflexivity |]); (split; [reflexivity |]);
    first [left; split; reflexivity | right; split; reflexivity].
Qed.

Lemma limit_in_range (r : Z) :
  (1 <= Z.max 1 (Z.min r 15) <= 15)%Z.
Proof. lia. Qed.

Lemma limit_has_no_placeholder (r : Z) :
  count_char "?" (pretty (Z.max 1 (Z.min r 15))) = 0.
Proof.
  pose proof (limit_in_range r) as H.
  remember (Z.max 1 (Z.min r 15)) as n eqn:E. clear E r.
  assert (Hn : (n = 1 \/ n = 2 \/ n = 3 \/ n = 4 \/ n = 5 \/ n = 6 \/ n = 7
               \/ n = 8 \/ n = 9 \/ n = 10 \/ n = 11 \/ n = 12 \/ n = 13
               \/ n = 14 \/ n = 15)%Z) by lia.
  repeat (destruct Hn as [-> | Hn]; [reflexivity |]). subst n. reflexivity.
Qed.

(** Count the placeholders of the literal parts of a statement. *)
Ltac count_literals :=
  rewrite ?count_char_app;
  repeat match goal with
         | |- context [count_char ?c ?s] =>
             let v := eval vm_compute in (count_char c s) in
             lazymatch v with
             | O => change (count_char c s) with 0
             | S O => change (count_char c s) with 1
             end
         end.

(** Reach the statements of a view whose clause comes from
    [_build_date_range_where]. *)
Ltac open_view :=
  cbv beta iota zeta delta [flask_app._parse_date_range_params];
  match goal with
  | |- context [flask_app._build_date_range_where ?f ?t] =>
      destruct (build_where_cases f t) as (w & ps & -> & Hc & Hw)
  end;
  cbv beta iota zeta.

(** X23.  Every statement the seven views of the API execute has
    exactly one placeholder for each parameter bound to it, whatever the
    identifiers, the query arguments and the answers of the database. *)
Theorem statements_bind_their_parameters
    (py_int : string -> option Z)
    (db : string -> list value -> result exn (list dict))
    (customer_id : Z) (product_id : string) (args : gmap string string)
    (q : string * list value) :
  q ∈ (flask_app.run_view db (flask_app.get_customer customer_id args)).1
  \/ q ∈ (flask_app.run_view db (flask_app.get_product product_id args)).1
  \/ q ∈ (flask_app.run_view db (flask_app.metrics_summary args)).1
  \/ q ∈ (flask_app.run_view db (flask_app.metrics_by_category args)).1
  \/ q ∈ (flask_app.run_view db (flask_app.metrics_by_payment args)).1
  \/ q ∈ (flask_app.run_view db (flask_app.metrics_top_customers py_int args)).1
  \/ q ∈ (flask_app.run_view db (flask_app.metrics_top_products py_int args)).1 ->
  count_char "?" q.1 = length q.2.
Proof.
  intros [H | [H | [H | [H | [H | [H | H]]]]]]; revert H.
  - unfold flask_app.get_customer. open_view.
    destruct Hw as [[-> ->] | [-> Hr]];
      [change (truthy (VStr "")) with false |]; cbv iota;
      rewrite run_view_execute;
      (destruct (db _ _) as [rows | e];
       [destruct (negb (truthy (VList (VDict <$> rows))));
        [| rewrite run_view_execute; destruct (db _ _)] |]);
      cbn [flask_app.run_view fst];
      rewrite ?elem_of_cons, ?elem_of_nil;
      intros H; repeat (destruct H as [-> | H]); try contradiction;
      cbn [fst snd length]; count_literals; lia.
  - unfold flask_app.get_product. open_view.
    destruct Hw as [[-> ->] | [-> Hr]];
      [change (truthy (VStr "")) with false |]; cbv iota;
      rewrite run_view_execute;
      (destruct (db _ _) as [rows | e];
       [destruct (negb (truthy (VList (VDict <$> rows))));
        [| rewrite run_view_execute; destruct (db _ _);
           [rewrite run_view_execute; destruct (db _ _) |]] |]);
      cbn [flask_app.run_view fst];
      rewrite ?elem_of_cons, ?elem_of_nil;
      intros H; repeat (destruct H as [-> | H]); try contradiction;
      cbn [fst snd length]; count_literals; lia.
  - unfold flask_app.metrics_summary. open_view.
    rewrite run_view_execute. destruct (db _ _); cbn [flask_app.run_view fst];
      rewrite ?elem_of_cons, ?elem_of_nil;
      intros H; repeat (destruct H as [-> | H]); try contradiction;
      cbn [fst snd]; count_literals; lia.
  - unfold flask_app.metrics_by_category. open_view.
    rewrite run_view_execute. destruct (db _ _); cbn [flask_app.run_view fst];
      rewrite ?elem_of_cons, ?elem_of_nil;
      intros H; repeat (destruct H as [-> | H]); try contradiction;
      cbn [fst snd]; count_literals; lia.
  - unfold flask_app.metrics_by_payment. open_view.
    rewrite run_view_execute. destruct (db _ _); cbn [flask_app.run_view fst];
      rewrite ?elem_of_cons, ?elem_of_nil;
      intros H; repeat (destruct H as [-> | H]); try contradiction;
      cbn [fst snd]; count_literals; lia.
  - unfold flask_app.metrics_top_customers. open_view.
    rewrite run_view_execute. destruct (db _ _); cbn [flask_app.run_view fst];
      rewrite ?elem_of_cons, ?elem_of_nil;
      intros H; repeat (destruct H as [-> | H]); try contradiction;
      cbn [fst snd]; rewrite !count_char_app, limit_has_no_placeholder;
      count_literals; lia.
  - unfold flask_app.metrics_top_products. open_view.
    rewrite run_view_execute. destruct (db _ _); cbn [flask_app.run_view fst];
      rewrite ?elem_of_cons, ?elem_of_nil;
      intros H; repeat (destruct H as [-> | H]); try contradiction;
      cbn [fst snd]; rewrite !count_char_app, limit_has_no_placeholder;
      count_literals; lia.
Qed.

Lemma statements_bind_their_parameters_witness :
  customer_statement
  ∈ (flask_app.run_view no_rows (flask_app.get_customer 7 january)).1
  /\ count_char "?" customer_statement.1 = length customer_statement.2.
Proof.
  assert (H : customer_statement
              ∈ (flask_app.run_view no_rows (flask_app.get_customer 7 january)).1)
    by (vm_compute; apply list_elem_of_here).
  split; [exact H |].
  apply (statements_bind_their_parameters (fun _ => None) no_rows 7 "" january).
  left. exact H.
Defined.

(** X24.  The two top-N views run one statement, whose LIMIT is the
    requested limit clamped to 1..15 and written into the text as a
    decimal number; a limit that is not an integer counts as 5.  The
    answer reports the limit used, the rows fetched, and, only when more
    than 15 were requested, [limitRequested] with [limitApplied] 15. *)
Theorem top_n_views_cap_the_limit
    (py_int : string -> option Z)
    (db : string -> list value -> result exn (list dict))
    (args : gmap string string)
    (view : gmap string string -> flask_app.view response) :
  view = flask_app.metrics_top_customers py_int
  \/ view = flask_app.metrics_top_products py_int ->
  exists (requested limit : Z) (head : string) (params : list value),
    requested = match py_int (default "5" (args !! "limit")) with
                | Some n => n
                | None => 5%Z
                end
    /\ (1 <= limit <= 15)%Z
    /\ ((1 <= requested <= 15)%Z -> limit = requested)
    /\ ((requested < 1)%Z -> limit = 1%Z)
    /\ ((15 < requested)%Z -> limit = 15%Z)
    /\ params = (flask_app._build_date_range_where (args !! "from") (args !! "to")).2
    /\ (flask_app.run_view db (view args)).1
       = [(head +:+ "LIMIT " +:+ pretty limit +:+ "
            ", params)]
    /\ forall rows,
         db (head +:+ "LIMIT " +:+ pretty limit +:+ "
            ") params = Ok rows ->
         exists out,
           (flask_app.run_view db (view args)).2 = Ok (Response out 200)
           /\ out !! "limit" = Some (VInt limit)
           /\ out !! "metrics" = Some (VList (VDict <$> rows))
           /\ out !! "limitRequested"
              = (if (15 <? requested)%Z then Some (VInt requested) else None)
           /\ out !! "limitApplied"
              = (if (15 <? requested)%Z then Some (VInt 15) else None).
Proof.
  intros Hview.
  exists (flask_app.requested_limit py_int args),
    (Z.max 1 (Z.min (flask_app.requested_limit py_int args) 15)).
  set (requested := flask_app.requested_limit py_int args).
  set (limit := Z.max 1 (Z.min requested 15)).
  assert (Hr : requested = match py_int (default "5" (args !! "limit")) with
                           | Some n => n
                           | None => 5%Z
                           end) by reflexivity.
  assert (Hl : (1 <= limit <= 15)%Z
               /\ ((1 <= requested <= 15)%Z -> limit = requested)
               /\ ((requested < 1)%Z -> limit = 1%Z)
               /\ ((15 < requested)%Z -> limit = 15%Z)) by lia.
  destruct Hl as (Hl1 & Hl2 & Hl3 & Hl4).
  destruct Hview as [-> | ->];
    [unfold flask_app.metrics_top_customers
    | unfold flask_app.metrics_top_products];
    cbv beta iota zeta delta [flask_app._parse_date_range_params];
    fold requested; fold limit; clearbody limit; clearbody requested;
    destruct (flask_app._build_date_range_where (args !! "from") (args !! "to"))
      as [w ps];
    match goal with
    | |- context [flask_app.Execute (?a +:+ w +:+ ?b +:+ pretty limit +:+ ?c)] =>
        let m := eval vm_compute in (str_drop 6 (String.rev b)) in
        let m := eval vm_compute in (String.rev m) in
        exists (a +:+ w +:+ m), ps;
        assert (E : (a +:+ w +:+ m) +:+ "LIMIT " +:+ pretty limit +:+ c
                    = a +:+ w +:+ b +:+ pretty limit +:+ c)
          by (rewrite !app_assoc_str; reflexivity)
    end;
    rewrite E;
    (do 6 (split; [assumption || reflexivity |]));
    (split; [rewrite run_view_execute; now destruct (db _ _) |]);
    intros rows Hdb; cbn [flask_app.run_view]; rewrite Hdb; cbn [snd];
    eexists; (split; [reflexivity |]);
    unfold flask_app.annotate_out; destruct (15 <? requested)%Z;
    repeat split; reflexivity.
Qed.

Lemma top_n_views_cap_the_limit_witness :
  exists out,
    (flask_app.run_view no_rows
       (flask_app.metrics_top_customers int_of_text fifty)).2
    = Ok (Response out 200)
    /\ out !! "limit" = Some (VInt 15)
    /\ out !! "limitRequested" = Some (VInt 50)
    /\ out !! "limitApplied" = Some (VInt 15).
Proof.
  destruct (top_n_views_cap_the_limit int_of_text no_rows fifty _
              (or_introl eq_refl))
    as (requested & limit & head & params & Hr & _ & _ & _ & H15 & _ & _ & Hout).
  vm_compute in Hr. subst requested. rewrite (H15 eq_refl) in Hout.
  destruct (Hout [] eq_refl) as (out & Ho & Hlimit & _ & Hreq & Happ).
  exists out. split; [exact Ho |]. split; [exact Hlimit |].
  split; [exact Hreq | exact Happ].
Defined.

(** What the router makes of a payload without transactions and with a
    null summary. *)
Lemma route_empty_payload (payload : dict) (i : Intent) :
  payload !! "transactions" = Some (VList []) ->
  payload !! "summary" = Some VNone ->
  (forall c, intent i = "customer" -> customer_id i = Some c ->
     (run (serve payload) (route_intent i)).2
     = Ok (RoutedResult.mk i
             (mkdict [("status", VStr "no_data");
                      ("reason", VStr "no_customer_transactions");
                      ("customerId", VInt c)])))
  /\ (forall p, intent i = "product" -> product_id i = Some p ->
        (run (serve payload) (route_intent i)).2
        = Ok (RoutedResult.mk i
                (mkdict [("status", VStr "no_data");
                         ("reason", VStr "no_product_transactions");
                         ("productId", VStr p)]))).
Proof.
  intros Htx Hsum. split.
  - intros c Hi Hc. route_kind Hi. rewrite Hc.
    destruct (_interpret_date_range (date_range i)) as [df dt].
    cbn [fetch bind run serve].
    rewrite (py_get_Some _ _ _ Htx), (py_get_Some _ _ _ Hsum).
    cbn [is_None]. change (truthy (VList [])) with false.
    cbn [negb andb]. rewrite orb_true_r. reflexivity.
  - intros p Hi Hp. route_kind Hi. rewrite Hp.
    destruct (_interpret_date_range (date_range i)) as [df dt].
    cbn [fetch bind run serve].
    rewrite (py_get_Some _ _ _ Hsum).
    rewrite (falsy_summary_trims_to_empty VNone eq_refl).
    change (in_None_or_empty (VDict ∅)) with true.
    rewrite orb_true_r. reflexivity.
Qed.

(** X25.  An answer of the customer view or of the product view whose
    transactions list is empty has status 200 and a null summary; the
    router, given that answer for a customer or a product intent with an
    identifier, reports no_data and echoes the identifier of the
    intent. *)
Theorem empty_history_is_no_data
    (db : string -> list value -> result exn (list dict))
    (args : gmap string string) (payload : dict) (st : Z) (i : Intent) :
  (exists c, (flask_app.run_view db (flask_app.get_customer c args)).2
             = Ok (Response payload st))
  \/ (exists p, (flask_app.run_view db (flask_app.get_product p args)).2
                = Ok (Response payload st)) ->
  payload !! "transactions" = Some (VList []) ->
  st = 200%Z
  /\ payload !! "summary" = Some VNone
  /\ (forall c, intent i = "customer" -> customer_id i = Some c ->
        (run (serve payload) (route_intent i)).2
        = Ok (RoutedResult.mk i
                (mkdict [("status", VStr "no_data");
                         ("reason", VStr "no_customer_transactions");
                         ("customerId", VInt c)])))
  /\ (forall p, intent i = "product" -> product_id i = Some p ->
        (run (serve payload) (route_intent i)).2
        = Ok (RoutedResult.mk i
                (mkdict [("status", VStr "no_data");
                         ("reason", VStr "no_product_transactions");
                         ("productId", VStr p)]))).
Proof.
  intros Hview Htx.
  assert (H : st = 200%Z /\ payload !! "summary" = Some VNone).
  { destruct Hview as [[c H] | [p H]]; revert H;
      [unfold flask_app.get_customer | unfold flask_app.get_product];
      cbv beta iota zeta delta [flask_app._parse_date_range_params];
      destruct (flask_app._build_date_range_where (args !! "from") (args !! "to"))
        as [w ps];
      destruct (truthy (VStr w));
      cbn [flask_app.run_view];
      (destruct (db _ _) as [[|row rows] | e]; [| | discriminate]).
    all: try (change (negb (truthy (VList (VDict <$> [])))) with true;
              cbn [flask_app.run_view snd jsonify];
              intros [= <- <-]; split; reflexivity).
    all: change (negb (truthy (VList (VDict <$> row :: rows)))) with false;
      cbv iota; cbn [flask_app.run_view].
    all: repeat (destruct (db _ _) as [? | ?]; cbn [flask_app.run_view]);
      cbn [snd jsonify]; try discriminate;
      intros [= <- <-]; exfalso;
      unfold mkdict in Htx; cbn [list_to_map foldr fst snd] in Htx;
      rewrite lookup_insert_ne, lookup_insert_eq in Htx by discriminate;
      discriminate Htx. }
  destruct H as [Hst Hsum]. split; [exact Hst |]. split; [exact Hsum |].
  exact (route_empty_payload payload i Htx Hsum).
Qed.

Lemma empty_history_is_no_data_witness :
  (flask_app.run_view no_rows (flask_app.get_customer 999 january)).2
  = Ok (Response
          (mkdict [("customerId", VInt 999);
                   ("transactions", VList []);
                   ("summary", VNone);
                   ("filters", flask_app.filters (Some "2024-01-01")
                                 (Some "2024-01-31"))])
          200)
  /\ (run (serve (mkdict [("customerId", VInt 999);
                          ("transactions", VList []);
                          ("summary", VNone);
                          ("filters", flask_app.filters (Some "2024-01-01")
                                        (Some "2024-01-31"))]))
        (route_intent (customer_intent (Some 999%Z)))).2
     = Ok (RoutedResult.mk (customer_intent (Some 999%Z))
             (mkdict [("status", VStr "no_data");
                      ("reason", VStr "no_customer_transactions");
                      ("customerId", VInt 999)])).
Proof.
  assert (H : (flask_app.run_view no_rows (flask_app.get_customer 999 january)).2
              = Ok (Response
                      (mkdict [("customerId", VInt 999);
                               ("transactions", VList []);
                               ("summary", VNone);
                               ("filters", flask_app.filters (Some "2024-01-01")
                                             (Some "2024-01-31"))])
                      200)) by reflexivity.
  split; [exact H |].
  apply (empty_history_is_no_data no_rows january _ 200
           (customer_intent (Some 999%Z)) (or_introl (ex_intro _ 999%Z H)) eq_refl);
    reflexivity.
Defined.

(** ** The HTTP client of the data service *)

Lemma startswith_api (base rest : string) :
  startswith (base +:+ "/api/") (base +:+ "/api/" +:+ rest) = true.
Proof. rewrite <- app_assoc_str. apply startswith_app. Qed.

Lemma run_client_get
    (requests_get : string -> option (list (string * value)) -> Z
                    -> result exn data_service.http_response)
    (url : string) (params : option (list (string * value))) (timeout : Z) :
  data_service.run_client requests_get
    (data_service.Get url params timeout data_service._handle_response)
  = ([(url, params, timeout)],
     match requests_get url params timeout with
     | Ok resp =>
         if data_service.ok resp then
           match data_service.json resp with
           | Some v => Ok v
           | None =>
               Raised (data_service.DataServiceError
                         "API response was not valid JSON")
           end
         else
           Raised (data_service.DataServiceError
                     ("API request failed: "
                      +:+ pretty (data_service.status_code resp) +:+ " "
                      +:+ data_service.text resp))
     | Raised e => Raised e
     end).
Proof.
  cbn [data_service.run_client].
  destruct (requests_get url params timeout) as [resp | e]; [| reflexivity].
  unfold data_service._handle_response.
  destruct (data_service.ok resp); cbn [negb]; [| reflexivity].
  destruct (data_service.json resp); reflexivity.
Qed.

(** Every function of the data service ends in one GET handled by
    [_handle_response]. *)
Lemma data_service_call_get (base : string) (r : request) :
  exists rest params,
    data_service_call base r
    = data_service.Get (base +:+ "/api/" +:+ rest) params 10
        data_service._handle_response.
Proof.
  destruct r; cbn [data_service_call];
    [unfold data_service.get_customer | unfold data_service.get_product
    | unfold data_service.get_metrics_summary
    | unfold data_service.get_metrics_by_category
    | unfold data_service.get_metrics_by_payment
    | unfold data_service.get_top_customers
    | unfold data_service.get_top_products];
    cbv zeta; eexists _, _; reflexivity.
Qed.

(** X26.  Each function of the data service makes one GET, with a
    timeout of 10 seconds, to a URL under [API_BASE_URL]/api/.  An
    exception of the transport is passed on unchanged; a response that is
    not ok is a [DataServiceError] naming its status code and text, even
    when its body is valid JSON; an ok response whose body is not JSON is
    a [DataServiceError]; otherwise the decoded body is returned. *)
Theorem data_service_outcomes (base : string)
    (requests_get : string -> option (list (string * value)) -> Z
                    -> result exn data_service.http_response)
    (r : request) :
  exists url params,
    (data_service.run_client requests_get (data_service_call base r)).1
    = [(url, params, 10%Z)]
    /\ startswith (base +:+ "/api/") url = true
    /\ (forall e, requests_get url params 10%Z = Raised e ->
          (data_service.run_client requests_get (data_service_call base r)).2
          = Raised e)
    /\ (forall resp, requests_get url params 10%Z = Ok resp ->
          data_service.ok resp = false ->
          (data_service.run_client requests_get (data_service_call base r)).2
          = Raised (data_service.DataServiceError
                      ("API request failed: "
                       +:+ pretty (data_service.status_code resp) +:+ " "
                       +:+ data_service.text resp)))
    /\ (forall resp, requests_get url params 10%Z = Ok resp ->
          data_service.ok resp = true ->
          data_service.json resp = None ->
          (data_service.run_client requests_get (data_service_call base r)).2
          = Raised (data_service.DataServiceError
                      "API response was not valid JSON"))
    /\ (forall resp v, requests_get url params 10%Z = Ok resp ->
          data_service.ok resp = true ->
          data_service.json resp = Some v ->
          (data_service.run_client requests_get (data_service_call base r)).2
          = Ok v).
Proof.
  destruct (data_service_call_get base r) as (rest & params & ->).
  exists (base +:+ "/api/" +:+ rest), params.
  rewrite run_client_get. cbn [fst snd].
  split; [reflexivity |]. split; [apply startswith_api |].
  split; [intros e -> ; reflexivity |].
  split; [intros resp -> -> ; reflexivity |].
  split; [intros resp -> -> -> ; reflexivity | intros resp v -> -> -> ; reflexivity].
Qed.

(** X27.  The GET of each function of the data service goes to the path
    of its endpoint under [API_BASE_URL], the product id being written
    into the path as it is.  Its query has "from" and "to" for the bounds
    that are neither absent nor empty, "limit" for the two top-N
    functions and no other key; the other five functions pass
    [params=None] when neither bound is sent. *)
Theorem data_service_query
    (base : string)
    (requests_get : string -> option (list (string * value)) -> Z
                    -> result exn data_service.http_response)
    (r : request) :
  exists params,
    (data_service.run_client requests_get (data_service_call base r)).1
    = [(base +:+ request_path r, params, 10%Z)]
    /\ mkdict (default [] params) !! "from" = sent_bound (request_dates r).1
    /\ mkdict (default [] params) !! "to" = sent_bound (request_dates r).2
    /\ mkdict (default [] params) !! "limit" = VInt <$> request_limit r
    /\ (forall k, k ∉ ["limit"; "from"; "to"] ->
          mkdict (default [] params) !! k = None)
    /\ (params = None
        <-> request_limit r = None
            /\ sent_bound (request_dates r).1 = None
            /\ sent_bound (request_dates r).2 = None).
Proof.
  assert (Hk : forall (k : string) (l : list (string * value)),
             k ∉ ["limit"; "from"; "to"] ->
             Forall (fun kv => kv.1 ∈ ["limit"; "from"; "to"]) l ->
             mkdict l !! k = None).
  { intros k l Hk Hl. unfold mkdict. apply not_elem_of_list_to_map.
    intros Hin. apply list_elem_of_fmap in Hin as ([k' v] & -> & Hin).
    rewrite Forall_forall in Hl. exact (Hk (Hl _ Hin)). }
  destruct r as [c f t | p f t | f t | f t | f t | n f t | n f t];
    cbn [data_service_call request_path request_dates request_limit fst snd];
    [unfold data_service.get_customer | unfold data_service.get_product
    | unfold data_service.get_metrics_summary
    | unfold data_service.get_metrics_by_category
    | unfold data_service.get_metrics_by_payment
    | unfold data_service.get_top_customers
    | unfold data_service.get_top_products];
    cbv zeta; rewrite run_client_get; cbn [fst];
    destruct f as [f|], t as [t|]; cbn [of_opt_str truthy sent_bound];
    try destruct (String.eqb f ""); try destruct (String.eqb t "");
    cbn [negb app data_service.params_or_None];
    eexists; (split; [reflexivity |]); cbn [default from_option id fmap option_fmap option_map];
    (split; [reflexivity |]); (split; [reflexivity |]); (split; [reflexivity |]);
    (split; [intros k Hnot; apply (Hk k _ Hnot); repeat constructor;
             cbn [fst]; rewrite !elem_of_cons; auto |]);
    split; intros H; try discriminate H; try (destruct H as (H1 & H2 & H3); discriminate);
    try reflexivity; auto.
Qed.

(** ** Loading the CSV *)

Lemma inserted_lines_S (total : Z) (q : nat) :
  inserted_lines total (S q)
  = ("Inserted " +:+ pretty (total + 2000)%Z +:+ " rows...")
    :: inserted_lines (total + 2000) q.
Proof.
  unfold inserted_lines. cbn [seq fmap list_fmap]. f_equal.
  rewrite <- fmap_S_seq, <- list_fmap_compose. apply list_fmap_ext.
  intros _ j _. cbn [compose].
  now replace (total + 2000 * Z.of_nat (S j))%Z
    with (total + 2000 + 2000 * Z.of_nat j)%Z by lia.
Qed.

Lemma str_in_mid (w pre s post : string) :
  str_in w s = true -> str_in w (pre +:+ s +:+ post) = true.
Proof.
  intros H. apply str_in_split in H as (a & b & ->).
  rewrite !app_assoc_str, <- (app_assoc_str pre a). apply str_in_app.
Qed.

Lemma append_empty_r (s : string) : s +:+ "" = s.
Proof. induction s as [|c s IH]; simpl; [reflexivity | now rewrite IH]. Qed.

Lemma str_in_join (sep c : string) (l : list string) :
  c ∈ l -> str_in c (str_join sep l) = true.
Proof.
  induction l as [|x l IH]; [intros H; now apply elem_of_nil in H |].
  intros H. apply elem_of_cons in H as [-> | H].
  - destruct l as [|y l]; cbn [str_join].
    + rewrite <- (append_empty_r x) at 2. apply (str_in_app x "" "").
    + apply (str_in_app x "").
  - destruct l as [|y l]; [now apply elem_of_nil in H |].
    change (str_join sep (x :: y :: l))
      with (x +:+ sep +:+ str_join sep (y :: l)).
    rewrite <- app_assoc_str, <- (append_empty_r (str_join sep (y :: l))).
    apply str_in_mid, IH, H.
Qed.

Section LoaderFacts.
Variable py_int : string -> option Z.
Variable py_float : string -> option spec_float.
Variable reformat : string -> option string.
Variable show_row : gmap string string -> string.
Variable show_fieldnames : list string -> string.
Variable not_iterable : string.
Variable insert_error : list value -> option exn.

#[local] Abbreviation parse_row :=
  (load_csv_to_sqlite.parse_row py_int py_float reformat).
#[local] Abbreviation load_rows :=
  (load_csv_to_sqlite.load_rows py_int py_float reformat show_row insert_error).
#[local] Abbreviation load_csv :=
  (load_csv_to_sqlite.load_csv py_int py_float reformat show_row
     show_fieldnames not_iterable insert_error).

Lemma executemany_inserts (rows : list (list value)) :
  forall w : load_csv_to_sqlite.world,
    Forall (fun tuple => insert_error tuple = None) rows ->
    load_csv_to_sqlite.executemany insert_error rows w
    = (load_csv_to_sqlite.World (load_csv_to_sqlite.table w)
         (load_csv_to_sqlite.uncommitted w ++ rows)
         (load_csv_to_sqlite.stdout w),
       Ok tt).
Proof.
  induction rows as [|t rows IH]; intros w H.
  - rewrite app_nil_r. now destruct w.
  - apply Forall_cons in H as [Ht H].
    cbn [load_csv_to_sqlite.executemany]. rewrite Ht, (IH _ H).
    cbn [load_csv_to_sqlite.table load_csv_to_sqlite.uncommitted
           load_csv_to_sqlite.stdout].
    now rewrite <- app_assoc.
Qed.

(** The loop, on rows that parse followed by nothing or by a row that
    does not: the full batches are committed, the rest stays in [rows]. *)
Lemma load_rows_spec (good : list (gmap string string)) :
  forall (parsed : list (list value)) (tail : list (gmap string string))
         (pending : list (list value)) (total : Z)
         (w : load_csv_to_sqlite.world),
    Forall2 (fun row tuple => parse_row row = Some tuple) good parsed ->
    match tail with
    | [] => True
    | bad :: _ => parse_row bad = None
    end ->
    Forall (fun tuple => insert_error tuple = None) pending ->
    Forall (fun tuple => insert_error tuple = None) parsed ->
    length pending < 2000 ->
    load_csv_to_sqlite.uncommitted w = [] ->
    load_rows (good ++ tail) pending total w
    = (load_csv_to_sqlite.World
         (load_csv_to_sqlite.table w
          ++ take (2000 * (length (pending ++ parsed) / 2000)) (pending ++ parsed))
         []
         (load_csv_to_sqlite.stdout w
          ++ inserted_lines total (length (pending ++ parsed) / 2000)),
       match tail with
       | [] =>
           Ok (drop (2000 * (length (pending ++ parsed) / 2000)) (pending ++ parsed),
               (total + 2000 * Z.of_nat (length (pending ++ parsed) / 2000))%Z)
       | bad :: _ =>
           Raised (Exn "RuntimeError" ("Failed to parse row: " +:+ show_row bad))
       end).
Proof.
  induction good as [|row good IH];
    intros parsed tail pending total w Hp Ht Hok Hok' Hlen Hu.
  - apply Forall2_nil_inv_l in Hp as ->. rewrite app_nil_r.
    rewrite (Nat.div_small _ _ Hlen), Nat.mul_0_r. cbn [take drop app].
    unfold inserted_lines. cbn [seq fmap list_fmap].
    rewrite !app_nil_r, Z.mul_0_r, Z.add_0_r.
    destruct w as [tb un out]. cbn in Hu. subst un. cbn.
    destruct tail as [|bad rest]; cbn [load_csv_to_sqlite.load_rows];
      [reflexivity | now rewrite Ht].
  - apply Forall2_cons_inv_l in Hp as (t & parsed' & Hrow & Hp & ->).
    apply Forall_cons in Hok' as [Hokt Hok2].
    cbn [app load_csv_to_sqlite.load_rows]. rewrite Hrow.
    assert (Hall : pending ++ t :: parsed' = (pending ++ [t]) ++ parsed')
      by now rewrite <- app_assoc.
    rewrite Hall.
    destruct (Z.leb_spec load_csv_to_sqlite.batch_size
                (Z.of_nat (length (pending ++ [t])))) as [Hfull | Hroom];
      unfold load_csv_to_sqlite.batch_size in *.
    + assert (Hb : length (pending ++ [t]) = 2000)
        by (rewrite length_app in *; cbn [length] in *; lia).
      rewrite (executemany_inserts _ w)
        by (apply Forall_app; split; [exact Hok | now constructor]).
      rewrite (IH parsed' tail [] _ _ Hp Ht (Forall_nil_2 _) Hok2)
        by (cbn; lia || reflexivity).
      unfold load_csv_to_sqlite.print, load_csv_to_sqlite.commit.
      cbn [app load_csv_to_sqlite.table load_csv_to_sqlite.stdout
             load_csv_to_sqlite.uncommitted].
      rewrite Hu. cbn [app].
      assert (Hq : length ((pending ++ [t]) ++ parsed') / 2000
                   = S (length parsed' / 2000)).
      { rewrite length_app, Hb.
        change 2000 with (1 * 2000) at 1.
        rewrite Nat.div_add_l by lia. reflexivity. }
      rewrite Hq, inserted_lines_S.
      replace (2000 * S (length parsed' / 2000))
        with (2000 + 2000 * (length parsed' / 2000)) by lia.
      rewrite (take_app_add' _ _ _ _ (eq_sym Hb)),
        (drop_app_add' _ _ _ _ (eq_sym Hb)).
      rewrite Hb. rewrite <- !app_assoc. cbn [app].
      f_equal. destruct tail; [| reflexivity].
      do 2 f_equal. lia.
    + apply (IH parsed' tail (pending ++ [t]) total w Hp Ht);
        [apply Forall_app; split; [exact Hok | now constructor]
        | exact Hok2 | lia | exact Hu].
Qed.

Lemma nothing_missing (names : list string) :
  Forall (fun c => c ∈ names) load_csv_to_sqlite.expected_fields ->
  filter (fun c => negb (bool_decide (c ∈ names)))
    load_csv_to_sqlite.expected_fields = [].
Proof.
  intros H. induction H as [|c l Hc H IH]; [reflexivity |].
  rewrite filter_cons, IH. rewrite (bool_decide_eq_true_2 _ Hc). cbn.
  now destruct (decide _).
Qed.
(** X28.  When the header has every expected column (in any order, with
    or without others), every row parses and the database accepts every
    tuple, [load_csv] succeeds: the
    table gains the parsed rows, each once and in the order of the file,
    everything is committed, and the last line printed reports the number
    of rows of the file, after one progress line for every 2000 rows. *)
Theorem load_csv_inserts_every_row
    (reader : load_csv_to_sqlite.DictReader) (names : list string)
    (parsed : list (list value)) (w : load_csv_to_sqlite.world) :
  load_csv_to_sqlite.fieldnames reader = Some names ->
  Forall (fun c => c ∈ names) load_csv_to_sqlite.expected_fields ->
  mapM parse_row (load_csv_to_sqlite.reader_rows reader) = Some parsed ->
  Forall (fun tuple => insert_error tuple = None) parsed ->
  load_csv_to_sqlite.uncommitted w = [] ->
  load_csv reader w
  = (load_csv_to_sqlite.World
       (load_csv_to_sqlite.table w ++ parsed)
       []
       (load_csv_to_sqlite.stdout w
        ++ inserted_lines 0 (length parsed / 2000)
        ++ ["Finished inserting " +:+ pretty (Z.of_nat (length parsed))
            +:+ " rows into transactions."]),
     Ok tt).
Proof.
  intros Hn Hall Hp Hok Hu. apply mapM_Some in Hp.
  unfold load_csv_to_sqlite.load_csv. rewrite Hn, (nothing_missing _ Hall).
  rewrite (bool_decide_eq_true_2 _ eq_refl). cbn [negb].
  pose proof (load_rows_spec _ parsed [] [] 0%Z w Hp I (Forall_nil_2 _) Hok)
    as Hrun.
  rewrite app_nil_r in Hrun. cbn [app] in Hrun.
  rewrite Hrun by (cbn; lia || exact Hu). clear Hrun.
  set (q := length parsed / 2000).
  assert (Hq : 2000 * q <= length parsed) by (apply Nat.Div0.mul_div_le).
  pose proof (take_drop (2000 * q) parsed) as Htd.
  pose proof (length_drop parsed (2000 * q)) as Hld.
  assert (Hokd : Forall (fun tuple => insert_error tuple = None)
                   (drop (2000 * q) parsed)) by (apply Forall_drop, Hok).
  clearbody q.
  case_bool_decide as Hrest; cbn [negb];
    rewrite ?(executemany_inserts _ _ Hokd);
    unfold load_csv_to_sqlite.print, load_csv_to_sqlite.commit;
    cbn [load_csv_to_sqlite.table load_csv_to_sqlite.uncommitted
           load_csv_to_sqlite.stdout app].
  - rewrite Hrest in Htd, Hld. rewrite app_nil_r in Htd. cbn [length] in Hld.
    rewrite Htd.
    replace (0 + 2000 * Z.of_nat q)%Z with (Z.of_nat (length parsed)) by lia.
    rewrite <- app_assoc. reflexivity.
  - rewrite <- app_assoc, Htd, Hld.
    replace (0 + 2000 * Z.of_nat q
             + Z.of_nat (length parsed - 2000 * q))%Z
      with (Z.of_nat (length parsed)) by lia.
    rewrite <- app_assoc. reflexivity.
Qed.

(** X29.  When the header is complete and a row fails to parse,
    [load_csv] raises the [RuntimeError] of the first such row and the
    load is partial: of the rows before it (which the database accepts),
    the full batches of 2000 are
    in the table, committed, and the rows parsed after the last full
    batch are not inserted; no final line is printed. *)
Theorem load_csv_stops_at_bad_row
    (reader : load_csv_to_sqlite.DictReader) (names : list string)
    (good : list (gmap string string)) (bad : gmap string string)
    (rest : list (gmap string string))
    (parsed : list (list value)) (w : load_csv_to_sqlite.world) :
  load_csv_to_sqlite.fieldnames reader = Some names ->
  Forall (fun c => c ∈ names) load_csv_to_sqlite.expected_fields ->
  load_csv_to_sqlite.reader_rows reader = good ++ bad :: rest ->
  mapM parse_row good = Some parsed ->
  Forall (fun tuple => insert_error tuple = None) parsed ->
  parse_row bad = None ->
  load_csv_to_sqlite.uncommitted w = [] ->
  load_csv reader w
  = (load_csv_to_sqlite.World
       (load_csv_to_sqlite.table w
        ++ take (2000 * (length good / 2000)) parsed)
       []
       (load_csv_to_sqlite.stdout w
        ++ inserted_lines 0 (length good / 2000)),
     Raised (Exn "RuntimeError" ("Failed to parse row: " +:+ show_row bad))).
Proof.
  intros Hn Hall Hrows Hp Hok Hbad Hu. apply mapM_Some in Hp.
  unfold load_csv_to_sqlite.load_csv. rewrite Hn, (nothing_missing _ Hall).
  rewrite (bool_decide_eq_true_2 _ eq_refl). cbn [negb].
  rewrite Hrows.
  rewrite (load_rows_spec _ parsed (bad :: rest) [] 0%Z w Hp Hbad
             (Forall_nil_2 _) Hok)
    by (cbn; lia || exact Hu).
  cbn [app]. rewrite (Forall2_length _ _ _ Hp). reflexivity.
Qed.

(** X30.  [load_csv] checks the header before it reads a row: with an
    expected column missing it raises a [RuntimeError] that names the
    column, and with no header at all (an empty file) the [TypeError] of
    the membership test escapes; in both cases the table is untouched and
    nothing is printed, whatever rows follow. *)
Theorem load_csv_checks_the_header
    (reader : load_csv_to_sqlite.DictReader) (w : load_csv_to_sqlite.world) :
  (load_csv_to_sqlite.fieldnames reader = None ->
   load_csv reader w = (w, Raised (Exn "TypeError" not_iterable)))
  /\ (forall names c,
        load_csv_to_sqlite.fieldnames reader = Some names ->
        c ∈ load_csv_to_sqlite.expected_fields ->
        c ∉ names ->
        exists msg,
          load_csv reader w = (w, Raised (Exn "RuntimeError" msg))
          /\ startswith "CSV is missing expected columns: " msg = true
          /\ str_in c msg = true).
Proof.
  split.
  - intros Hn. unfold load_csv_to_sqlite.load_csv. now rewrite Hn.
  - intros names c Hn Hc Hmiss. unfold load_csv_to_sqlite.load_csv. rewrite Hn.
    set (missing := filter _ load_csv_to_sqlite.expected_fields).
    assert (Hin : c ∈ missing).
    { apply list_elem_of_filter. split; [| exact Hc].
      now rewrite (bool_decide_eq_false_2 _ Hmiss). }
    case_bool_decide as Hnil; [rewrite Hnil in Hin; now apply elem_of_nil in Hin |].
    cbn [negb]. eexists. split; [reflexivity |].
    split; [apply startswith_app |].
    apply str_in_mid, str_in_join, Hin.
Qed.
End LoaderFacts.


Lemma load_csv_inserts_every_row_witness :
  load_csv_to_sqlite.load_csv int_of_text float_of_text date_of_text
    show_row_fixture show_names_fixture "not iterable" int64_error two_rows fresh_world
  = (load_csv_to_sqlite.World [csv_tuple 5; csv_tuple 50] []
       ["Finished inserting 2 rows into transactions."],
     Ok tt).
Proof.
  apply (load_csv_inserts_every_row int_of_text float_of_text date_of_text
           show_row_fixture show_names_fixture "not iterable" int64_error
           two_rows shuffled_header [csv_tuple 5; csv_tuple 50] fresh_world);
    [reflexivity | | reflexivity | | reflexivity];
    apply (bool_decide_unpack _); vm_compute; exact I.
Defined.

Lemma load_csv_stops_at_bad_row_witness :
  load_csv_to_sqlite.load_csv int_of_text float_of_text date_of_text
    show_row_fixture show_names_fixture "not iterable" int64_error second_row_bad fresh_world
  = (fresh_world, Raised (Exn "RuntimeError" "Failed to parse row: {...}")).
Proof.
  apply (load_csv_stops_at_bad_row int_of_text float_of_text date_of_text
           show_row_fixture show_names_fixture "not iterable" int64_error
           second_row_bad shuffled_header [csv_row "5"] (csv_row "x")
           [csv_row "50"] [csv_tuple 5] fresh_world);
    [reflexivity | | reflexivity | reflexivity | | reflexivity | reflexivity];
    apply (bool_decide_unpack _); vm_compute; exact I.
Defined.

Lemma load_csv_checks_the_header_witness :
  load_csv_to_sqlite.load_csv int_of_text float_of_text date_of_text
    show_row_fixture show_names_fixture "not iterable" int64_error empty_file fresh_world
  = (fresh_world, Raised (Exn "TypeError" "not iterable"))
  /\ exists msg,
       load_csv_to_sqlite.load_csv int_of_text float_of_text date_of_text
         show_row_fixture show_names_fixture "not iterable" int64_error short_header
         fresh_world
       = (fresh_world, Raised (Exn "RuntimeError" msg))
       /\ startswith "CSV is missing expected columns: " msg = true
       /\ str_in "ProductID" msg = true.
Proof.
  split.
  - exact (proj1 (load_csv_checks_the_header int_of_text float_of_text
                    date_of_text show_row_fixture show_names_fixture
                    "not iterable" int64_error empty_file fresh_world) eq_refl).
  - apply (proj2 (load_csv_checks_the_header int_of_text float_of_text
                    date_of_text show_row_fixture show_names_fixture
                    "not iterable" int64_error short_header fresh_world)
             ["CustomerID"; "Quantity"] "ProductID" eq_refl);
      apply (bool_decide_unpack _); vm_compute; exact I.
Defined.
